(** * PSWController: the SCPI command/response layer of the PSW bench supply

    A shallow embedding of the class [PSWController] of [main.py] and
    [ver2.py] (the two files share the basic controller; [ver2.py] adds
    remote/local, OVP/OCP and the protection-status query), together with
    the Python built-ins it calls ([str.strip], [str.split], [int],
    [float], the [.4f] format, [encode]/[decode]) and a model of the
    pyserial port it drives.

    Conventions.
    - A Python [str] is a [string]; the replies handled here are the
      result of [decode("ascii", errors="ignore")], hence ASCII.
    - Python [bytes] are [list byte].
    - A Python [float] is a binary64 number: [PrimFloat.float].  Its
      decimal input and output go through [SpecFloat], by exact integer
      arithmetic.
    - A Python [int] is a [Z]; [int(text)] is that of CPython 3.11 and
      later with its default settings, which converts a decimal literal
      of at most 4300 digits and raises [ValueError] on a longer one.
    - A method is a function of the controller state that returns a
      result together with the new state; a raised exception keeps the
      mutations made before it, as in Python.
    - The serial link is ideal: an open port accepts every write and
      [readline] returns what the instrument has sent (up to the first
      line feed, or everything pending when the read times out). *)

From Stdlib Require Import ZArith List String Ascii Bool Lia.
From Stdlib.Strings Require Import Byte.
From Stdlib Require Import Decimal DecimalString DecimalPos DecimalN.
From Stdlib Require Import PrimFloat SpecFloat FloatOps.
Import ListNotations.

#[local] Open Scope string_scope.
#[local] Open Scope Z_scope.

(** Decimal float literals denote the nearest binary64 number, as they do
    in Python. *)
#[local] Set Warnings "-inexact-float".

(** ** Python built-ins *)

Module Py.

(** Code point of a character. *)
Definition ord (c : ascii) : Z := Z.of_N (N_of_ascii c).

Definition is_digit (c : ascii) : bool := (48 <=? ord c) && (ord c <=? 57).

Definition digit_value (c : ascii) : Z := ord c - 48.

(** [str.isspace] on an ASCII character: TAB, LF, VT, FF, CR, the four
    separators FS, GS, RS, US, and the space. *)
Definition str_isspace (c : ascii) : bool :=
  ((9 <=? ord c) && (ord c <=? 13)) || ((28 <=? ord c) && (ord c <=? 31))
  || (ord c =? 32).

(** The narrower C-locale white space that [int] and [float] skip around
    an ASCII literal: TAB, LF, VT, FF, CR and the space. *)
Definition c_isspace (c : ascii) : bool :=
  ((9 <=? ord c) && (ord c <=? 13)) || (ord c =? 32).

Fixpoint lstrip_with (sp : ascii -> bool) (s : string) : string :=
  match s with
  | String c s' => if sp c then lstrip_with sp s' else s
  | EmptyString => EmptyString
  end.

Fixpoint rstrip_with (sp : ascii -> bool) (s : string) : string :=
  match s with
  | String c s' =>
      match rstrip_with sp s' with
      | EmptyString => if sp c then EmptyString else String c EmptyString
      | r => String c r
      end
  | EmptyString => EmptyString
  end.

(** [s.lstrip()], [s.rstrip()] and [s.strip()]. *)
Definition lstrip : string -> string := lstrip_with str_isspace.
Definition rstrip : string -> string := rstrip_with str_isspace.
Definition strip (s : string) : string := rstrip (lstrip s).

(** [s.split(sep)] for a one-character separator: the fields between the
    separators, always at least one. *)
Fixpoint split (sep : ascii) (s : string) : list string :=
  match s with
  | EmptyString => [EmptyString]
  | String c s' =>
      if Ascii.eqb c sep then EmptyString :: split sep s'
      else match split sep s' with
           | f :: fs => String c f :: fs
           | [] => [String c EmptyString]
           end
  end.

(** [cmd.encode("ascii")]: the bytes of [cmd], or [None] (a
    [UnicodeEncodeError]) when a character is outside ASCII. *)
Definition is_ascii (c : ascii) : bool := ord c <? 128.

Fixpoint all_chars (p : ascii -> bool) (s : string) : bool :=
  match s with
  | EmptyString => true
  | String c s' => p c && all_chars p s'
  end.

Definition encode_ascii (s : string) : option (list byte) :=
  if all_chars is_ascii s then Some (list_byte_of_string s) else None.

(** [data.decode("ascii", errors="ignore")]: bytes of 128 and above are
    dropped, the others are kept in order. *)
Definition decode_ascii_ignore (data : list byte) : string :=
  string_of_list_byte (filter (fun b => (Byte.to_N b <? 128)%N) data).

(** *** [int(s)] in base 10 *)

(** The digits of a literal, most significant first; one underscore is
    allowed between two digits.  [prev] tells whether the previous
    character was a digit. *)
Fixpoint digitpart (prev : bool) (acc : Z) (s : string) : option Z :=
  match s with
  | EmptyString => if prev then Some acc else None
  | String c s' =>
      if is_digit c then digitpart true (10 * acc + digit_value c) s'
      else if Ascii.eqb c "_" then
        match s' with
        | String d _ => if prev && is_digit d then digitpart false acc s' else None
        | EmptyString => None
        end
      else None
  end.

(** The number of decimal digits in [s]; underscores do not count. *)
Fixpoint count_digits (s : string) : Z :=
  match s with
  | EmptyString => 0
  | String c s' => (if is_digit c then 1 else 0) + count_digits s'
  end.

(** [sys.get_int_max_str_digits()]: the interpreter's default limit on
    the digits of a decimal literal that [int] converts (CPython 3.11 and
    later).  Leading zeros count, the sign and underscores do not. *)
Definition int_max_str_digits : Z := 4300.

(** The digits of a literal past its sign: a [ValueError] when they are
    more than the limit, as when they are malformed. *)
Definition int_digits (ds : string) : option Z :=
  if count_digits ds <=? int_max_str_digits then digitpart false 0 ds else None.

(** [int(s)], or [None] for its [ValueError]. *)
Definition py_int (s : string) : option Z :=
  match rstrip_with c_isspace (lstrip_with c_isspace s) with
  | String "-" ds => option_map Z.opp (int_digits ds)
  | String "+" ds => int_digits ds
  | ds => int_digits ds
  end.

(** *** The format specification [.4f] *)

(** Decimal digits of a natural number, without sign or padding. *)
Definition str_of_nat (n : Z) : string :=
  NilEmpty.string_of_uint (N.to_uint (Z.to_N n)).

Definition digit_char (d : Z) : ascii := ascii_of_N (Z.to_N (48 + d)).

(** [num / den] rounded to the nearest integer, ties to the even one. *)
Definition round_half_even (num den : Z) : Z :=
  let q := num / den in
  match 2 * (num mod den) ?= den with
  | Lt => q
  | Gt => q + 1
  | Eq => if Z.even q then q else q + 1
  end.

(** The magnitude [m * 2^e] counted in ten-thousandths, correctly
    rounded: the conversion is exact, as in CPython's [dtoa]. *)
Definition scaled4 (m : positive) (e : Z) : Z :=
  if 0 <=? e then Z.pos m * 2 ^ e * 10000
  else round_half_even (Z.pos m * 10000) (2 ^ (- e)).

(** [n] ten-thousandths in fixed notation: integer part, point, four
    digits. *)
Definition fixed4 (n : Z) : string :=
  (str_of_nat (n / 10000) ++ "." ++
   String (digit_char (n / 1000 mod 10))
     (String (digit_char (n / 100 mod 10))
        (String (digit_char (n / 10 mod 10))
           (String (digit_char (n mod 10)) EmptyString))))%string.

Definition sign_str (s : bool) : string := if s then "-" else "".

Definition format_4f_sf (x : spec_float) : string :=
  match x with
  | S754_nan => "nan"
  | S754_infinity s => (sign_str s ++ "inf")%string
  | S754_zero s => (sign_str s ++ fixed4 0)%string
  | S754_finite s m e => (sign_str s ++ fixed4 (scaled4 m e))%string
  end.

(** [f"{x:.4f}"]. *)
Definition format_4f (x : float) : string := format_4f_sf (Prim2SF x).

(** [math.isfinite(x)]. *)
Definition isfinite (x : float) : bool :=
  match Prim2SF x with
  | S754_zero _ | S754_finite _ _ _ => true
  | S754_infinity _ | S754_nan => false
  end.

(** *** [float(s)] *)

(** An underscore must stand between two digits.  [prev] is the previous
    character. *)
Fixpoint underscores_ok (prev : option ascii) (s : string) : bool :=
  match s with
  | EmptyString =>
      match prev with Some p => negb (Ascii.eqb p "_") | None => true end
  | String c s' =>
      (if Ascii.eqb c "_" then
         match prev with Some p => is_digit p | None => false end
       else
         match prev with
         | Some p => if Ascii.eqb p "_" then is_digit c else true
         | None => true
         end)
      && underscores_ok (Some c) s'
  end.

Fixpoint remove_underscores (s : string) : string :=
  match s with
  | EmptyString => EmptyString
  | String c s' =>
      if Ascii.eqb c "_" then remove_underscores s'
      else String c (remove_underscores s')
  end.

Definition lower (c : ascii) : ascii :=
  if (65 <=? ord c) && (ord c <=? 90) then ascii_of_N (N_of_ascii c + 32)
  else c.

Fixpoint lower_str (s : string) : string :=
  match s with
  | EmptyString => EmptyString
  | String c s' => String (lower c) (lower_str s')
  end.

(** The longest run of digits at the head of [s]: its value on top of
    [acc], its length on top of [n], and what follows it. *)
Fixpoint take_digits (acc n : Z) (s : string) : Z * Z * string :=
  match s with
  | String c s' =>
      if is_digit c then take_digits (10 * acc + digit_value c) (n + 1) s'
      else (acc, n, s)
  | EmptyString => (acc, n, s)
  end.

(** What follows the mantissa: nothing, or [e], an optional sign and at
    least one digit. *)
Definition parse_exponent (s : string) : option Z :=
  match s with
  | EmptyString => Some 0
  | String c s' =>
      if Ascii.eqb (lower c) "e" then
        let '(neg, ds) :=
          match s' with
          | String "-" r => (true, r)
          | String "+" r => (false, r)
          | _ => (false, s')
          end in
        match take_digits 0 0 ds with
        | (v, n, EmptyString) =>
            if 0 <? n then Some (if neg then - v else v) else None
        | _ => None
        end
      else None
  end.

(** A decimal literal without sign: [Some (m, k)] stands for
    [m * 10^k]. *)
Definition parse_decimal (s : string) : option (Z * Z) :=
  let '(ip, ni, r1) := take_digits 0 0 s in
  let '(m, nf, r2) :=
    match r1 with
    | String "." r => take_digits ip 0 r
    | _ => (ip, 0, r1)
    end in
  if 0 <? ni + nf then
    option_map (fun ex => (m, ex - nf)) (parse_exponent r2)
  else None.

(** The binary64 number nearest to [n / d] (ties to even, overflow to
    infinity), for [0 <= n] and [0 < d].  The quotient is taken with more
    than 64 bits and a sticky bit, which rounds like the exact value. *)
Definition round_ratio (neg : bool) (n d : Z) : float :=
  if n =? 0 then SF2Prim (S754_zero neg)
  else
    let s := Z.max 0 (Z.log2 d + 64 - Z.log2 n) in
    let q := (n * 2 ^ s) / d in
    let sticky := if (n * 2 ^ s) mod d =? 0 then 0 else 1 in
    let m := 2 * q + sticky in
    SF2Prim (binary_normalize prec emax (if neg then - m else m) (- s - 1) neg).

Definition round_decimal (neg : bool) (m k : Z) : float :=
  if 0 <=? k then round_ratio neg (m * 10 ^ k) 1
  else round_ratio neg m (10 ^ (- k)).

Definition py_float (s : string) : option float :=
  if underscores_ok None s then
    let t := rstrip_with c_isspace (lstrip_with c_isspace (remove_underscores s)) in
    let '(neg, body) :=
      match t with
      | String "-" r => (true, r)
      | String "+" r => (false, r)
      | _ => (false, t)
      end in
    let lb := lower_str body in
    if String.eqb lb "inf" || String.eqb lb "infinity" then
      Some (if neg then neg_infinity else infinity)
    else if String.eqb lb "nan" then Some nan
    else option_map (fun '(m, k) => round_decimal neg m k) (parse_decimal body)
  else None.

End Py.

(** ** Exceptions and outcomes *)

Inductive exn : Type :=
| RuntimeError (msg : string)
| ValueError
| UnicodeEncodeError
| AttributeError
| SerialException
| PortNotOpenError.

Inductive result (A : Type) : Type :=
| Ok (a : A)
| Raise (e : exn).

Arguments Ok {A} a.
Arguments Raise {A} e.

(** The exception an outcome carries, if any. *)
Definition failure {A : Type} (r : result A) : option exn :=
  match r with
  | Ok _ => None
  | Raise e => Some e
  end.

Definition CRLF : string := String "013" (String "010" EmptyString).

(** ** The pyserial port *)

Module Serial.

(** An open or closed port.  [tx] logs the argument of every [write],
    the most recent first; [rx] holds the bytes received and not yet
    read; [device] is the instrument at the other end of the line: what
    it sends back after a write, as a function of all it has been sent
    (most recent first). *)
Record t : Type := mk {
  is_open : bool;
  tx : list (list byte);
  rx : list byte;
  device : list (list byte) -> list byte
}.

(** [port.write(data)]. *)
Definition write (data : list byte) (p : t) : result (unit * t) :=
  if is_open p then
    let sent := data :: tx p in
    Ok (tt, mk true sent (rx p ++ device p sent) (device p))
  else Raise PortNotOpenError.

(** The pending bytes up to and including the first line feed, or all of
    them when there is none (the read then ends by time-out), and the
    bytes that stay pending. *)
Fixpoint take_line (data : list byte) : list byte * list byte :=
  match data with
  | [] => ([], [])
  | b :: rest =>
      if Byte.eqb b x0a then ([b], rest)
      else let '(line, rest') := take_line rest in (b :: line, rest')
  end.

(** [port.readline()]. *)
Definition readline (p : t) : result (list byte * t) :=
  if is_open p then
    let '(line, rest) := take_line (rx p) in
    Ok (line, mk true (tx p) rest (device p))
  else Raise PortNotOpenError.

(** [port.close()]. *)
Definition close (p : t) : t := mk false (tx p) (rx p) (device p).

End Serial.

(** ** The controller *)

(** The instance attributes set by [__init__]. *)
Record PSWController : Type := mkPSW {
  ser : option Serial.t;
  target_v : float;
  target_i : float
}.

Definition init : PSWController := mkPSW None 0%float 0%float.

(** A method body: from the state of [self] to an outcome and the new
    state of [self]. *)
Definition M (A : Type) : Type := PSWController -> result A * PSWController.

Definition ret {A : Type} (a : A) : M A := fun c => (Ok a, c).

Definition raise {A : Type} (e : exn) : M A := fun c => (Raise e, c).

Definition bind {A B : Type} (m : M A) (k : A -> M B) : M B :=
  fun c =>
    match m c with
    | (Ok a, c') => k a c'
    | (Raise e, c') => (Raise e, c')
    end.

(** [try: m except Exception: h]. *)
Definition try_except {A : Type} (m : M A) (h : exn -> M A) : M A :=
  fun c =>
    match m c with
    | (Ok a, c') => (Ok a, c')
    | (Raise e, c') => h e c'
    end.

Definition gets {A : Type} (f : PSWController -> A) : M A :=
  fun c => (Ok (f c), c).

Definition modify (f : PSWController -> PSWController) : M unit :=
  fun c => (Ok tt, f c).

Definition of_option {A : Type} (e : exn) (o : option A) : M A :=
  match o with
  | Some a => ret a
  | None => raise e
  end.

Declare Scope psw_scope.
Delimit Scope psw_scope with psw.
Notation "x <- m ;; k" := (bind m (fun x => k))
  (at level 61, m at next level, right associativity) : psw_scope.
Notation "' pat <- m ;; k" := (bind m (fun pat => k))
  (at level 61, pat pattern, m at next level, right associativity) : psw_scope.
Notation "m ;; k" := (bind m (fun _ => k))
  (at level 61, right associativity) : psw_scope.
#[local] Open Scope psw_scope.

Definition set_ser (s : option Serial.t) (c : PSWController) : PSWController :=
  mkPSW s (target_v c) (target_i c).

Definition set_target_v (v : float) (c : PSWController) : PSWController :=
  mkPSW (ser c) v (target_i c).

Definition set_target_i (i : float) (c : PSWController) : PSWController :=
  mkPSW (ser c) (target_v c) i.

(** [self.ser.method(...)]: on [None] the attribute access fails; else
    the port is replaced by its new state. *)
Definition on_ser {A : Type} (f : Serial.t -> result (A * Serial.t)) : M A :=
  fun c =>
    match ser c with
    | None => (Raise AttributeError, c)
    | Some p =>
        match f p with
        | Ok (a, p') => (Ok a, set_ser (Some p') c)
        | Raise e => (Raise e, c)
        end
    end.

(** [open]: [port] is the outcome of the constructor [serial.Serial],
    an open port or the exception it raised. *)
Definition open (port : result Serial.t) : M unit :=
  match port with
  | Ok p => modify (set_ser (Some p))
  | Raise e => raise e
  end.

Definition close : M unit :=
  modify (fun c =>
    match ser c with
    | Some p =>
        if Serial.is_open p then set_ser None (set_ser (Some (Serial.close p)) c)
        else set_ser None c
    | None => set_ser None c
    end).

Definition is_open (c : PSWController) : bool :=
  match ser c with
  | Some p => Serial.is_open p
  | None => false
  end.

Definition _write (cmd : string) : M unit :=
  opened <- gets is_open ;;
  if negb opened then raise (RuntimeError "Serial port not open")
  else
    line <- of_option UnicodeEncodeError (Py.encode_ascii (cmd ++ CRLF)) ;;
    on_ser (Serial.write line).

Definition _readline : M string :=
  opened <- gets is_open ;;
  if negb opened then raise (RuntimeError "Serial port not open")
  else
    data <- on_ser Serial.readline ;;
    ret (Py.strip (Py.decode_ascii_ignore data)).

Definition query (cmd : string) : M string :=
  _write cmd ;;
  _readline.

Definition get_idn : M string := query "*IDN?".

Definition apply_vi : M unit :=
  v <- gets target_v ;;
  i <- gets target_i ;;
  _write ("APPLy " ++ Py.format_4f v ++ "," ++ Py.format_4f i).

Definition set_voltage (v : float) : M unit :=
  modify (set_target_v v) ;;
  apply_vi.

Definition set_current (i : float) : M unit :=
  modify (set_target_i i) ;;
  apply_vi.

Definition output_on : M unit := _write "OUTPut:STATe ON".

Definition output_off : M unit := _write "OUTPut:STATe OFF".

(** [v_str, i_str = fields]: exactly two fields, else [ValueError]. *)
Definition unpack2 (fields : list string) : M (string * string) :=
  match fields with
  | [a; b] => ret (a, b)
  | _ => raise ValueError
  end.

Definition float_of (s : string) : M float := of_option ValueError (Py.py_float s).

Definition int_of (s : string) : M Z := of_option ValueError (Py.py_int s).

(** The tuple [(v, i, reply)], where [None] stands for Python's [None]. *)
Definition measure_all : M (option float * option float * string) :=
  reply <- query "MEASure:SCALar:ALL?" ;;
  try_except
    ('(v_str, i_str) <- unpack2 (Py.split "," reply) ;;
     v <- float_of v_str ;;
     i <- float_of i_str ;;
     ret (Some v, Some i, reply))
    (fun _ => ret (None, None, reply)).

Definition set_remote (remote : bool) : M unit :=
  if remote then _write "SYSTem:REMote" else _write "SYSTem:LOCal".

Definition set_ovp (v : float) : M unit :=
  _write ("SOURce:VOLTage:PROTection:LEVel " ++ Py.format_4f v).

Definition get_ovp : M float :=
  reply <- query "SOURce:VOLTage:PROTection:LEVel?" ;;
  float_of reply.

Definition disable_ovp : M unit := _write "SOURce:VOLTage:PROTection:LEVel MAX".

Definition set_ocp (i : float) : M unit :=
  _write ("SOURce:CURRent:PROTection:LEVel " ++ Py.format_4f i).

Definition get_ocp : M float :=
  reply <- query "SOURce:CURRent:PROTection:LEVel?" ;;
  float_of reply.

Definition disable_ocp : M unit := _write "SOURce:CURRent:PROTection:LEVel MAX".

(** [bool(s & mask)]. *)
Definition bool_and (s mask : Z) : bool := negb (Z.land s mask =? 0).

Definition get_protection_status : M (bool * bool * Z) :=
  reply <- query "STATus:QUEStionable:CONDition?" ;;
  s <- int_of reply ;;
  let ov := bool_and s 1 in
  let oc := bool_and s 2 in
  ret (ov, oc, s).

(** ** Instruments for concrete runs *)

(** Equality of two byte sequences. *)
Definition list_byte_eqb (a b : list byte) : bool :=
  if list_eq_dec Byte.byte_eq_dec a b then true else false.

(** What follows [pre] in [data], when [data] begins with [pre]. *)
Fixpoint strip_prefix (pre data : list byte) : option (list byte) :=
  match pre, data with
  | [], _ => Some data
  | p :: pre', d :: data' => if Byte.eqb p d then strip_prefix pre' data' else None
  | _ :: _, [] => None
  end.

(** An instrument that never answers. *)
Definition silent : list (list byte) -> list byte := fun _ => [].

(** An instrument that answers every command with the bytes [reply]. *)
Definition replies (reply : list byte) : list (list byte) -> list byte :=
  fun _ => reply.

(** The argument of the most recent OVP level command among the lines
    [sent], terminator included. *)
Fixpoint last_ovp_level (sent : list (list byte)) : option (list byte) :=
  match sent with
  | [] => None
  | line :: older =>
      match strip_prefix (list_byte_of_string "SOURce:VOLTage:PROTection:LEVel ") line with
      | Some arg => Some arg
      | None => last_ovp_level older
      end
  end.

(** Modelled from the spec: the transport that echoes the set value back
    on query, which the repository does not contain.  On the OVP level
    query this instrument sends back the argument of the most recent OVP
    level command, and it sends nothing otherwise. *)
Definition echo_ovp : list (list byte) -> list byte :=
  fun sent =>
    match sent with
    | line :: older =>
        if list_byte_eqb line (list_byte_of_string ("SOURce:VOLTage:PROTection:LEVel?" ++ CRLF))
        then match last_ovp_level older with
             | Some arg => arg
             | None => []
             end
        else []
    | [] => []
    end.

(** A controller connected to [device] through a freshly opened port. *)
Definition connected (device : list (list byte) -> list byte) (v i : float)
  : PSWController :=
  mkPSW (Some (Serial.mk true [] [] device)) v i.

(** The decimal text of [10 ^ 4300], the least unsigned integer of 4301
    digits: one digit more than [int] converts. *)
Definition long_register : string := Py.str_of_nat (10 ^ Py.int_max_str_digits).

(** ** Vocabulary of the specification *)

(** The specification's [NotConnectedError] is the [RuntimeError] that
    [_write] and [_readline] raise on a closed connection. *)
Definition NotConnectedError : exn := RuntimeError "Serial port not open".

(** The specification's [ProtocolError] is the [ValueError] of a reply
    that [int] or [float] rejects. *)
Definition ProtocolError : exn := ValueError.

(** A number in fixed notation with exactly four digits after the
    decimal point: an optional minus sign, at least one digit, the point
    and four digits. *)
Fixpoint digits_point_4 (seen : bool) (s : string) : bool :=
  match s with
  | String c s' =>
      if Py.is_digit c then digits_point_4 true s'
      else if Ascii.eqb c "." then
        seen &&
        match s' with
        | String d1 (String d2 (String d3 (String d4 EmptyString))) =>
            Py.is_digit d1 && Py.is_digit d2 && Py.is_digit d3 && Py.is_digit d4
        | _ => false
        end
      else false
  | EmptyString => false
  end.

(** [s] is such a number; [digits_point_4] reads it past the sign. *)
Definition has_4_decimals (s : string) : bool :=
  match s with
  | String "-" s' => digits_point_4 false s'
  | _ => digits_point_4 false s
  end.

(** The text of an unsigned integer: one decimal digit or more, nothing
    else. *)
Definition unsigned_literal (s : string) : bool :=
  match s with
  | EmptyString => false
  | _ => Py.all_chars Py.is_digit s
  end.

(** [receive_line] as the specification words it: the bytes decoded
    permissively, trailing white space stripped. *)
Definition receive_line_spec (data : list byte) : string :=
  Py.rstrip (Py.decode_ascii_ignore data).

(** Whether the character [c] occurs in [s]. *)
Fixpoint has_char (c : ascii) (s : string) : bool :=
  match s with
  | EmptyString => false
  | String d s' => Ascii.eqb d c || has_char c s'
  end.

(** The reply shape ["<float>,<float>"]: two texts that [float] accepts,
    joined by one comma; [x] and [y] are the numbers they denote. *)
Definition two_floats (reply : string) (x y : float) : Prop :=
  exists a b : string,
    reply = (a ++ "," ++ b)%string /\
    Py.py_float a = Some x /\ Py.py_float b = Some y.

(** The number that a decimal numeral denotes, on top of [acc]. *)
Fixpoint uint_value (acc : Z) (d : uint) : Z :=
  match d with
  | Nil => acc
  | D0 d' => uint_value (10 * acc) d'
  | D1 d' => uint_value (10 * acc + 1) d'
  | D2 d' => uint_value (10 * acc + 2) d'
  | D3 d' => uint_value (10 * acc + 3) d'
  | D4 d' => uint_value (10 * acc + 4) d'
  | D5 d' => uint_value (10 * acc + 5) d'
  | D6 d' => uint_value (10 * acc + 6) d'
  | D7 d' => uint_value (10 * acc + 7) d'
  | D8 d' => uint_value (10 * acc + 8) d'
  | D9 d' => uint_value (10 * acc + 9) d'
  end.

(** The value of an instance attribute. *)
Inductive value : Type :=
| VNone
| VSerial (p : Serial.t)
| VFloat (x : float)
| VBool (b : bool).

(** [vars(self).get(name)]: the instance attributes are the three that
    [__init__] creates, and no method creates another.  [None] stands
    for a missing attribute, whose access raises [AttributeError]. *)
Definition instance_attr (c : PSWController) (name : string) : option value :=
  if String.eqb name "ser" then
    Some (match ser c with Some p => VSerial p | None => VNone end)
  else if String.eqb name "target_v" then Some (VFloat (target_v c))
  else if String.eqb name "target_i" then Some (VFloat (target_i c))
  else None.

(** The operations that send a command, with their arguments. *)
Inductive operation : Type :=
| OpGetIdn
| OpApplyVi
| OpSetVoltage (v : float)
| OpSetCurrent (i : float)
| OpOutputOn
| OpOutputOff
| OpMeasureAll
| OpSetRemote (remote : bool)
| OpSetOvp (v : float)
| OpGetOvp
| OpDisableOvp
| OpSetOcp (i : float)
| OpGetOcp
| OpDisableOcp
| OpGetProtectionStatus
| OpQuery (cmd : string)
| OpWrite (cmd : string).

Definition void {A : Type} (m : M A) : M unit := _ <- m ;; ret tt.

(** Calling an operation and dropping the value it returns. *)
Definition call (o : operation) : M unit :=
  match o with
  | OpGetIdn => void get_idn
  | OpApplyVi => apply_vi
  | OpSetVoltage v => set_voltage v
  | OpSetCurrent i => set_current i
  | OpOutputOn => output_on
  | OpOutputOff => output_off
  | OpMeasureAll => void measure_all
  | OpSetRemote remote => set_remote remote
  | OpSetOvp v => set_ovp v
  | OpGetOvp => void get_ovp
  | OpDisableOvp => disable_ovp
  | OpSetOcp i => set_ocp i
  | OpGetOcp => void get_ocp
  | OpDisableOcp => disable_ocp
  | OpGetProtectionStatus => void get_protection_status
  | OpQuery cmd => void (query cmd)
  | OpWrite cmd => _write cmd
  end.

(** A closed controller holding a closed port, as after [port.close()]
    from outside the class. *)
Definition stale (v i : float) : PSWController :=
  mkPSW (Some (Serial.mk false [] [] silent)) v i.

(** * The main window of [ver2.py] *)

(** The slots of [MainWindow] and the state they work on.  A widget that
    [findChild] does not find in the form is [None].  Of a widget the
    model keeps what the slots read or write: the text and style sheet
    of a button and whether it is checked, the text of a line edit, the
    state of a check box, the entries of the combo box and the lines of
    the log.  Texts are UTF-8; what the user types is ASCII.  An
    exception caught by [except Exception as e] is logged with its
    prefix, its own text left unrendered.  An entry of the log is the
    text that a slot hands to [QTextEdit.append] (or to [print]), one
    entry per call; how the widget renders that text is Qt's part. *)

Module Gui.

(** What a slot can catch: an exception of the controller, or the
    [TypeError] of formatting [None] as a number. *)
Inductive caught : Type :=
| Controller (e : exn)
| TypeError.

(** A line of the log: a text, or the f-string of a prefix and a caught
    exception. *)
Inductive log_line : Type :=
| Line (text : string)
| LineExc (prefix : string) (e : caught).

Record QPushButton : Type := mkButton {
  text : string;
  styleSheet : string;
  checked : bool
}.

(** The entries are pairs of the text shown and the item data. *)
Record QComboBox : Type := mkCombo {
  items : list (string * string);
  currentIndex : Z
}.

(** The log holds its lines most recent first, and so does [stdout],
    where [print] writes when the form has no log widget. *)
Record MainWindow : Type := mkWindow {
  combo_ports : option QComboBox;
  btn_connect : option QPushButton;
  btn_on : option QPushButton;
  btn_remote : option QPushButton;
  edit_volt : option string;
  edit_ampe : option string;
  edit_ovp : option string;
  edit_ocp : option string;
  chk_ovp_en : option bool;
  chk_ocp_en : option bool;
  log_widget : option (list log_line);
  stdout : list log_line;
  psw : PSWController;
  is_remote : bool
}.

Definition set_btn_connect (b : option QPushButton) (w : MainWindow) : MainWindow :=
  mkWindow (combo_ports w) b (btn_on w) (btn_remote w) (edit_volt w) (edit_ampe w)
    (edit_ovp w) (edit_ocp w) (chk_ovp_en w) (chk_ocp_en w) (log_widget w) (stdout w)
    (psw w) (is_remote w).

Definition set_btn_on (b : option QPushButton) (w : MainWindow) : MainWindow :=
  mkWindow (combo_ports w) (btn_connect w) b (btn_remote w) (edit_volt w) (edit_ampe w)
    (edit_ovp w) (edit_ocp w) (chk_ovp_en w) (chk_ocp_en w) (log_widget w) (stdout w)
    (psw w) (is_remote w).

Definition set_btn_remote (b : option QPushButton) (w : MainWindow) : MainWindow :=
  mkWindow (combo_ports w) (btn_connect w) (btn_on w) b (edit_volt w) (edit_ampe w)
    (edit_ovp w) (edit_ocp w) (chk_ovp_en w) (chk_ocp_en w) (log_widget w) (stdout w)
    (psw w) (is_remote w).

Definition set_chk_ovp_en (b : option bool) (w : MainWindow) : MainWindow :=
  mkWindow (combo_ports w) (btn_connect w) (btn_on w) (btn_remote w) (edit_volt w)
    (edit_ampe w) (edit_ovp w) (edit_ocp w) b (chk_ocp_en w) (log_widget w) (stdout w)
    (psw w) (is_remote w).

Definition set_chk_ocp_en (b : option bool) (w : MainWindow) : MainWindow :=
  mkWindow (combo_ports w) (btn_connect w) (btn_on w) (btn_remote w) (edit_volt w)
    (edit_ampe w) (edit_ovp w) (edit_ocp w) (chk_ovp_en w) b (log_widget w) (stdout w)
    (psw w) (is_remote w).

Definition set_log_widget (l : option (list log_line)) (w : MainWindow) : MainWindow :=
  mkWindow (combo_ports w) (btn_connect w) (btn_on w) (btn_remote w) (edit_volt w)
    (edit_ampe w) (edit_ovp w) (edit_ocp w) (chk_ovp_en w) (chk_ocp_en w) l (stdout w)
    (psw w) (is_remote w).

Definition set_stdout (l : list log_line) (w : MainWindow) : MainWindow :=
  mkWindow (combo_ports w) (btn_connect w) (btn_on w) (btn_remote w) (edit_volt w)
    (edit_ampe w) (edit_ovp w) (edit_ocp w) (chk_ovp_en w) (chk_ocp_en w) (log_widget w) l
    (psw w) (is_remote w).

Definition set_psw (c : PSWController) (w : MainWindow) : MainWindow :=
  mkWindow (combo_ports w) (btn_connect w) (btn_on w) (btn_remote w) (edit_volt w)
    (edit_ampe w) (edit_ovp w) (edit_ocp w) (chk_ovp_en w) (chk_ocp_en w) (log_widget w)
    (stdout w) c (is_remote w).

Definition set_is_remote (r : bool) (w : MainWindow) : MainWindow :=
  mkWindow (combo_ports w) (btn_connect w) (btn_on w) (btn_remote w) (edit_volt w)
    (edit_ampe w) (edit_ovp w) (edit_ocp w) (chk_ovp_en w) (chk_ocp_en w) (log_widget w)
    (stdout w) (psw w) r.

(** [self.log(text)]: a line more in the log widget, or printed when
    there is none. *)
Definition log (l : log_line) (w : MainWindow) : MainWindow :=
  match log_widget w with
  | Some lines => set_log_widget (Some (l :: lines)) w
  | None => set_stdout (l :: stdout w) w
  end.

(** The lines logged so far, wherever they went. *)
Definition logged (w : MainWindow) : list log_line :=
  match log_widget w with
  | Some lines => lines
  | None => stdout w
  end.

Definition not_connected : log_line := Line "Chưa kết nối. Nhấn 'connect' trước.".

(** [str(n)] for an integer. *)
Definition str_of_int (n : Z) : string :=
  if n <? 0 then ("-" ++ Py.str_of_nat (- n))%string else Py.str_of_nat n.

Definition get_selected_port (w : MainWindow) : option string :=
  match combo_ports w with
  | None => None
  | Some combo =>
      let idx := currentIndex combo in
      if idx <? 0 then None
      else option_map snd (nth_error (items combo) (Z.to_nat idx))
  end.

Definition set_on_button_color (is_on : bool) (w : MainWindow) : MainWindow :=
  match btn_on w with
  | None => w
  | Some b =>
      if is_on then
        set_btn_on (Some (mkButton (text b) "background-color: red; color: white;" (checked b))) w
      else set_btn_on (Some (mkButton (text b) "" (checked b))) w
  end.

Definition update_remote_button (w : MainWindow) : MainWindow :=
  match btn_remote w with
  | None => w
  | Some _ =>
      if is_remote w then
        set_btn_remote (Some (mkButton "REMOTE" "background-color: orange; color: black;" true)) w
      else set_btn_remote (Some (mkButton "LOCAL" "" false)) w
  end.

(** [try: r = self.psw.m(...); ok(r) except Exception as e: self.log(f"{prefix}{e}")],
    where [ok] itself raises nothing. *)
Definition try_psw {A : Type} (m : M A) (ok : A -> MainWindow -> MainWindow)
    (prefix : string) (w : MainWindow) : MainWindow :=
  match m (psw w) with
  | (Ok a, c') => ok a (set_psw c' w)
  | (Raise e, c') => log (LineExc prefix (Controller e)) (set_psw c' w)
  end.

(** [ports port] is the outcome of [serial.Serial(port=port, ...)] on
    this machine. *)
Definition handle_connect_clicked (ports : string -> result Serial.t)
    (w : MainWindow) : MainWindow :=
  if is_open (psw w) then
    let w1 := set_psw (snd (close (psw w))) w in
    let w2 :=
      match btn_connect w1 with
      | Some b => set_btn_connect (Some (mkButton "connect" (styleSheet b) (checked b))) w1
      | None => w1
      end in
    let w3 := set_on_button_color false w2 in
    let w4 := set_is_remote false w3 in
    let w5 := update_remote_button w4 in
    log (Line "Đã ngắt kết nối.") w5
  else
    match get_selected_port w with
    | None => log (Line "Chưa chọn cổng COM.") w
    | Some EmptyString => log (Line "Chưa chọn cổng COM.") w
    | Some port =>
        try_psw (open (ports port))
          (fun _ w1 =>
             let w2 := log (Line ("Đã kết nối " ++ port ++ ".")) w1 in
             match btn_connect w2 with
             | Some b =>
                 set_btn_connect (Some (mkButton "disconnect" (styleSheet b) (checked b))) w2
             | None => w2
             end)
          ("Lỗi mở " ++ port ++ ": ") w
    end.

Definition handle_test_clicked (w : MainWindow) : MainWindow :=
  if negb (is_open (psw w)) then log not_connected w
  else
    try_psw get_idn (fun idn => log (Line ("*IDN? → " ++ idn))) "Lỗi gửi *IDN?: " w.

Definition handle_on_clicked (w : MainWindow) : MainWindow :=
  if negb (is_open (psw w)) then log not_connected w
  else
    try_psw output_on
      (fun _ w1 => set_on_button_color true (log (Line "OUTPut:STATe ON") w1))
      "Lỗi ON: " w.

Definition handle_off_clicked (w : MainWindow) : MainWindow :=
  if negb (is_open (psw w)) then log not_connected w
  else
    try_psw output_off
      (fun _ w1 => set_on_button_color false (log (Line "OUTPut:STATe OFF") w1))
      "Lỗi OFF: " w.

Definition handle_set_v_clicked (w : MainWindow) : MainWindow :=
  if negb (is_open (psw w)) then log not_connected w
  else
    match edit_volt w with
    | None => log (Line "Không tìm thấy ô volt.") w
    | Some txt =>
        match Py.py_float txt with
        | None => log (Line "Giá trị volt không hợp lệ.") w
        | Some v =>
            try_psw (set_voltage v)
              (fun _ w1 =>
                 log (Line ("Đã set V = " ++ Py.format_4f v ++ " V (APPLy " ++
                            Py.format_4f v ++ "," ++
                            Py.format_4f (target_i (psw w1)) ++ ")")) w1)
              "Lỗi set_v: " w
        end
    end.

Definition handle_set_a_clicked (w : MainWindow) : MainWindow :=
  if negb (is_open (psw w)) then log not_connected w
  else
    match edit_ampe w with
    | None => log (Line "Không tìm thấy ô ampe.") w
    | Some txt =>
        match Py.py_float txt with
        | None => log (Line "Giá trị ampe không hợp lệ.") w
        | Some i =>
            try_psw (set_current i)
              (fun _ w1 =>
                 log (Line ("Đã set I = " ++ Py.format_4f i ++ " A (APPLy " ++
                            Py.format_4f (target_v (psw w1)) ++ "," ++
                            Py.format_4f i ++ ")")) w1)
              "Lỗi set_a: " w
        end
    end.

Definition handle_clean_clicked (w : MainWindow) : MainWindow :=
  match log_widget w with
  | Some _ => set_log_widget (Some []) w
  | None => w
  end.

Definition handle_read_clicked (w : MainWindow) : MainWindow :=
  if negb (is_open (psw w)) then log not_connected w
  else
    try_psw measure_all
      (fun '(v, i, raw) w1 =>
         match v with
         | None => log (Line ("MEASure:SCALar:ALL? → " ++ raw)) w1
         | Some v' =>
             match i with
             | Some i' =>
                 log (Line ("MEASure:SCALar:ALL? → V=" ++ Py.format_4f v' ++ " V, I=" ++
                            Py.format_4f i' ++ " A (raw: " ++ raw ++ ")")) w1
             | None => log (LineExc "Lỗi MEAS:SCALar:ALL?: " TypeError) w1
             end
         end)
      "Lỗi MEAS:SCALar:ALL?: " w.

Definition handle_remote_clicked (w : MainWindow) : MainWindow :=
  if negb (is_open (psw w)) then update_remote_button (log not_connected w)
  else
    let target := negb (is_remote w) in
    let mode_str := if target then "REMOTE" else "LOCAL" in
    match set_remote target (psw w) with
    | (Ok _, c') =>
        log (Line ("SYSTem:" ++ mode_str ++ " mode"))
          (update_remote_button (set_is_remote target (set_psw c' w)))
    | (Raise e, c') =>
        update_remote_button
          (log (LineExc ("Lỗi set " ++ mode_str ++ ": ") (Controller e)) (set_psw c' w))
    end.

Definition handle_set_ovp_clicked (w : MainWindow) : MainWindow :=
  if negb (is_open (psw w)) then log not_connected w
  else
    match edit_ovp w with
    | None => log (Line "Không tìm thấy ô OVP.") w
    | Some txt =>
        match Py.py_float txt with
        | None => log (Line "Giá trị OVP không hợp lệ.") w
        | Some v =>
            try_psw (set_ovp v)
              (fun _ => log (Line ("OVP level = " ++ Py.format_4f v ++ " V")))
              "Lỗi set OVP: " w
        end
    end.

Definition handle_set_ocp_clicked (w : MainWindow) : MainWindow :=
  if negb (is_open (psw w)) then log not_connected w
  else
    match edit_ocp w with
    | None => log (Line "Không tìm thấy ô OCP.") w
    | Some txt =>
        match Py.py_float txt with
        | None => log (Line "Giá trị OCP không hợp lệ.") w
        | Some i =>
            try_psw (set_ocp i)
              (fun _ => log (Line ("OCP level = " ++ Py.format_4f i ++ " A")))
              "Lỗi set OCP: " w
        end
    end.

Definition handle_ovp_enable_toggled (checked_now : bool) (w : MainWindow) : MainWindow :=
  if negb (is_open (psw w)) then
    let w1 := log not_connected w in
    match chk_ovp_en w1 with
    | Some _ => set_chk_ovp_en (Some (negb checked_now)) w1
    | None => w1
    end
  else if checked_now then
    match edit_ovp w with
    | None => log (Line "Không tìm thấy ô OVP.") w
    | Some txt =>
        match Py.py_float txt with
        | None => log (Line "Giá trị OVP không hợp lệ.") w
        | Some v =>
            try_psw (set_ovp v)
              (fun _ => log (Line ("OVP ENABLE, level = " ++ Py.format_4f v ++ " V")))
              "Lỗi OVP enable/disable: " w
        end
    end
  else
    try_psw disable_ovp (fun _ => log (Line "OVP DISABLE (set level = MAX)"))
      "Lỗi OVP enable/disable: " w.

Definition handle_ocp_enable_toggled (checked_now : bool) (w : MainWindow) : MainWindow :=
  if negb (is_open (psw w)) then
    let w1 := log not_connected w in
    match chk_ocp_en w1 with
    | Some _ => set_chk_ocp_en (Some (negb checked_now)) w1
    | None => w1
    end
  else if checked_now then
    match edit_ocp w with
    | None => log (Line "Không tìm thấy ô OCP.") w
    | Some txt =>
        match Py.py_float txt with
        | None => log (Line "Giá trị OCP không hợp lệ.") w
        | Some i =>
            try_psw (set_ocp i)
              (fun _ => log (Line ("OCP ENABLE, level = " ++ Py.format_4f i ++ " A")))
              "Lỗi OCP enable/disable: " w
        end
    end
  else
    try_psw disable_ocp (fun _ => log (Line "OCP DISABLE (set level = MAX)"))
      "Lỗi OCP enable/disable: " w.

(** The message about the tripped protections. *)
Definition trip_message (ov oc : bool) : string :=
  let msg_bits :=
    ((if ov then ["OVP TRIPPED"] else []) ++ (if oc then ["OCP TRIPPED"] else []))%list in
  match msg_bits with
  | [] => "Không có OVP/OCP trip."
  | _ => String.concat ", " msg_bits
  end.

Definition handle_prot_status_clicked (w : MainWindow) : MainWindow :=
  if negb (is_open (psw w)) then log not_connected w
  else
    try_psw get_protection_status
      (fun '(ov, oc, raw) =>
         log (Line ("STAT:QUES:COND? → " ++ str_of_int raw ++ "  → " ++ trip_message ov oc)))
      "Lỗi đọc trạng thái PROT: " w.

(** The slots that send a command, each with the state of the check box
    where the signal carries one. *)
Inductive slot : Type :=
| Test | On | Off | SetV | SetA | Read | Remote | SetOvp | SetOcp
| OvpEnable (checked_now : bool)
| OcpEnable (checked_now : bool)
| ProtStatus.

Definition run (s : slot) (w : MainWindow) : MainWindow :=
  match s with
  | Test => handle_test_clicked w
  | On => handle_on_clicked w
  | Off => handle_off_clicked w
  | SetV => handle_set_v_clicked w
  | SetA => handle_set_a_clicked w
  | Read => handle_read_clicked w
  | Remote => handle_remote_clicked w
  | SetOvp => handle_set_ovp_clicked w
  | SetOcp => handle_set_ocp_clicked w
  | OvpEnable b => handle_ovp_enable_toggled b w
  | OcpEnable b => handle_ocp_enable_toggled b w
  | ProtStatus => handle_prot_status_clicked w
  end.

Definition set_combo_ports (b : option QComboBox) (w : MainWindow) : MainWindow :=
  mkWindow b (btn_connect w) (btn_on w) (btn_remote w) (edit_volt w) (edit_ampe w)
    (edit_ovp w) (edit_ocp w) (chk_ovp_en w) (chk_ocp_en w) (log_widget w) (stdout w)
    (psw w) (is_remote w).

Definition set_edits (volt ampe ovp ocp : option string) (w : MainWindow) : MainWindow :=
  mkWindow (combo_ports w) (btn_connect w) (btn_on w) (btn_remote w) volt ampe ovp ocp
    (chk_ovp_en w) (chk_ocp_en w) (log_widget w) (stdout w) (psw w) (is_remote w).

(** [populate_ports]: [comports] lists the serial ports of the machine,
    each a device name and a description.  After [clear()] the combo box
    has no current entry; the first entry added becomes the current one
    (Qt does so for a combo box without placeholder text). *)
Definition populate_ports (comports : list (string * string)) (w : MainWindow)
  : MainWindow :=
  match combo_ports w with
  | None => w
  | Some _ =>
      let entries :=
        map (fun '(device, description) => (device ++ " - " ++ description, device)%string)
          comports in
      let w1 :=
        set_combo_ports
          (Some (mkCombo entries (match comports with [] => -1 | _ => 0 end))) w in
      match comports with
      | [] => log (Line "Không tìm thấy cổng COM nào.") w1
      | _ => w1
      end
  end.

(** [MainWindow.__init__]: [form] gives the widgets as [findChild]
    returns them; the controller and the remote flag are created here. *)
Definition init_window (comports : list (string * string)) (form : MainWindow)
  : MainWindow :=
  let w0 := set_is_remote false (set_psw init form) in
  let w1 := populate_ports comports w0 in
  let w2 :=
    match edit_volt w1 with
    | Some _ =>
        set_psw (set_target_v 5 (psw w1))
          (set_edits (Some "5.0") (edit_ampe w1) (edit_ovp w1) (edit_ocp w1) w1)
    | None => w1
    end in
  let w3 :=
    match edit_ampe w2 with
    | Some _ =>
        set_psw (set_target_i 1 (psw w2))
          (set_edits (edit_volt w2) (Some "1.0") (edit_ovp w2) (edit_ocp w2) w2)
    | None => w2
    end in
  let w4 :=
    match edit_ovp w3 with
    | Some _ => set_edits (edit_volt w3) (edit_ampe w3) (Some "15.0") (edit_ocp w3) w3
    | None => w3
    end in
  let w5 :=
    match edit_ocp w4 with
    | Some _ => set_edits (edit_volt w4) (edit_ampe w4) (edit_ovp w4) (Some "2.0") w4
    | None => w4
    end in
  let w6 := set_on_button_color false w5 in
  let w7 := update_remote_button w6 in
  log (Line "App started. Chọn cổng COM rồi nhấn 'connect'.") w7.

(** A window whose form has every widget, around the controller [c]. *)
Definition window (c : PSWController) (volt ampe ovp ocp : string) (remote : bool)
  : MainWindow :=
  mkWindow (Some (mkCombo [("COM3 - PSW", "COM3")] 0))
    (Some (mkButton "connect" "" false)) (Some (mkButton "on" "" false))
    (Some (mkButton "LOCAL" "" false))
    (Some volt) (Some ampe) (Some ovp) (Some ocp) (Some true) (Some true)
    (Some []) [] c remote.

End Gui.

(** ** What one operation may do to the port *)

(** The port before and after one operation: it is still there (or
    still missing), as open as before and wired to the same instrument,
    and its write log is the same or longer by one ASCII line that ends
    with CR LF. *)
Definition port_rel (s s' : option Serial.t) : Prop :=
  match s, s' with
  | None, None => True
  | Some p, Some p' =>
      Serial.is_open p' = Serial.is_open p /\
      Serial.device p' = Serial.device p /\
      (Serial.tx p' = Serial.tx p \/
       exists cmd : string,
         Py.all_chars Py.is_ascii cmd = true /\
         Serial.tx p' = list_byte_of_string (cmd ++ CRLF) :: Serial.tx p)
  | _, _ => False
  end.

(** The operations that assign a setpoint. *)
Definition assigns_setpoint (o : operation) : bool :=
  match o with
  | OpSetVoltage _ | OpSetCurrent _ => true
  | _ => false
  end.

(** An instrument that sends every line it receives straight back. *)
Definition loopback : list (list byte) -> list byte :=
  fun sent =>
    match sent with
    | line :: _ => line
    | [] => []
    end.

(** The characters of a number in fixed notation: the digits, the
    point and the minus sign. *)
Definition fixed_char (c : ascii) : bool :=
  Py.is_digit c || Ascii.eqb c "." || Ascii.eqb c "-".

(** ** How [_write] and [_readline] run *)

(** The port after a successful [write] of [line]. *)
Definition sent_on (line : list byte) (p : Serial.t) : Serial.t :=
  Serial.mk true (line :: Serial.tx p)
    (Serial.rx p ++ Serial.device p (line :: Serial.tx p)) (Serial.device p).

(** The port after a [readline]. *)
Definition read_on (p : Serial.t) : Serial.t :=
  Serial.mk true (Serial.tx p) (snd (Serial.take_line (Serial.rx p)))
    (Serial.device p).

Lemma is_open_inv (c : PSWController) :
  is_open c = true -> exists p, ser c = Some p /\ Serial.is_open p = true.
Proof.
  unfold is_open. destruct (ser c) as [p|]; [|discriminate].
  intros H. exists p. split; [reflexivity | exact H].
Qed.

Lemma write_closed (cmd : string) (c : PSWController) :
  is_open c = false -> _write cmd c = (Raise NotConnectedError, c).
Proof.
  intros H. unfold _write, bind, gets. rewrite H. reflexivity.
Qed.

Lemma write_open (cmd : string) (line : list byte) (c : PSWController) (p : Serial.t) :
  ser c = Some p -> Serial.is_open p = true ->
  Py.encode_ascii (cmd ++ CRLF) = Some line ->
  _write cmd c = (Ok tt, set_ser (Some (sent_on line p)) c).
Proof.
  intros Hs Ho He. unfold _write, bind, gets, is_open.
  rewrite Hs, Ho. cbn [negb]. rewrite He. cbn [of_option ret].
  unfold on_ser, Serial.write. rewrite Hs, Ho. reflexivity.
Qed.

(** Whatever happens, [_write] changes nothing but the port. *)
Lemma write_frame (cmd : string) (c : PSWController) :
  target_v (snd (_write cmd c)) = target_v c /\
  target_i (snd (_write cmd c)) = target_i c.
Proof.
  destruct (is_open c) eqn:Ho.
  - destruct (is_open_inv c Ho) as (p & Hs & Hp).
    destruct (Py.encode_ascii (cmd ++ CRLF)) as [line|] eqn:He.
    + rewrite (write_open cmd line c p Hs Hp He). split; reflexivity.
    + unfold _write, bind, gets. rewrite Ho. cbn [negb]. rewrite He.
      split; reflexivity.
  - rewrite (write_closed cmd c Ho). split; reflexivity.
Qed.

Lemma readline_closed (c : PSWController) :
  is_open c = false -> _readline c = (Raise NotConnectedError, c).
Proof.
  intros H. unfold _readline, bind, gets. rewrite H. reflexivity.
Qed.

Lemma readline_open (c : PSWController) (p : Serial.t) :
  ser c = Some p -> Serial.is_open p = true ->
  _readline c =
    (Ok (Py.strip (Py.decode_ascii_ignore (fst (Serial.take_line (Serial.rx p))))),
     set_ser (Some (read_on p)) c).
Proof.
  intros Hs Ho. unfold _readline, bind, gets, is_open.
  rewrite Hs, Ho. cbn [negb]. unfold on_ser, Serial.readline, read_on.
  rewrite Hs, Ho. destruct (Serial.take_line (Serial.rx p)) as [line rest].
  reflexivity.
Qed.

Lemma query_closed (cmd : string) (c : PSWController) :
  is_open c = false -> query cmd c = (Raise NotConnectedError, c).
Proof.
  intros H. unfold query, bind. rewrite (write_closed cmd c H). reflexivity.
Qed.

(** ** Frame properties of the setpoint operations *)

(** C10.  Frame property: for every controller state, open or closed,
    and every float, [set_current(i)] leaves [target_v] unchanged and
    [set_voltage(v)] leaves [target_i] unchanged, whatever the outcome of
    the transmission. *)
Theorem setpoint_frame (c : PSWController) (x : float) :
  target_v (snd (set_current x c)) = target_v c /\
  target_i (snd (set_voltage x c)) = target_i c.
Proof.
  unfold set_current, set_voltage, apply_vi, bind, modify, gets.
  split.
  - match goal with |- context [_write ?cmd ?c'] =>
      pose proof (proj1 (write_frame cmd c')) as H;
      destruct (_write cmd c') as [[u|e] c'']; exact H
    end.
  - match goal with |- context [_write ?cmd ?c'] =>
      pose proof (proj2 (write_frame cmd c')) as H;
      destruct (_write cmd c') as [[u|e] c'']; exact H
    end.
Qed.

(** ** Operations on a closed connection *)

Lemma is_open_set_target_v (x : float) (c : PSWController) :
  is_open (set_target_v x c) = is_open c.
Proof. reflexivity. Qed.

Lemma is_open_set_target_i (x : float) (c : PSWController) :
  is_open (set_target_i x c) = is_open c.
Proof. reflexivity. Qed.

Lemma set_voltage_closed (x : float) (c : PSWController) :
  is_open c = false ->
  set_voltage x c = (Raise NotConnectedError, set_target_v x c).
Proof.
  intros H. unfold set_voltage, apply_vi, bind, modify, gets.
  rewrite write_closed by (rewrite is_open_set_target_v; exact H).
  reflexivity.
Qed.

Lemma set_current_closed (x : float) (c : PSWController) :
  is_open c = false ->
  set_current x c = (Raise NotConnectedError, set_target_i x c).
Proof.
  intros H. unfold set_current, apply_vi, bind, modify, gets.
  rewrite write_closed by (rewrite is_open_set_target_i; exact H).
  reflexivity.
Qed.

(** C3.  Every operation that sends a command, invoked while
    [is_open()] is false, fails with [NotConnectedError] and leaves the
    port untouched: nothing is written. *)
Theorem closed_operation_fails (o : operation) (c : PSWController) :
  is_open c = false ->
  failure (fst (call o c)) = Some NotConnectedError /\
  ser (snd (call o c)) = ser c.
Proof.
  intros H.
  destruct o as [| |v|i| | | |remote|v| | |i| | | |cmd|cmd];
    cbn [call];
    unfold void, get_idn, apply_vi, output_on, output_off, measure_all,
      set_remote, set_ovp, get_ovp, disable_ovp, set_ocp, get_ocp,
      disable_ocp, get_protection_status;
    try (rewrite set_voltage_closed by exact H; split; reflexivity);
    try (rewrite set_current_closed by exact H; split; reflexivity);
    try destruct remote;
    unfold bind, gets;
    rewrite ?query_closed by exact H;
    rewrite ?write_closed by exact H;
    split; reflexivity.
Qed.

Lemma closed_operation_fails_witness :
  is_open (stale 5 1) = false /\
  failure (fst (call OpOutputOn (stale 5 1))) = Some NotConnectedError /\
  ser (snd (call OpOutputOn (stale 5 1))) = ser (stale 5 1).
Proof.
  split; [reflexivity | apply (closed_operation_fails OpOutputOn (stale 5 1)); reflexivity].
Defined.

(** [close()] may be repeated: the second call finds no port and leaves
    the controller closed. *)
Lemma close_idempotent (c : PSWController) :
  (close ;; close) c = close c /\ is_open (snd (close c)) = false.
Proof.
  unfold close, bind, modify, is_open.
  destruct c as [[p|] v i]; cbn [ser]; [destruct (Serial.is_open p)|];
    split; reflexivity.
Qed.

(** ** Setpoints when the transmission fails *)

(** C4, refuted as stated.  On the controller that [__init__] leaves
    (closed, both setpoints 0.0), [set_voltage(5.0)] fails with
    [NotConnectedError] and [target_v] is 5.0 afterwards, no longer
    0.0: the assignment comes before the transmission and is not
    undone. *)
Lemma set_voltage_failure_keeps_assignment :
  failure (fst (set_voltage 5 init)) = Some NotConnectedError /\
  target_v (snd (set_voltage 5 init)) = 5%float /\
  target_v (snd (set_voltage 5 init)) <> target_v init.
Proof.
  split; [reflexivity | split; [reflexivity |]].
  intros E. apply (f_equal (fun x => PrimFloat.eqb x 0)) in E.
  vm_compute in E. discriminate E.
Qed.

(** C4, amended.  When the connection is closed, [set_voltage(x)] (and
    likewise [set_current(x)]) fails with [NotConnectedError], writes
    nothing, and leaves the controller with the requested setpoint
    already assigned; the other setpoint and the port are unchanged. *)
Theorem setpoint_assigned_before_transmit (x : float) (c : PSWController) :
  is_open c = false ->
  set_voltage x c = (Raise NotConnectedError, mkPSW (ser c) x (target_i c)) /\
  set_current x c = (Raise NotConnectedError, mkPSW (ser c) (target_v c) x).
Proof.
  intros H. split.
  - exact (set_voltage_closed x c H).
  - exact (set_current_closed x c H).
Qed.

Lemma setpoint_assigned_before_transmit_witness :
  is_open init = false /\
  set_voltage 5 init = (Raise NotConnectedError, mkPSW None 5 0) /\
  set_current 5 init = (Raise NotConnectedError, mkPSW None 0 5).
Proof.
  split; [reflexivity | apply (setpoint_assigned_before_transmit 5 init); reflexivity].
Defined.

(** ** The text produced by the [.4f] format *)

Lemma all_chars_app (p : ascii -> bool) (a b : string) :
  Py.all_chars p (a ++ b) = Py.all_chars p a && Py.all_chars p b.
Proof.
  induction a as [|c a IH]; cbn [append Py.all_chars].
  - reflexivity.
  - rewrite IH. apply andb_assoc.
Qed.

Lemma all_chars_weaken (p q : ascii -> bool) (s : string) :
  (forall c, p c = true -> q c = true) ->
  Py.all_chars p s = true -> Py.all_chars q s = true.
Proof.
  intros Hpq. induction s as [|c s IH]; cbn [Py.all_chars].
  - reflexivity.
  - intros H. apply andb_true_iff in H. destruct H as [Hc Hs].
    rewrite (Hpq c Hc), (IH Hs). reflexivity.
Qed.

Lemma is_digit_is_ascii (c : ascii) : Py.is_digit c = true -> Py.is_ascii c = true.
Proof.
  unfold Py.is_digit, Py.is_ascii. intros H.
  apply andb_true_iff in H. destruct H as [_ H].
  apply Z.leb_le in H. apply Z.ltb_lt. lia.
Qed.

Lemma uint_all_digits (d : uint) :
  Py.all_chars Py.is_digit (NilEmpty.string_of_uint d) = true.
Proof.
  induction d; cbn [NilEmpty.string_of_uint Py.all_chars];
    try reflexivity; rewrite IHd; reflexivity.
Qed.

Lemma uint_nonempty (d : uint) : d <> Nil -> NilEmpty.string_of_uint d <> EmptyString.
Proof.
  destruct d; cbn [NilEmpty.string_of_uint]; intros H; try discriminate.
  exfalso. apply H. reflexivity.
Qed.

Lemma str_of_nat_digits (n : Z) : Py.all_chars Py.is_digit (Py.str_of_nat n) = true.
Proof. apply uint_all_digits. Qed.

Lemma str_of_nat_nonempty (n : Z) : Py.str_of_nat n <> EmptyString.
Proof.
  unfold Py.str_of_nat. apply uint_nonempty.
  destruct (Z.to_N n) as [|p]; cbn [N.to_uint].
  - discriminate.
  - apply DecimalPos.Unsigned.to_uint_nonnil.
Qed.

Lemma digit_char_is_digit (d : Z) :
  0 <= d < 10 -> Py.is_digit (Py.digit_char d) = true.
Proof.
  intros H.
  assert (d = 0 \/ d = 1 \/ d = 2 \/ d = 3 \/ d = 4 \/ d = 5 \/ d = 6 \/
          d = 7 \/ d = 8 \/ d = 9) as E by lia.
  repeat (destruct E as [E|E]; [subst d; reflexivity|]).
  subst d; reflexivity.
Qed.

Lemma decimal_digit (n k : Z) : Py.is_digit (Py.digit_char (n / k mod 10)) = true.
Proof. apply digit_char_is_digit. apply Z.mod_pos_bound. lia. Qed.

Lemma last_digit (n : Z) : Py.is_digit (Py.digit_char (n mod 10)) = true.
Proof. apply digit_char_is_digit. apply Z.mod_pos_bound. lia. Qed.

Lemma digits_point_4_intro (ds : string) (d1 d2 d3 d4 : ascii) (seen : bool) :
  Py.all_chars Py.is_digit ds = true ->
  seen = true \/ ds <> EmptyString ->
  Py.is_digit d1 = true -> Py.is_digit d2 = true ->
  Py.is_digit d3 = true -> Py.is_digit d4 = true ->
  digits_point_4 seen
    (ds ++ "." ++ String d1 (String d2 (String d3 (String d4 EmptyString)))) = true.
Proof.
  intros Hds Hne H1 H2 H3 H4. revert seen Hne Hds.
  induction ds as [|c ds IH]; intros seen Hne Hds.
  - destruct Hne as [-> | Hne]; [|exfalso; apply Hne; reflexivity].
    cbn. rewrite H1, H2, H3, H4. reflexivity.
  - cbn [Py.all_chars] in Hds. apply andb_true_iff in Hds. destruct Hds as [Hc Hds].
    cbn [append digits_point_4]. rewrite Hc.
    apply IH; [left; reflexivity | exact Hds].
Qed.

Lemma fixed4_shape (n : Z) : digits_point_4 false (Py.fixed4 n) = true.
Proof.
  unfold Py.fixed4. apply digits_point_4_intro.
  - apply str_of_nat_digits.
  - right. apply str_of_nat_nonempty.
  - apply decimal_digit.
  - apply decimal_digit.
  - apply decimal_digit.
  - apply last_digit.
Qed.

Lemma has_4_decimals_signed (s : bool) (t : string) :
  digits_point_4 false t = true -> has_4_decimals (Py.sign_str s ++ t) = true.
Proof.
  intros H. destruct s; cbn [Py.sign_str append].
  - exact H.
  - unfold has_4_decimals. destruct t as [|c t]; [exact H|].
    destruct (Ascii.eqb c "-") eqn:Ec.
    + apply Ascii.eqb_eq in Ec. subst c. cbn in H. discriminate H.
    + destruct c as [[] [] [] [] [] [] [] []]; try exact H. discriminate Ec.
Qed.

(** A finite float is printed in fixed notation with exactly four digits
    after the point. *)
Lemma format_4f_finite (x : float) :
  Py.isfinite x = true -> has_4_decimals (Py.format_4f x) = true.
Proof.
  unfold Py.isfinite, Py.format_4f.
  destruct (Prim2SF x) as [s|s| |s m e]; intros H; try discriminate H;
    cbn [Py.format_4f_sf]; apply has_4_decimals_signed, fixed4_shape.
Qed.

Lemma fixed4_ascii (n : Z) : Py.all_chars Py.is_ascii (Py.fixed4 n) = true.
Proof.
  unfold Py.fixed4. rewrite all_chars_app.
  rewrite (all_chars_weaken _ _ _ is_digit_is_ascii (str_of_nat_digits _)).
  cbn [append Py.all_chars andb].
  rewrite !(is_digit_is_ascii _ (decimal_digit n _)).
  rewrite (is_digit_is_ascii _ (last_digit n)).
  reflexivity.
Qed.

Lemma format_4f_ascii (x : float) : Py.all_chars Py.is_ascii (Py.format_4f x) = true.
Proof.
  unfold Py.format_4f.
  destruct (Prim2SF x) as [s|s| |s m e]; cbn [Py.format_4f_sf];
    try reflexivity; try (destruct s; reflexivity);
    rewrite all_chars_app, fixed4_ascii; destruct s; reflexivity.
Qed.

Lemma encode_ascii_ok (s : string) :
  Py.all_chars Py.is_ascii s = true ->
  Py.encode_ascii s = Some (list_byte_of_string s).
Proof. intros H. unfold Py.encode_ascii. rewrite H. reflexivity. Qed.

(** ** The combined APPLy command *)

Lemma apply_vi_open (c : PSWController) (p : Serial.t) :
  ser c = Some p -> Serial.is_open p = true ->
  apply_vi c =
    (Ok tt,
     set_ser
       (Some (sent_on
          (list_byte_of_string
             (("APPLy " ++ Py.format_4f (target_v c) ++ "," ++
               Py.format_4f (target_i c)) ++ CRLF)) p)) c).
Proof.
  intros Hs Ho. unfold apply_vi, bind, gets.
  apply (write_open _ _ c p Hs Ho).
  apply encode_ascii_ok.
  rewrite !all_chars_app, !format_4f_ascii. reflexivity.
Qed.

(** C1, refuted as stated.  Positive infinity is a float and
    [inf >= 0] holds, yet [set_voltage(inf)] then [set_current(1.0)]
    transmits [APPLy inf,1.0000]: the voltage field has no decimal point
    and no digit. *)
Lemma apply_infinite_voltage :
  PrimFloat.leb 0 infinity = true /\
  PrimFloat.leb 0 1 = true /\
  (set_voltage infinity ;; set_current 1) (connected silent 0 0) =
    (Ok tt,
     mkPSW
       (Some (Serial.mk true
          [list_byte_of_string ("APPLy inf,1.0000" ++ CRLF);
           list_byte_of_string ("APPLy inf,0.0000" ++ CRLF)] [] silent))
       infinity 1) /\
  Py.format_4f infinity = "inf" /\
  has_4_decimals (Py.format_4f infinity) = false.
Proof.
  repeat split; vm_compute; reflexivity.
Qed.

(** C1, amended.  For every pair of finite floats [(v, i)] (the
    non-negative ones in particular), [set_voltage(v)] followed by
    [set_current(i)] on an open controller succeeds; the last command
    transmitted is [APPLy <v>,<i>] followed by CR LF, each value printed in
    fixed notation with exactly four digits after the decimal point (it
    comes right after the [APPLy] that [set_voltage] sent with the former
    current); and afterwards [(target_v, target_i)] is [(v, i)]. *)
Theorem apply_after_both_setpoints (c : PSWController) (v i : float) :
  is_open c = true ->
  Py.isfinite v = true ->
  Py.isfinite i = true ->
  exists p p',
    ser c = Some p /\
    (set_voltage v ;; set_current i) c = (Ok tt, mkPSW (Some p') v i) /\
    Serial.tx p' =
      list_byte_of_string
        (("APPLy " ++ Py.format_4f v ++ "," ++ Py.format_4f i) ++ CRLF)
      :: list_byte_of_string
        (("APPLy " ++ Py.format_4f v ++ "," ++ Py.format_4f (target_i c)) ++ CRLF)
      :: Serial.tx p /\
    has_4_decimals (Py.format_4f v) = true /\
    has_4_decimals (Py.format_4f i) = true.
Proof.
  intros Ho Hv Hi.
  destruct (is_open_inv c Ho) as (p & Hs & Hp).
  exists p. eexists. split; [exact Hs|].
  split; [|split; [|split; [exact (format_4f_finite v Hv) | exact (format_4f_finite i Hi)]]].
  - unfold set_voltage, set_current, bind, modify.
    rewrite (apply_vi_open (set_target_v v c) p Hs Hp).
    cbn [set_target_v set_target_i set_ser ser target_v target_i].
    erewrite apply_vi_open by (cbn [ser]; first [reflexivity | exact Hp]).
    cbn [set_ser ser target_v target_i]. reflexivity.
  - reflexivity.
Qed.

Lemma apply_after_both_setpoints_witness :
  is_open (connected silent 0 0) = true /\
  Py.isfinite 12.5 = true /\
  Py.isfinite 0.25 = true /\
  exists p p',
    ser (connected silent 0 0) = Some p /\
    (set_voltage 12.5 ;; set_current 0.25) (connected silent 0 0) =
      (Ok tt, mkPSW (Some p') 12.5 0.25) /\
    Serial.tx p' =
      list_byte_of_string
        (("APPLy " ++ Py.format_4f 12.5 ++ "," ++ Py.format_4f 0.25) ++ CRLF)
      :: list_byte_of_string
        (("APPLy " ++ Py.format_4f 12.5 ++ "," ++
          Py.format_4f (target_i (connected silent 0 0))) ++ CRLF)
      :: Serial.tx p /\
    has_4_decimals (Py.format_4f 12.5) = true /\
    has_4_decimals (Py.format_4f 0.25) = true.
Proof.
  split; [reflexivity | split; [reflexivity | split; [reflexivity |]]].
  apply (apply_after_both_setpoints (connected silent 0 0) 12.5 0.25); reflexivity.
Defined.

Example apply_12_5_and_0_25 :
  Py.format_4f 12.5 = "12.5000" /\ Py.format_4f 0.25 = "0.2500" /\
  option_map Serial.tx
    (ser (snd ((set_voltage 12.5 ;; set_current 0.25) (connected silent 0 0)))) =
  Some [list_byte_of_string ("APPLy 12.5000,0.2500" ++ CRLF);
        list_byte_of_string ("APPLy 12.5000,0.0000" ++ CRLF)].
Proof. repeat split; vm_compute; reflexivity. Qed.

(** ** Splitting a reply at the comma *)

Lemma split_nonempty (sep : ascii) (s : string) : Py.split sep s <> [].
Proof.
  destruct s as [|c s]; cbn [Py.split]; [discriminate|].
  destruct (Ascii.eqb c sep); [discriminate|].
  destruct (Py.split sep s); discriminate.
Qed.

Lemma split_without_sep (sep : ascii) (s : string) :
  has_char sep s = false -> Py.split sep s = [s].
Proof.
  induction s as [|c s IH]; cbn [has_char Py.split]; intros H.
  - reflexivity.
  - apply orb_false_iff in H. destruct H as [Hc Hs].
    rewrite Hc, (IH Hs). reflexivity.
Qed.

Lemma split_at_sep (sep : ascii) (a b : string) :
  has_char sep a = false ->
  Py.split sep (a ++ String sep b) = a :: Py.split sep b.
Proof.
  induction a as [|c a IH]; cbn [has_char append Py.split]; intros H.
  - rewrite Ascii.eqb_refl. reflexivity.
  - apply orb_false_iff in H. destruct H as [Hc Ha].
    rewrite Hc, (IH Ha). reflexivity.
Qed.

Lemma split_one_inv (sep : ascii) (s b : string) :
  Py.split sep s = [b] -> s = b.
Proof.
  revert b. induction s as [|c s IH]; cbn [Py.split]; intros b H.
  - injection H as <-. reflexivity.
  - destruct (Ascii.eqb c sep).
    + injection H as _ H. exfalso. exact (split_nonempty sep s H).
    + destruct (Py.split sep s) as [|f fs] eqn:E.
      * exfalso. exact (split_nonempty sep s E).
      * injection H as <- ->. rewrite (IH f eq_refl). reflexivity.
Qed.

Lemma split_two_inv (sep : ascii) (s a b : string) :
  Py.split sep s = [a; b] -> s = (a ++ String sep b)%string.
Proof.
  revert a. induction s as [|c s IH]; cbn [Py.split]; intros a H.
  - discriminate H.
  - destruct (Ascii.eqb c sep) eqn:Ec.
    + injection H as <- H. apply Ascii.eqb_eq in Ec. subst c.
      rewrite (split_one_inv sep s b H). reflexivity.
    + destruct (Py.split sep s) as [|f fs] eqn:E.
      * discriminate H.
      * injection H as <- ->. rewrite (IH f eq_refl). reflexivity.
Qed.

(** ** [float] accepts no comma *)

Lemma has_char_remove_underscores (c : ascii) (s : string) :
  Ascii.eqb c "_" = false ->
  has_char c (Py.remove_underscores s) = has_char c s.
Proof.
  intros Hc. induction s as [|d s IH]; cbn [Py.remove_underscores has_char].
  - reflexivity.
  - destruct (Ascii.eqb d "_") eqn:Ed.
    + apply Ascii.eqb_eq in Ed. subst d. rewrite IH.
      rewrite Ascii.eqb_sym, Hc. reflexivity.
    + cbn [has_char]. rewrite IH. reflexivity.
Qed.

Lemma has_char_lstrip (sp : ascii -> bool) (c : ascii) (s : string) :
  sp c = false -> has_char c (Py.lstrip_with sp s) = has_char c s.
Proof.
  intros Hc. induction s as [|d s IH]; cbn [Py.lstrip_with has_char].
  - reflexivity.
  - destruct (sp d) eqn:Ed.
    + rewrite IH. destruct (Ascii.eqb d c) eqn:E; [|reflexivity].
      apply Ascii.eqb_eq in E. subst d. congruence.
    + reflexivity.
Qed.

Lemma has_char_rstrip (sp : ascii -> bool) (c : ascii) (s : string) :
  sp c = false -> has_char c (Py.rstrip_with sp s) = has_char c s.
Proof.
  intros Hc. induction s as [|d s IH]; cbn [Py.rstrip_with has_char].
  - reflexivity.
  - rewrite <- IH. destruct (Py.rstrip_with sp s) as [|e r].
    + destruct (sp d) eqn:Ed; cbn [has_char].
      * destruct (Ascii.eqb d c) eqn:E; [|reflexivity].
        apply Ascii.eqb_eq in E. subst d. congruence.
      * reflexivity.
    + reflexivity.
Qed.

Lemma has_char_lower (s : string) :
  has_char "," (Py.lower_str s) = has_char "," s.
Proof.
  induction s as [|d s IH]; cbn [Py.lower_str has_char].
  - reflexivity.
  - rewrite IH. f_equal.
    destruct d as [[] [] [] [] [] [] [] []]; reflexivity.
Qed.

Lemma take_digits_keeps (c : ascii) (s : string) (acc n : Z) :
  Py.is_digit c = false -> has_char c s = true ->
  has_char c (snd (Py.take_digits acc n s)) = true.
Proof.
  intros Hc. revert acc n.
  induction s as [|d s IH]; intros acc n H; cbn [Py.take_digits].
  - exact H.
  - destruct (Py.is_digit d) eqn:Ed.
    + apply IH. cbn [has_char] in H.
      destruct (Ascii.eqb d c) eqn:E; [|exact H].
      apply Ascii.eqb_eq in E. subst d. congruence.
    + exact H.
Qed.

Lemma parse_exponent_comma (s : string) :
  has_char "," s = true -> Py.parse_exponent s = None.
Proof.
  destruct s as [|c s]; cbn [has_char]; intros H; [discriminate H|].
  unfold Py.parse_exponent.
  destruct (Ascii.eqb (Py.lower c) "e") eqn:Ee; [|reflexivity].
  assert (Ascii.eqb c "," = false) as Hc.
  { destruct c as [[] [] [] [] [] [] [] []]; try reflexivity; discriminate Ee. }
  rewrite Hc in H. cbn [orb] in H.
  assert (forall ds, has_char "," ds = true ->
            match Py.take_digits 0 0 ds with
            | (v, n, EmptyString) => if 0 <? n then Some v else None
            | _ => @None Z
            end = None /\
            match Py.take_digits 0 0 ds with
            | (v, n, EmptyString) => if 0 <? n then Some (- v) else None
            | _ => None
            end = None) as Hds.
  { intros ds Hd.
    pose proof (take_digits_keeps "," ds 0 0 eq_refl Hd) as K.
    destruct (Py.take_digits 0 0 ds) as [[v n] r]. cbn [snd] in K.
    destruct r; [discriminate K | split; reflexivity]. }
  destruct s as [|d s']; [discriminate H|].
  destruct (Ascii.eqb d "-") eqn:Em; [|destruct (Ascii.eqb d "+") eqn:Ep].
  - apply Ascii.eqb_eq in Em. subst d. cbn [has_char Ascii.eqb orb] in H.
    apply (Hds s' H).
  - apply Ascii.eqb_eq in Ep. subst d. cbn [has_char Ascii.eqb orb] in H.
    apply (Hds s' H).
  - destruct (Hds _ H) as [K _].
    destruct d as [[] [] [] [] [] [] [] []]; try exact K;
      first [discriminate Em | discriminate Ep].
Qed.

Lemma parse_decimal_comma (s : string) :
  has_char "," s = true -> Py.parse_decimal s = None.
Proof.
  intros H. unfold Py.parse_decimal.
  pose proof (take_digits_keeps "," s 0 0 eq_refl H) as K1.
  destruct (Py.take_digits 0 0 s) as [[ip ni] r1]. cbn [snd] in K1.
  assert (forall (m nf : Z) (r2 : string), has_char "," r2 = true ->
            (if 0 <? ni + nf
             then option_map (fun ex => (m, ex - nf)) (Py.parse_exponent r2)
             else None) = None) as Hend.
  { intros m nf r2 K. rewrite (parse_exponent_comma r2 K).
    destruct (0 <? ni + nf); reflexivity. }
  destruct r1 as [|d r]; [discriminate K1|].
  destruct (Ascii.eqb d ".") eqn:Ed.
  - apply Ascii.eqb_eq in Ed. subst d. cbn [has_char Ascii.eqb orb] in K1.
    pose proof (take_digits_keeps "," r ip 0 eq_refl K1) as K2.
    destruct (Py.take_digits ip 0 r) as [[m nf] r2]. cbn [snd] in K2.
    apply Hend, K2.
  - pose proof (Hend ip 0 (String d r) K1) as K.
    destruct d as [[] [] [] [] [] [] [] []]; try exact K; discriminate Ed.
Qed.

Lemma py_float_no_comma (s : string) (x : float) :
  Py.py_float s = Some x -> has_char "," s = false.
Proof.
  intros H. destruct (has_char "," s) eqn:Hc; [exfalso|reflexivity].
  unfold Py.py_float in H.
  destruct (Py.underscores_ok None s); [|discriminate H].
  set (t := Py.rstrip_with Py.c_isspace
              (Py.lstrip_with Py.c_isspace (Py.remove_underscores s))) in H.
  assert (has_char "," t = true) as Ht.
  { unfold t. rewrite has_char_rstrip, has_char_lstrip, has_char_remove_underscores;
      [exact Hc | reflexivity | reflexivity | reflexivity]. }
  clearbody t.
  assert (forall (neg : bool) (body : string), has_char "," body = true ->
            (if String.eqb (Py.lower_str body) "inf" ||
                String.eqb (Py.lower_str body) "infinity"
             then Some (if neg then neg_infinity else infinity)
             else if String.eqb (Py.lower_str body) "nan" then Some nan
             else option_map (fun '(m, k) => Py.round_decimal neg m k)
                    (Py.parse_decimal body)) = Some x -> False) as Hbody.
  { intros neg body Hb K.
    rewrite <- has_char_lower in Hb.
    destruct (String.eqb (Py.lower_str body) "inf") eqn:E1.
    { apply String.eqb_eq in E1. rewrite E1 in Hb. discriminate Hb. }
    destruct (String.eqb (Py.lower_str body) "infinity") eqn:E2.
    { apply String.eqb_eq in E2. rewrite E2 in Hb. discriminate Hb. }
    destruct (String.eqb (Py.lower_str body) "nan") eqn:E3.
    { apply String.eqb_eq in E3. rewrite E3 in Hb. discriminate Hb. }
    cbn [orb] in K. rewrite has_char_lower in Hb.
    rewrite (parse_decimal_comma body Hb) in K. discriminate K. }
  destruct t as [|d r]; [discriminate Ht|].
  destruct (Ascii.eqb d "-") eqn:Em; [|destruct (Ascii.eqb d "+") eqn:Ep].
  - apply Ascii.eqb_eq in Em. subst d. cbn [has_char Ascii.eqb orb] in Ht.
    exact (Hbody true r Ht H).
  - apply Ascii.eqb_eq in Ep. subst d. cbn [has_char Ascii.eqb orb] in Ht.
    exact (Hbody false r Ht H).
  - apply (Hbody false (String d r) Ht).
    destruct d as [[] [] [] [] [] [] [] []]; try exact H;
      first [discriminate Em | discriminate Ep].
Qed.

Lemma two_floats_split (reply : string) (x y : float) :
  two_floats reply x y <->
  exists a b, Py.split "," reply = [a; b] /\
              Py.py_float a = Some x /\ Py.py_float b = Some y.
Proof.
  split.
  - intros (a & b & -> & Ha & Hb). exists a, b.
    split; [|split; assumption].
    cbn [append]. rewrite split_at_sep by exact (py_float_no_comma a x Ha).
    rewrite split_without_sep by exact (py_float_no_comma b y Hb).
    reflexivity.
  - intros (a & b & Hs & Ha & Hb). exists a, b.
    split; [|split; assumption].
    exact (split_two_inv "," reply a b Hs).
Qed.

(** ** Queries on an open connection *)

Lemma query_open (cmd : string) (line : list byte) (c : PSWController) (p : Serial.t) :
  ser c = Some p -> Serial.is_open p = true ->
  Py.encode_ascii (cmd ++ CRLF) = Some line ->
  query cmd c =
    (Ok (Py.strip (Py.decode_ascii_ignore
           (fst (Serial.take_line (Serial.rx (sent_on line p)))))),
     set_ser (Some (read_on (sent_on line p))) c).
Proof.
  intros Hs Ho He. unfold query, bind.
  rewrite (write_open cmd line c p Hs Ho He).
  rewrite (readline_open _ (sent_on line p)) by reflexivity.
  reflexivity.
Qed.

(** A query made of ASCII characters succeeds on an open connection. *)
Lemma query_open_total (cmd : string) (c : PSWController) :
  is_open c = true ->
  Py.all_chars Py.is_ascii (cmd ++ CRLF) = true ->
  exists reply c', query cmd c = (Ok reply, c').
Proof.
  intros Ho Ha. destruct (is_open_inv c Ho) as (p & Hs & Hp).
  eexists. eexists.
  exact (query_open cmd _ c p Hs Hp (encode_ascii_ok _ Ha)).
Qed.

(** ** Measurement *)

(** C2.  On an open controller [measure_all()] never raises.  It returns
    the reply of the measurement query as its third component; when the
    reply has the shape ["<float>,<float>"] the first two components are
    the two parsed floats; when it has not, both are [None]. *)
Theorem measure_all_never_raises (c : PSWController) :
  is_open c = true ->
  exists (reply : string) (c' : PSWController) (v i : option float),
    query "MEASure:SCALar:ALL?" c = (Ok reply, c') /\
    measure_all c = (Ok (v, i, reply), c') /\
    (forall x y, two_floats reply x y -> v = Some x /\ i = Some y) /\
    ((forall x y, ~ two_floats reply x y) -> v = None /\ i = None).
Proof.
  intros Ho.
  destruct (query_open_total "MEASure:SCALar:ALL?" c Ho eq_refl) as (reply & c' & Hq).
  exists reply, c'.
  unfold measure_all, bind at 1. rewrite Hq.
  unfold try_except, bind, unpack2, float_of.
  destruct (Py.split "," reply) as [|a [|b [|z fs]]] eqn:Es;
    cbn [ret raise of_option].
  - exists None, None. split; [reflexivity|]. split; [reflexivity|]. split; [|tauto].
    intros x y T. apply two_floats_split in T. destruct T as (a0 & b0 & E & _).
    rewrite Es in E. discriminate E.
  - exists None, None. split; [reflexivity|]. split; [reflexivity|]. split; [|tauto].
    intros x y T. apply two_floats_split in T. destruct T as (a0 & b0 & E & _).
    rewrite Es in E. discriminate E.
  - destruct (Py.py_float a) as [x'|] eqn:Ea; cbn [ret raise of_option];
      [destruct (Py.py_float b) as [y'|] eqn:Eb; cbn [ret raise of_option]|].
    + exists (Some x'), (Some y'). split; [reflexivity|]. split; [reflexivity|]. split.
      * intros x y T. apply two_floats_split in T.
        destruct T as (a0 & b0 & E & Ha0 & Hb0).
        rewrite Es in E. injection E as <- <-.
        rewrite Ea in Ha0. rewrite Eb in Hb0.
        injection Ha0 as <-. injection Hb0 as <-. split; reflexivity.
      * intros N. exfalso. apply (N x' y'). apply two_floats_split.
        exists a, b. split; [exact Es | split; assumption].
    + exists None, None. split; [reflexivity|]. split; [reflexivity|]. split; [|tauto].
      intros x y T. apply two_floats_split in T.
      destruct T as (a0 & b0 & E & _ & Hb0).
      rewrite Es in E. injection E as <- <-. rewrite Eb in Hb0. discriminate Hb0.
    + exists None, None. split; [reflexivity|]. split; [reflexivity|]. split; [|tauto].
      intros x y T. apply two_floats_split in T.
      destruct T as (a0 & b0 & E & Ha0 & _).
      rewrite Es in E. injection E as <- <-. rewrite Ea in Ha0. discriminate Ha0.
  - exists None, None. split; [reflexivity|]. split; [reflexivity|]. split; [|tauto].
    intros x y T. apply two_floats_split in T. destruct T as (a0 & b0 & E & _).
    rewrite Es in E. discriminate E.
Qed.

Lemma measure_all_never_raises_witness :
  is_open (connected (replies (list_byte_of_string ("12.3400,0.5000" ++ CRLF))) 5 1) = true /\
  exists (reply : string) (c' : PSWController) (v i : option float),
    query "MEASure:SCALar:ALL?"
      (connected (replies (list_byte_of_string ("12.3400,0.5000" ++ CRLF))) 5 1) =
      (Ok reply, c') /\
    measure_all
      (connected (replies (list_byte_of_string ("12.3400,0.5000" ++ CRLF))) 5 1) =
      (Ok (v, i, reply), c') /\
    (forall x y, two_floats reply x y -> v = Some x /\ i = Some y) /\
    ((forall x y, ~ two_floats reply x y) -> v = None /\ i = None).
Proof.
  split; [reflexivity|].
  apply (measure_all_never_raises
           (connected (replies (list_byte_of_string ("12.3400,0.5000" ++ CRLF))) 5 1)).
  reflexivity.
Defined.

(** The two replies the specification names. *)
Example measure_all_well_formed :
  fst (measure_all
         (connected (replies (list_byte_of_string ("12.3400,0.5000" ++ CRLF))) 5 1)) =
  Ok (Some 12.34%float, Some 0.5%float, "12.3400,0.5000").
Proof. vm_compute. reflexivity. Qed.

Example measure_all_malformed :
  fst (measure_all (connected (replies (list_byte_of_string ("ERR" ++ CRLF))) 5 1)) =
  Ok (None, None, "ERR").
Proof. vm_compute. reflexivity. Qed.

Example measure_all_no_response :
  fst (measure_all (connected silent 5 1)) = Ok (None, None, "").
Proof. vm_compute. reflexivity. Qed.

(** ** Protection status *)

Lemma land_pow2 (n k : Z) :
  0 <= k -> Z.land n (2 ^ k) = if Z.testbit n k then 2 ^ k else 0.
Proof.
  intros Hk. apply Z.bits_inj'. intros m Hm.
  rewrite Z.land_spec, Z.pow2_bits_eqb by exact Hk.
  destruct (Z.eqb_spec k m) as [->|Hne].
  - destruct (Z.testbit n m); cbn [andb].
    + rewrite Z.pow2_bits_eqb, Z.eqb_refl by exact Hm. reflexivity.
    + rewrite Z.bits_0. reflexivity.
  - rewrite andb_false_r. destruct (Z.testbit n k).
    + rewrite Z.pow2_bits_eqb by exact Hk.
      symmetry. apply Z.eqb_neq. exact Hne.
    + rewrite Z.bits_0. reflexivity.
Qed.

Lemma bool_and_bit (n k : Z) : 0 <= k -> bool_and n (2 ^ k) = Z.testbit n k.
Proof.
  intros Hk. unfold bool_and. rewrite (land_pow2 n k Hk).
  destruct (Z.testbit n k).
  - assert (0 < 2 ^ k) as Hp by (apply Z.pow_pos_nonneg; lia).
    destruct (Z.eqb_spec (2 ^ k) 0) as [E|_]; [lia | reflexivity].
  - reflexivity.
Qed.

Lemma get_protection_status_after_query
    (c c' : PSWController) (reply : string) :
  query "STATus:QUEStionable:CONDition?" c = (Ok reply, c') ->
  get_protection_status c =
    match Py.py_int reply with
    | Some n => (Ok (Z.testbit n 0, Z.testbit n 1, n), c')
    | None => (Raise ValueError, c')
    end.
Proof.
  intros Hq. unfold get_protection_status, bind at 1. rewrite Hq.
  unfold bind, int_of. destruct (Py.py_int reply) as [n|]; cbn [of_option ret raise].
  - pose proof (bool_and_bit n 0 ltac:(lia)) as B0.
    pose proof (bool_and_bit n 1 ltac:(lia)) as B1.
    change (2 ^ 0) with 1 in B0. change (2 ^ 1) with 2 in B1.
    rewrite B0, B1. reflexivity.
  - reflexivity.
Qed.

(** *** [int] reads back the decimal text of a natural number *)

Lemma digitpart_uint (d : uint) (prev : bool) (acc : Z) :
  prev = true \/ d <> Nil ->
  Py.digitpart prev acc (NilEmpty.string_of_uint d) = Some (uint_value acc d).
Proof.
  revert prev acc.
  induction d as [|d IH|d IH|d IH|d IH|d IH|d IH|d IH|d IH|d IH|d IH];
    intros prev acc H;
    cbn [NilEmpty.string_of_uint Py.digitpart uint_value].
  - destruct H as [-> | H]; [reflexivity | exfalso; apply H; reflexivity].
  - change (Py.is_digit "0") with true. cbv iota.
    rewrite IH by (left; reflexivity). f_equal. f_equal. unfold Py.digit_value. cbn. lia.
  - change (Py.is_digit "1") with true. cbv iota.
    rewrite IH by (left; reflexivity). reflexivity.
  - change (Py.is_digit "2") with true. cbv iota.
    rewrite IH by (left; reflexivity). reflexivity.
  - change (Py.is_digit "3") with true. cbv iota.
    rewrite IH by (left; reflexivity). reflexivity.
  - change (Py.is_digit "4") with true. cbv iota.
    rewrite IH by (left; reflexivity). reflexivity.
  - change (Py.is_digit "5") with true. cbv iota.
    rewrite IH by (left; reflexivity). reflexivity.
  - change (Py.is_digit "6") with true. cbv iota.
    rewrite IH by (left; reflexivity). reflexivity.
  - change (Py.is_digit "7") with true. cbv iota.
    rewrite IH by (left; reflexivity). reflexivity.
  - change (Py.is_digit "8") with true. cbv iota.
    rewrite IH by (left; reflexivity). reflexivity.
  - change (Py.is_digit "9") with true. cbv iota.
    rewrite IH by (left; reflexivity). reflexivity.
Qed.

Lemma uint_value_pos (d : uint) (acc : positive) :
  uint_value (Z.pos acc) d = Z.pos (Pos.of_uint_acc d acc).
Proof.
  revert acc. induction d; intros acc; cbn [uint_value Pos.of_uint_acc];
    try reflexivity; rewrite <- IHd; f_equal; lia.
Qed.

Lemma uint_value_0 (d : uint) : uint_value 0 d = Z.of_N (Pos.of_uint d).
Proof.
  induction d; cbn [uint_value Pos.of_uint]; try reflexivity;
    try exact IHd; cbn [Z.mul Z.add Z.of_N]; apply uint_value_pos.
Qed.

Lemma lstrip_head (sp : ascii -> bool) (c : ascii) (s : string) :
  sp c = false -> Py.lstrip_with sp (String c s) = String c s.
Proof. intros H. cbn [Py.lstrip_with]. rewrite H. reflexivity. Qed.

Lemma rstrip_no_space (sp : ascii -> bool) (s : string) :
  Py.all_chars (fun c => negb (sp c)) s = true -> Py.rstrip_with sp s = s.
Proof.
  induction s as [|c s IH]; cbn [Py.all_chars Py.rstrip_with]; intros H.
  - reflexivity.
  - apply andb_true_iff in H. destruct H as [Hc Hs]. rewrite (IH Hs).
    destruct s; [|reflexivity].
    apply negb_true_iff in Hc. rewrite Hc. reflexivity.
Qed.

Lemma is_digit_not_space (c : ascii) :
  Py.is_digit c = true -> negb (Py.c_isspace c) = true.
Proof.
  unfold Py.is_digit, Py.c_isspace. intros H.
  apply andb_true_iff in H. destruct H as [H1 H2].
  apply Z.leb_le in H1. apply negb_true_iff, orb_false_iff. split.
  - apply andb_false_iff. right. apply Z.leb_gt. lia.
  - apply Z.eqb_neq. lia.
Qed.

(** On a non-empty text made of digits only, no more of them than the
    limit, [int] is plain digit reading. *)
Lemma py_int_digits (s : string) :
  s <> EmptyString -> Py.all_chars Py.is_digit s = true ->
  Py.count_digits s <= Py.int_max_str_digits ->
  Py.py_int s = Py.digitpart false 0 s.
Proof.
  intros Hne Hd Hcap. destruct s as [|c s]; [exfalso; apply Hne; reflexivity|].
  unfold Py.py_int.
  assert (Py.is_digit c = true) as Hc.
  { cbn [Py.all_chars] in Hd. apply andb_true_iff in Hd. apply Hd. }
  rewrite lstrip_head
    by (apply negb_true_iff; apply is_digit_not_space; exact Hc).
  rewrite rstrip_no_space
    by (apply (all_chars_weaken _ _ _ is_digit_not_space); exact Hd).
  assert (Py.int_digits (String c s) = Py.digitpart false 0 (String c s)) as Hi.
  { unfold Py.int_digits. apply Z.leb_le in Hcap. rewrite Hcap. reflexivity. }
  destruct c as [[] [] [] [] [] [] [] []]; try exact Hi; discriminate Hc.
Qed.

(** Past the limit [int] reads nothing, whatever the sign. *)
Lemma py_int_over_limit (s : string) :
  Py.all_chars Py.is_digit s = true ->
  Py.int_max_str_digits < Py.count_digits s ->
  Py.py_int s = None.
Proof.
  intros Hd Hcap. destruct s as [|c s]; [reflexivity|].
  unfold Py.py_int.
  assert (Py.is_digit c = true) as Hc.
  { cbn [Py.all_chars] in Hd. apply andb_true_iff in Hd. apply Hd. }
  rewrite lstrip_head
    by (apply negb_true_iff; apply is_digit_not_space; exact Hc).
  rewrite rstrip_no_space
    by (apply (all_chars_weaken _ _ _ is_digit_not_space); exact Hd).
  assert (Py.int_digits (String c s) = None) as Hi.
  { unfold Py.int_digits. apply Z.leb_gt in Hcap. rewrite Hcap. reflexivity. }
  destruct c as [[] [] [] [] [] [] [] []]; try exact Hi; discriminate Hc.
Qed.

(** The digits of a decimal numeral are as many as its characters. *)
Lemma count_digits_uint (d : uint) :
  Py.count_digits (NilEmpty.string_of_uint d) = Z.of_nat (nb_digits d).
Proof.
  induction d; cbn [NilEmpty.string_of_uint Py.count_digits nb_digits];
    try reflexivity; rewrite IHd, Nat2Z.inj_succ;
    match goal with
    | |- (if Py.is_digit ?c then _ else _) + _ = _ =>
        change (Py.is_digit c) with true
    end; lia.
Qed.

(** A numeral of [k] digits on top of [acc] denotes [acc * 10 ^ k] at
    least. *)
Lemma uint_value_lower (d : uint) (acc : Z) :
  0 <= acc -> acc * 10 ^ Z.of_nat (nb_digits d) <= uint_value acc d.
Proof.
  revert acc. induction d; intros acc Ha; cbn [uint_value nb_digits];
    [rewrite Z.pow_0_r; lia | ..];
    rewrite Nat2Z.inj_succ, Z.pow_succ_r by lia;
    (etransitivity; [|apply IHd; lia]);
    assert (0 <= 10 ^ Z.of_nat (nb_digits d)) by (apply Z.pow_nonneg; lia);
    nia.
Qed.

(** A numeral without leading zeros, other than [0] itself, denotes
    [10 ^ (k - 1)] at least, [k] being the number of its digits. *)
Lemma uint_value_norm_lower (d : uint) :
  unorm d = d -> d <> Decimal.zero ->
  10 ^ (Z.of_nat (nb_digits d) - 1) <= uint_value 0 d.
Proof.
  intros Hn Hz.
  assert (forall k d', 1 <= k ->
            10 ^ Z.of_nat (nb_digits d') <= uint_value (10 * 0 + k) d') as Hk.
  { intros k d' H1. etransitivity; [|apply uint_value_lower; lia].
    assert (0 <= 10 ^ Z.of_nat (nb_digits d')) by (apply Z.pow_nonneg; lia).
    nia. }
  destruct d as [|d'|d'|d'|d'|d'|d'|d'|d'|d'|d'];
    cbn [uint_value nb_digits]; rewrite ?Nat2Z.inj_succ;
    try (replace (Z.succ (Z.of_nat (nb_digits d')) - 1)
           with (Z.of_nat (nb_digits d')) by lia).
  - discriminate Hn.
  - exfalso. unfold unorm in Hn. cbn [nzhead] in Hn.
    pose proof (DecimalFacts.nb_digits_nzhead d') as Hle.
    destruct (nzhead d') as [|u|u|u|u|u|u|u|u|u|u] eqn:E;
      try discriminate Hn.
    + apply Hz. symmetry. exact Hn.
    + injection Hn as Hu. rewrite Hu in Hle. cbn [nb_digits] in Hle. lia.
  - apply (Hk 1 d'); lia.
  - apply (Hk 2 d'); lia.
  - apply (Hk 3 d'); lia.
  - apply (Hk 4 d'); lia.
  - apply (Hk 5 d'); lia.
  - apply (Hk 6 d'); lia.
  - apply (Hk 7 d'); lia.
  - apply (Hk 8 d'); lia.
  - apply (Hk 9 d'); lia.
Qed.

Lemma N_to_uint_value (m : N) : uint_value 0 (N.to_uint m) = Z.of_N m.
Proof.
  rewrite uint_value_0.
  change (Pos.of_uint (N.to_uint m)) with (N.of_uint (N.to_uint m)).
  rewrite DecimalN.Unsigned.of_to. reflexivity.
Qed.

(** The decimal text of a natural number below [10 ^ k] has [k] digits
    at most. *)
Lemma str_of_nat_count (n k : Z) :
  1 <= k -> 0 <= n < 10 ^ k -> Py.count_digits (Py.str_of_nat n) <= k.
Proof.
  intros Hk [Hn Hlt]. unfold Py.str_of_nat. rewrite count_digits_uint.
  set (d := N.to_uint (Z.to_N n)).
  assert (unorm d = d) as Hnorm.
  { unfold d. rewrite <- (DecimalN.Unsigned.of_to (Z.to_N n)) at 2.
    symmetry. apply DecimalN.Unsigned.to_of. }
  assert (uint_value 0 d = n) as Hv.
  { unfold d. rewrite N_to_uint_value. apply Z2N.id. exact Hn. }
  destruct (uint_eq_dec d Decimal.zero) as [E | E].
  - rewrite E. cbn. lia.
  - pose proof (uint_value_norm_lower d Hnorm E) as Hlow. rewrite Hv in Hlow.
    assert (Z.of_nat (nb_digits d) - 1 < k); [|lia].
    apply (Z.pow_lt_mono_r_iff 10); lia.
Qed.

(** The decimal text of every natural number of at most 4300 digits is
    read back by [int]. *)
Lemma py_int_str_of_nat (n : Z) :
  0 <= n < 10 ^ Py.int_max_str_digits -> Py.py_int (Py.str_of_nat n) = Some n.
Proof.
  intros Hn.
  rewrite py_int_digits;
    [| apply str_of_nat_nonempty | apply str_of_nat_digits
     | apply str_of_nat_count; [unfold Py.int_max_str_digits; lia | exact Hn]].
  unfold Py.str_of_nat.
  rewrite digitpart_uint.
  - rewrite N_to_uint_value. rewrite Z2N.id by apply Hn. reflexivity.
  - right. destruct (Z.to_N n) as [|q]; cbn [N.to_uint].
    + discriminate.
    + apply DecimalPos.Unsigned.to_uint_nonnil.
Qed.

(** C5, refuted as stated.  The register [10 ^ 4300] is an unsigned
    integer and its reply, 4301 decimal digits, the text of one; yet
    [get_protection_status()] decodes nothing from it: [int] rejects a
    literal of more than 4300 digits, and the call fails with
    [ValueError]. *)
Lemma protection_status_rejects_long_register :
  long_register = Py.str_of_nat (10 ^ 4300) /\
  unsigned_literal long_register = true /\
  Py.count_digits long_register = 4301 /\
  fst (get_protection_status
         (connected (replies (list_byte_of_string (long_register ++ CRLF))) 5 1)) =
    Raise ValueError.
Proof. split; [|split; [|split]]; vm_compute; reflexivity. Qed.

(** C5, amended.  When the questionable-condition query returns a text
    that [int] reads as the integer [n], or the decimal text of an
    unsigned integer [n] of at most 4300 digits (which [int] does read),
    [get_protection_status()] returns over-voltage = bit 0 of [n],
    over-current = bit 1 of [n], and [n] itself as the raw value; no
    other bit of [n] enters the two flags. *)
Theorem protection_status_decodes_bits
    (c c' : PSWController) (reply : string) (n : Z) :
  query "STATus:QUEStionable:CONDition?" c = (Ok reply, c') ->
  Py.py_int reply = Some n \/
  (reply = Py.str_of_nat n /\ 0 <= n < 10 ^ Py.int_max_str_digits) ->
  get_protection_status c = (Ok (Z.testbit n 0, Z.testbit n 1, n), c').
Proof.
  intros Hq Hn.
  assert (Py.py_int reply = Some n) as Hi.
  { destruct Hn as [Hn | [-> Hn]]; [exact Hn | exact (py_int_str_of_nat n Hn)]. }
  rewrite (get_protection_status_after_query c c' reply Hq), Hi.
  reflexivity.
Qed.

Lemma protection_status_decodes_bits_witness :
  query "STATus:QUEStionable:CONDition?"
    (connected (replies (list_byte_of_string ("2" ++ CRLF))) 5 1) =
    (Ok "2",
     mkPSW (Some (Serial.mk true
        [list_byte_of_string ("STATus:QUEStionable:CONDition?" ++ CRLF)] []
        (replies (list_byte_of_string ("2" ++ CRLF))))) 5 1) /\
  Py.py_int "2" = Some 2 /\
  get_protection_status
    (connected (replies (list_byte_of_string ("2" ++ CRLF))) 5 1) =
    (Ok (Z.testbit 2 0, Z.testbit 2 1, 2),
     mkPSW (Some (Serial.mk true
        [list_byte_of_string ("STATus:QUEStionable:CONDition?" ++ CRLF)] []
        (replies (list_byte_of_string ("2" ++ CRLF))))) 5 1).
Proof.
  split; [reflexivity | split; [reflexivity |]].
  apply (protection_status_decodes_bits _ _ "2" 2); [reflexivity | left; reflexivity].
Defined.

(** The longest register that is still decoded: 4300 digits. *)
Example protection_status_longest_register :
  fst (get_protection_status
         (connected (replies (list_byte_of_string
                                (Py.str_of_nat (10 ^ 4300 - 1) ++ CRLF))) 5 1)) =
    Ok (true, true, 10 ^ 4300 - 1).
Proof. vm_compute. reflexivity. Qed.

(** The three registers the specification names. *)
Example protection_status_3_0_2 :
  fst (get_protection_status (connected (replies (list_byte_of_string ("3" ++ CRLF))) 5 1)) =
    Ok (true, true, 3) /\
  fst (get_protection_status (connected (replies (list_byte_of_string ("0" ++ CRLF))) 5 1)) =
    Ok (false, false, 0) /\
  fst (get_protection_status (connected (replies (list_byte_of_string ("2" ++ CRLF))) 5 1)) =
    Ok (false, true, 2).
Proof. repeat split; vm_compute; reflexivity. Qed.

(** Bits above bit 1 are ignored by the flags and kept in the raw
    value. *)
Example protection_status_high_bits :
  fst (get_protection_status (connected (replies (list_byte_of_string ("4098" ++ CRLF))) 5 1)) =
    Ok (false, true, 4098).
Proof. vm_compute. reflexivity. Qed.

(** C7, refuted as stated.  The reply [-1] is not the text of an
    unsigned integer, yet [get_protection_status()] does not fail on it:
    [int] accepts a sign, and the result is [(True, True, -1)]. *)
Lemma protection_status_accepts_negative :
  unsigned_literal "-1" = false /\
  fst (get_protection_status
         (connected (replies (list_byte_of_string ("-1" ++ CRLF))) 5 1)) =
    Ok (true, true, -1).
Proof. split; vm_compute; reflexivity. Qed.

(** C7, amended.  For every reply to the questionable-condition query
    that [int] rejects (no base-10 integer, signed or not, or one of
    more than 4300 digits), [get_protection_status()] on an open
    controller fails with [ProtocolError], Python's [ValueError]. *)
Theorem protection_status_rejects_non_integer
    (c c' : PSWController) (reply : string) :
  query "STATus:QUEStionable:CONDition?" c = (Ok reply, c') ->
  Py.py_int reply = None ->
  get_protection_status c = (Raise ProtocolError, c').
Proof.
  intros Hq Hn. rewrite (get_protection_status_after_query c c' reply Hq), Hn.
  reflexivity.
Qed.

Lemma protection_status_rejects_non_integer_witness :
  query "STATus:QUEStionable:CONDition?"
    (connected (replies (list_byte_of_string ("ERR" ++ CRLF))) 5 1) =
    (Ok "ERR",
     mkPSW (Some (Serial.mk true
        [list_byte_of_string ("STATus:QUEStionable:CONDition?" ++ CRLF)] []
        (replies (list_byte_of_string ("ERR" ++ CRLF))))) 5 1) /\
  Py.py_int "ERR" = None /\
  get_protection_status
    (connected (replies (list_byte_of_string ("ERR" ++ CRLF))) 5 1) =
    (Raise ProtocolError,
     mkPSW (Some (Serial.mk true
        [list_byte_of_string ("STATus:QUEStionable:CONDition?" ++ CRLF)] []
        (replies (list_byte_of_string ("ERR" ++ CRLF))))) 5 1).
Proof.
  split; [reflexivity | split; [reflexivity |]].
  apply (protection_status_rejects_non_integer _ _ "ERR"); reflexivity.
Defined.

(** ** Disabling a protection *)

(** C6, refuted as stated.  The controller has no [ovp_enabled] (nor
    [ocp_enabled]) attribute: after [disable_ovp()] on an open controller
    the attribute is still missing, so it does not hold [False]. *)
Lemma disable_ovp_sets_no_flag :
  fst (disable_ovp (connected silent 5 1)) = Ok tt /\
  instance_attr (snd (disable_ovp (connected silent 5 1))) "ovp_enabled" = None /\
  instance_attr (snd (disable_ovp (connected silent 5 1))) "ovp_enabled"
    <> Some (VBool false) /\
  instance_attr (snd (disable_ocp (connected silent 5 1))) "ocp_enabled"
    <> Some (VBool false).
Proof.
  split; [reflexivity | split; [reflexivity | split]];
    vm_compute; discriminate.
Qed.

(** C6, amended.  On every open controller, whatever was sent before,
    [disable_ovp()] transmits the protection-level command with the
    symbolic token [MAX] (and [disable_ocp()] the current one) and changes
    nothing else: the controller keeps no enable flag, it has no attribute
    [ovp_enabled] or [ocp_enabled] afterwards either. *)
Theorem disable_protection_sends_max (c : PSWController) :
  is_open c = true ->
  exists p,
    ser c = Some p /\
    disable_ovp c =
      (Ok tt,
       mkPSW (Some (sent_on
                (list_byte_of_string ("SOURce:VOLTage:PROTection:LEVel MAX" ++ CRLF)) p))
         (target_v c) (target_i c)) /\
    disable_ocp c =
      (Ok tt,
       mkPSW (Some (sent_on
                (list_byte_of_string ("SOURce:CURRent:PROTection:LEVel MAX" ++ CRLF)) p))
         (target_v c) (target_i c)) /\
    instance_attr (snd (disable_ovp c)) "ovp_enabled" = None /\
    instance_attr (snd (disable_ocp c)) "ocp_enabled" = None.
Proof.
  intros Ho. destruct (is_open_inv c Ho) as (p & Hs & Hp).
  exists p. split; [exact Hs|].
  unfold disable_ovp, disable_ocp.
  rewrite (write_open "SOURce:VOLTage:PROTection:LEVel MAX" _ c p Hs Hp eq_refl).
  rewrite (write_open "SOURce:CURRent:PROTection:LEVel MAX" _ c p Hs Hp eq_refl).
  repeat split.
Qed.

Lemma disable_protection_sends_max_witness :
  is_open (connected silent 5 1) = true /\
  exists p,
    ser (connected silent 5 1) = Some p /\
    disable_ovp (connected silent 5 1) =
      (Ok tt,
       mkPSW (Some (sent_on
                (list_byte_of_string ("SOURce:VOLTage:PROTection:LEVel MAX" ++ CRLF)) p))
         (target_v (connected silent 5 1)) (target_i (connected silent 5 1))) /\
    disable_ocp (connected silent 5 1) =
      (Ok tt,
       mkPSW (Some (sent_on
                (list_byte_of_string ("SOURce:CURRent:PROTection:LEVel MAX" ++ CRLF)) p))
         (target_v (connected silent 5 1)) (target_i (connected silent 5 1))) /\
    instance_attr (snd (disable_ovp (connected silent 5 1))) "ovp_enabled" = None /\
    instance_attr (snd (disable_ocp (connected silent 5 1))) "ocp_enabled" = None.
Proof.
  split; [reflexivity|].
  apply (disable_protection_sends_max (connected silent 5 1)). reflexivity.
Defined.

(** A numeric threshold set before does not show in what
    [disable_ovp()] sends. *)
Example disable_ovp_after_set_ovp :
  option_map Serial.tx (ser (snd ((set_ovp 15 ;; disable_ovp) (connected silent 5 1)))) =
  Some [list_byte_of_string ("SOURce:VOLTage:PROTection:LEVel MAX" ++ CRLF);
        list_byte_of_string ("SOURce:VOLTage:PROTection:LEVel 15.0000" ++ CRLF)].
Proof. vm_compute. reflexivity. Qed.

(** ** Reading a line *)

(** C8, refuted as stated.  When the line read is [" 1"] followed by
    CR LF, [_readline()] returns ["1"]: the leading space is stripped
    too, whereas stripping trailing white space only gives [" 1"]. *)
Lemma readline_strips_leading_space :
  fst (_readline
         (mkPSW (Some (Serial.mk true [] (list_byte_of_string (" 1" ++ CRLF)) silent)) 5 1)) =
    Ok "1" /\
  receive_line_spec (list_byte_of_string (" 1" ++ CRLF)) = " 1" /\
  fst (_readline
         (mkPSW (Some (Serial.mk true [] (list_byte_of_string (" 1" ++ CRLF)) silent)) 5 1)) <>
    Ok (receive_line_spec (list_byte_of_string (" 1" ++ CRLF))).
Proof.
  split; [reflexivity | split; [reflexivity |]].
  vm_compute. discriminate.
Qed.

(** C8, amended.  On an open connection [_readline()] never raises: for
    every byte sequence [data] that the port's [readline] hands over, it
    returns [data] without its bytes outside ASCII, with the white space
    at both ends stripped.  That is the trailing-only stripping of the
    specification whenever the decoded text does not begin with white
    space, and the empty string when no byte was read. *)
Theorem readline_decodes_and_strips
    (c : PSWController) (p : Serial.t) (data rest : list byte) :
  ser c = Some p ->
  Serial.is_open p = true ->
  Serial.take_line (Serial.rx p) = (data, rest) ->
  _readline c =
    (Ok (Py.strip (Py.decode_ascii_ignore data)),
     mkPSW (Some (Serial.mk true (Serial.tx p) rest (Serial.device p)))
       (target_v c) (target_i c)) /\
  (Py.lstrip (Py.decode_ascii_ignore data) = Py.decode_ascii_ignore data ->
   fst (_readline c) = Ok (receive_line_spec data)) /\
  (data = [] -> fst (_readline c) = Ok EmptyString).
Proof.
  intros Hs Ho Ht.
  rewrite (readline_open c p Hs Ho). unfold read_on. rewrite Ht.
  cbn [fst snd]. split; [reflexivity | split].
  - intros Hl. unfold Py.strip, receive_line_spec. rewrite Hl. reflexivity.
  - intros ->. reflexivity.
Qed.

Lemma readline_decodes_and_strips_witness :
  ser (mkPSW (Some (Serial.mk true []
         [x31; x32; xff; x2e; x35; x0d; x0a; x37] silent)) 5 1) =
    Some (Serial.mk true [] [x31; x32; xff; x2e; x35; x0d; x0a; x37] silent) /\
  Serial.is_open
    (Serial.mk true [] [x31; x32; xff; x2e; x35; x0d; x0a; x37] silent) = true /\
  Serial.take_line
    (Serial.rx (Serial.mk true [] [x31; x32; xff; x2e; x35; x0d; x0a; x37] silent)) =
    ([x31; x32; xff; x2e; x35; x0d; x0a], [x37]) /\
  _readline (mkPSW (Some (Serial.mk true []
         [x31; x32; xff; x2e; x35; x0d; x0a; x37] silent)) 5 1) =
    (Ok "12.5", mkPSW (Some (Serial.mk true [] [x37] silent)) 5 1).
Proof.
  split; [reflexivity | split; [reflexivity | split; [reflexivity |]]].
  apply (readline_decodes_and_strips
           (mkPSW (Some (Serial.mk true []
              [x31; x32; xff; x2e; x35; x0d; x0a; x37] silent)) 5 1)
           (Serial.mk true [] [x31; x32; xff; x2e; x35; x0d; x0a; x37] silent)
           [x31; x32; xff; x2e; x35; x0d; x0a] [x37]); reflexivity.
Defined.

(** A time-out with no byte read gives the empty string. *)
Example readline_timeout :
  fst (_readline (connected silent 5 1)) = Ok EmptyString.
Proof. reflexivity. Qed.

(** ** Round trip of the OVP level *)

(** C9.  Against the instrument that echoes the OVP level last set,
    [set_ovp(15.0)] followed by [get_ovp()] returns 15.0 on every open
    controller with no stale input pending: the level travels as
    [15.0000] and parses back to the same float. *)
Theorem ovp_round_trip (c : PSWController) (p : Serial.t) :
  ser c = Some p ->
  Serial.is_open p = true ->
  Serial.rx p = [] ->
  Serial.device p = echo_ovp ->
  fst ((set_ovp 15 ;; get_ovp) c) = Ok 15%float /\
  option_map Serial.tx (ser (snd ((set_ovp 15 ;; get_ovp) c))) =
    Some (list_byte_of_string ("SOURce:VOLTage:PROTection:LEVel?" ++ CRLF)
          :: list_byte_of_string ("SOURce:VOLTage:PROTection:LEVel 15.0000" ++ CRLF)
          :: Serial.tx p).
Proof.
  destruct c as [s v i]. destruct p as [o sent pending dev].
  cbn [ser Serial.is_open Serial.rx Serial.device Serial.tx].
  intros -> -> -> ->.
  split; vm_compute; reflexivity.
Qed.

Lemma ovp_round_trip_witness :
  ser (connected echo_ovp 5 1) = Some (Serial.mk true [] [] echo_ovp) /\
  Serial.is_open (Serial.mk true [] [] echo_ovp) = true /\
  Serial.rx (Serial.mk true [] [] echo_ovp) = [] /\
  Serial.device (Serial.mk true [] [] echo_ovp) = echo_ovp /\
  fst ((set_ovp 15 ;; get_ovp) (connected echo_ovp 5 1)) = Ok 15%float.
Proof.
  split; [reflexivity | split; [reflexivity | split; [reflexivity | split; [reflexivity |]]]].
  apply (ovp_round_trip (connected echo_ovp 5 1) (Serial.mk true [] [] echo_ovp));
    reflexivity.
Defined.

(** * Beyond the setpoints: the other operations of the controller *)

(** ** One operation, one line at most *)

Lemma port_rel_refl (s : option Serial.t) : port_rel s s.
Proof.
  destruct s as [p|]; cbn [port_rel]; [|exact I].
  split; [reflexivity | split; [reflexivity | left; reflexivity]].
Qed.

Lemma write_summary (cmd : string) (c : PSWController) :
  exists s', snd (_write cmd c) = set_ser s' c /\ port_rel (ser c) s'.
Proof.
  destruct (is_open c) eqn:Ho.
  - destruct (is_open_inv c Ho) as (p & Hs & Hp).
    destruct (Py.all_chars Py.is_ascii (cmd ++ CRLF)) eqn:Ha.
    + rewrite (write_open cmd _ c p Hs Hp (encode_ascii_ok _ Ha)).
      eexists. split; [reflexivity|]. rewrite Hs. cbn [port_rel sent_on Serial.is_open
        Serial.device Serial.tx].
      split; [symmetry; exact Hp | split; [reflexivity | right]].
      exists cmd. split; [|reflexivity].
      rewrite all_chars_app in Ha. apply andb_true_iff in Ha. apply Ha.
    + exists (ser c). split; [|apply port_rel_refl].
      unfold _write, bind, gets. rewrite Ho. cbn [negb].
      unfold Py.encode_ascii. rewrite Ha. destruct c; reflexivity.
  - rewrite (write_closed cmd c Ho). exists (ser c).
    split; [destruct c; reflexivity | apply port_rel_refl].
Qed.

Lemma query_summary (cmd : string) (c : PSWController) :
  exists s', snd (query cmd c) = set_ser s' c /\ port_rel (ser c) s'.
Proof.
  destruct (is_open c) eqn:Ho.
  - destruct (is_open_inv c Ho) as (p & Hs & Hp).
    destruct (Py.all_chars Py.is_ascii (cmd ++ CRLF)) eqn:Ha.
    + rewrite (query_open cmd _ c p Hs Hp (encode_ascii_ok _ Ha)).
      eexists. split; [reflexivity|]. rewrite Hs. cbn [port_rel read_on sent_on
        Serial.is_open Serial.device Serial.tx].
      split; [symmetry; exact Hp | split; [reflexivity | right]].
      exists cmd. split; [|reflexivity].
      rewrite all_chars_app in Ha. apply andb_true_iff in Ha. apply Ha.
    + exists (ser c). split; [|apply port_rel_refl].
      unfold query, _write, bind, gets. rewrite Ho. cbn [negb].
      unfold Py.encode_ascii. rewrite Ha. destruct c; reflexivity.
  - rewrite (query_closed cmd c Ho). exists (ser c).
    split; [destruct c; reflexivity | apply port_rel_refl].
Qed.

(** After a query, what the caller does with the reply no longer touches
    the controller. *)
Lemma snd_bind_pure {A B : Type} (m : M A) (k : A -> M B) (c : PSWController) :
  (forall a c', snd (k a c') = c') -> snd (bind m k c) = snd (m c).
Proof.
  intros Hk. unfold bind. destruct (m c) as [[a|e] c']; [apply Hk | reflexivity].
Qed.

Lemma float_of_pure (s : string) (c : PSWController) : snd (float_of s c) = c.
Proof. unfold float_of. destruct (Py.py_float s); reflexivity. Qed.

Lemma int_of_pure (s : string) (c : PSWController) : snd (int_of s c) = c.
Proof. unfold int_of. destruct (Py.py_int s); reflexivity. Qed.

Lemma measure_all_state (c : PSWController) :
  snd (measure_all c) = snd (query "MEASure:SCALar:ALL?" c).
Proof.
  unfold measure_all. apply snd_bind_pure. intros reply c'.
  unfold try_except, bind, unpack2.
  destruct (Py.split "," reply) as [|a [|b [|z fs]]]; try reflexivity.
  cbn [ret]. unfold float_of.
  destruct (Py.py_float a); [destruct (Py.py_float b)|]; reflexivity.
Qed.

Lemma get_protection_status_state (c : PSWController) :
  snd (get_protection_status c) = snd (query "STATus:QUEStionable:CONDition?" c).
Proof.
  unfold get_protection_status. apply snd_bind_pure. intros reply c'.
  unfold bind, int_of. destruct (Py.py_int reply); reflexivity.
Qed.

(** Where an operation leaves the controller: the setpoint it assigns,
    if any, and a port related to the former one by [port_rel]. *)
Lemma call_summary (o : operation) (c : PSWController) :
  exists s',
    snd (call o c) =
      set_ser s'
        match o with
        | OpSetVoltage v => set_target_v v c
        | OpSetCurrent i => set_target_i i c
        | _ => c
        end /\
    port_rel (ser c) s'.
Proof.
  destruct o as [| |v|i| | | |remote|v| | |i| | | |cmd|cmd]; cbn [call].
  - unfold void, get_idn. rewrite snd_bind_pure by reflexivity. apply query_summary.
  - unfold apply_vi, bind, gets. apply write_summary.
  - unfold set_voltage, apply_vi, bind, modify, gets.
    destruct (write_summary
      ("APPLy " ++ Py.format_4f (target_v (set_target_v v c)) ++ "," ++
       Py.format_4f (target_i (set_target_v v c))) (set_target_v v c)) as (s' & E & R).
    exists s'. split; [exact E | exact R].
  - unfold set_current, apply_vi, bind, modify, gets.
    destruct (write_summary
      ("APPLy " ++ Py.format_4f (target_v (set_target_i i c)) ++ "," ++
       Py.format_4f (target_i (set_target_i i c))) (set_target_i i c)) as (s' & E & R).
    exists s'. split; [exact E | exact R].
  - apply write_summary.
  - apply write_summary.
  - unfold void. rewrite snd_bind_pure by reflexivity. rewrite measure_all_state.
    apply query_summary.
  - destruct remote; apply write_summary.
  - apply write_summary.
  - unfold void, get_ovp. rewrite snd_bind_pure by reflexivity.
    rewrite snd_bind_pure by (intros; apply float_of_pure). apply query_summary.
  - apply write_summary.
  - apply write_summary.
  - unfold void, get_ocp. rewrite snd_bind_pure by reflexivity.
    rewrite snd_bind_pure by (intros; apply float_of_pure). apply query_summary.
  - apply write_summary.
  - unfold void. rewrite snd_bind_pure by reflexivity.
    rewrite get_protection_status_state. apply query_summary.
  - unfold void. rewrite snd_bind_pure by reflexivity. apply query_summary.
  - apply write_summary.
Qed.

(** X1.  Only [set_voltage] and [set_current] assign a setpoint: every
    other operation, on an open or a closed controller and whatever its
    outcome, leaves [target_v] and [target_i] as they were. *)
Theorem only_setters_assign_setpoints (o : operation) (c : PSWController) :
  assigns_setpoint o = false ->
  target_v (snd (call o c)) = target_v c /\
  target_i (snd (call o c)) = target_i c.
Proof.
  intros Ho. destruct (call_summary o c) as (s' & E & _). rewrite E.
  destruct o; try discriminate Ho; split; reflexivity.
Qed.

Lemma only_setters_assign_setpoints_witness :
  assigns_setpoint OpMeasureAll = false /\
  target_v (snd (call OpMeasureAll
     (connected (replies (list_byte_of_string ("12.3400,0.5000" ++ CRLF))) 5 1))) = 5%float /\
  target_i (snd (call OpMeasureAll
     (connected (replies (list_byte_of_string ("12.3400,0.5000" ++ CRLF))) 5 1))) = 1%float.
Proof.
  split; [reflexivity|].
  apply (only_setters_assign_setpoints OpMeasureAll
           (connected (replies (list_byte_of_string ("12.3400,0.5000" ++ CRLF))) 5 1)).
  reflexivity.
Defined.

(** X2.  No operation opens, closes, drops or replaces the port: after
    any of them [is_open()] answers as before, a controller without a
    port still has none, and a port stays wired to the same
    instrument. *)
Theorem operations_keep_connection (o : operation) (c : PSWController) :
  is_open (snd (call o c)) = is_open c /\
  (ser c = None -> ser (snd (call o c)) = None) /\
  (forall p, ser c = Some p ->
     exists p', ser (snd (call o c)) = Some p' /\
                Serial.device p' = Serial.device p).
Proof.
  destruct (call_summary o c) as (s' & E & R). rewrite E.
  assert (forall c0, ser (set_ser s' c0) = s') as Hs by reflexivity.
  assert (forall c0, is_open (set_ser s' c0) =
                     match s' with Some p' => Serial.is_open p' | None => false end)
    as Hi by reflexivity.
  rewrite Hs, Hi. unfold is_open.
  destruct (ser c) as [p|], s' as [p'|]; cbn [port_rel] in R; try contradiction.
  - destruct R as (Ro & Rd & _). split; [exact Ro | split; [discriminate|]].
    intros q [= <-]. exists p'. split; [reflexivity | exact Rd].
  - split; [reflexivity | split; [reflexivity | discriminate]].
Qed.

Lemma operations_keep_connection_witness :
  ser (connected silent 5 1) = Some (Serial.mk true [] [] silent) /\
  is_open (snd (call OpGetIdn (connected silent 5 1))) = is_open (connected silent 5 1) /\
  exists p', ser (snd (call OpGetIdn (connected silent 5 1))) = Some p' /\
             Serial.device p' = Serial.device (Serial.mk true [] [] silent).
Proof.
  split; [reflexivity|].
  pose proof (operations_keep_connection OpGetIdn (connected silent 5 1)) as (H1 & _ & H3).
  split; [exact H1 | exact (H3 _ eq_refl)].
Defined.

(** X3.  An operation writes at most once: afterwards the write log of
    the port is the former log, or the former log plus one line, and that
    line is an ASCII command followed by CR LF. *)
Theorem operations_write_at_most_one_line
    (o : operation) (c : PSWController) (p : Serial.t) :
  ser c = Some p ->
  exists p',
    ser (snd (call o c)) = Some p' /\
    (Serial.tx p' = Serial.tx p \/
     exists cmd : string,
       Py.all_chars Py.is_ascii cmd = true /\
       Serial.tx p' = list_byte_of_string (cmd ++ CRLF) :: Serial.tx p).
Proof.
  intros Hp. destruct (call_summary o c) as (s' & E & R). rewrite E, Hp in *.
  assert (forall c0, ser (set_ser s' c0) = s') as Hs by reflexivity.
  rewrite Hs. destruct s' as [p'|]; cbn [port_rel] in R; [|contradiction].
  exists p'. split; [reflexivity | apply R].
Qed.

Lemma operations_write_at_most_one_line_witness :
  ser (connected silent 5 1) = Some (Serial.mk true [] [] silent) /\
  exists p',
    ser (snd (call (OpSetOvp 15) (connected silent 5 1))) = Some p' /\
    (Serial.tx p' = Serial.tx (Serial.mk true [] [] silent) \/
     exists cmd : string,
       Py.all_chars Py.is_ascii cmd = true /\
       Serial.tx p' =
         list_byte_of_string (cmd ++ CRLF) :: Serial.tx (Serial.mk true [] [] silent)).
Proof.
  split; [reflexivity|].
  apply (operations_write_at_most_one_line (OpSetOvp 15) (connected silent 5 1)).
  reflexivity.
Defined.

(** ** Commands that cannot be encoded *)

(** X4.  A command with a character outside ASCII is never transmitted.
    On an open connection [_write] and [query] raise
    [UnicodeEncodeError] before anything is written; on a closed one the
    connection check comes first and they raise [NotConnectedError].  The
    controller is unchanged either way. *)
Theorem non_ascii_command_not_sent (cmd : string) (c : PSWController) :
  Py.all_chars Py.is_ascii cmd = false ->
  _write cmd c =
    (Raise (if is_open c then UnicodeEncodeError else NotConnectedError), c) /\
  query cmd c =
    (Raise (if is_open c then UnicodeEncodeError else NotConnectedError), c).
Proof.
  intros Ha.
  assert (_write cmd c =
          (Raise (if is_open c then UnicodeEncodeError else NotConnectedError), c)) as W.
  { unfold _write, bind, gets. destruct (is_open c); cbn [negb]; [|reflexivity].
    unfold Py.encode_ascii. rewrite all_chars_app, Ha. reflexivity. }
  split; [exact W|]. unfold query, bind. rewrite W. reflexivity.
Qed.

Lemma non_ascii_command_not_sent_witness :
  Py.all_chars Py.is_ascii (String "181" "V") = false /\
  _write (String "181" "V") (connected silent 5 1) =
    (Raise (if is_open (connected silent 5 1) then UnicodeEncodeError
            else NotConnectedError), connected silent 5 1) /\
  query (String "181" "V") (connected silent 5 1) =
    (Raise (if is_open (connected silent 5 1) then UnicodeEncodeError
            else NotConnectedError), connected silent 5 1).
Proof.
  split; [reflexivity|].
  apply (non_ascii_command_not_sent (String "181" "V") (connected silent 5 1)).
  reflexivity.
Defined.

(** ** Closing *)

Lemma call_closed (o : operation) (c : PSWController) :
  is_open c = false ->
  fst (call o c) = Raise NotConnectedError /\ ser (snd (call o c)) = ser c.
Proof.
  intros H.
  destruct o as [| |v|i| | | |remote|v| | |i| | | |cmd|cmd];
    cbn [call];
    unfold void, get_idn, apply_vi, output_on, output_off, measure_all,
      set_remote, set_ovp, get_ovp, disable_ovp, set_ocp, get_ocp,
      disable_ocp, get_protection_status;
    try (rewrite set_voltage_closed by exact H; split; reflexivity);
    try (rewrite set_current_closed by exact H; split; reflexivity);
    try destruct remote;
    unfold bind, gets;
    rewrite ?query_closed by exact H;
    rewrite ?write_closed by exact H;
    split; reflexivity.
Qed.

(** X5.  After [close()], on any controller, every operation that sends
    a command fails with [NotConnectedError], and the controller holds no
    port. *)
Theorem close_then_operation_fails (o : operation) (c : PSWController) :
  failure (fst ((close ;; call o) c)) = Some NotConnectedError /\
  ser (snd ((close ;; call o) c)) = None.
Proof.
  assert (exists c', close c = (Ok tt, c') /\ ser c' = None) as (c' & Ec & Hs).
  { unfold close, modify. eexists. split; [reflexivity|].
    destruct (ser c) as [p|]; [destruct (Serial.is_open p)|]; reflexivity. }
  unfold bind. rewrite Ec.
  assert (is_open c' = false) as Ho by (unfold is_open; rewrite Hs; reflexivity).
  destruct (call_closed o c' Ho) as [F S].
  split; [rewrite F; reflexivity | rewrite S; exact Hs].
Qed.

(** ** Replies: stale, missing, echoed *)

Lemma take_line_app (line rest : list byte) :
  ~ In x0a line ->
  Serial.take_line (line ++ x0a :: rest) = ((line ++ [x0a])%list, rest).
Proof.
  induction line as [|b line IH]; intros Hn.
  - reflexivity.
  - change (Serial.take_line ((b :: line) ++ x0a :: rest))
      with (if Byte.eqb b x0a then ([b], (line ++ x0a :: rest)%list)
            else let '(l, r) := Serial.take_line (line ++ x0a :: rest) in (b :: l, r)).
    destruct (Byte.eqb b x0a) eqn:Eb.
    + exfalso. apply Hn. left. apply Byte.byte_dec_bl in Eb. exact Eb.
    + rewrite IH by (intros K; apply Hn; right; exact K). reflexivity.
Qed.

Lemma take_line_no_lf (data : list byte) :
  ~ In x0a data -> Serial.take_line data = (data, []).
Proof.
  induction data as [|b data IH]; intros Hn.
  - reflexivity.
  - change (Serial.take_line (b :: data))
      with (if Byte.eqb b x0a then ([b], data)
            else let '(l, r) := Serial.take_line data in (b :: l, r)).
    destruct (Byte.eqb b x0a) eqn:Eb.
    + exfalso. apply Hn. left. apply Byte.byte_dec_bl in Eb. exact Eb.
    + rewrite IH by (intros K; apply Hn; right; exact K). reflexivity.
Qed.

(** X6.  [query] does not discard input that is already pending: when a
    complete line waits in the receive buffer, [query] returns that older
    line, whatever the instrument answers to the command just sent; the
    answer is queued behind the rest of the buffer for a later read. *)
Theorem query_returns_oldest_pending_line
    (cmd : string) (c : PSWController) (p : Serial.t) (line rest : list byte) :
  ser c = Some p ->
  Serial.is_open p = true ->
  Py.all_chars Py.is_ascii cmd = true ->
  Serial.rx p = (line ++ x0a :: rest)%list ->
  ~ In x0a line ->
  query cmd c =
    (Ok (Py.strip (Py.decode_ascii_ignore (line ++ [x0a]))),
     mkPSW
       (Some (Serial.mk true
          (list_byte_of_string (cmd ++ CRLF) :: Serial.tx p)
          (rest ++ Serial.device p (list_byte_of_string (cmd ++ CRLF) :: Serial.tx p))
          (Serial.device p)))
       (target_v c) (target_i c)).
Proof.
  intros Hs Ho Ha Hrx Hn.
  assert (Py.all_chars Py.is_ascii (cmd ++ CRLF) = true) as Ha'
    by (rewrite all_chars_app, Ha; reflexivity).
  rewrite (query_open cmd _ c p Hs Ho (encode_ascii_ok _ Ha')).
  unfold read_on, sent_on. cbn [Serial.rx Serial.tx Serial.device].
  rewrite Hrx, <- app_assoc, <- app_comm_cons.
  rewrite (take_line_app line _ Hn). reflexivity.
Qed.

Lemma query_returns_oldest_pending_line_witness :
  ser (mkPSW (Some (Serial.mk true [] [x4f; x4b; x0d; x0a; x37]
         (replies [x31; x2c; x32; x0d; x0a]))) 5 1) =
    Some (Serial.mk true [] [x4f; x4b; x0d; x0a; x37] (replies [x31; x2c; x32; x0d; x0a])) /\
  query "MEASure:SCALar:ALL?"
    (mkPSW (Some (Serial.mk true [] [x4f; x4b; x0d; x0a; x37]
         (replies [x31; x2c; x32; x0d; x0a]))) 5 1) =
    (Ok "OK",
     mkPSW
       (Some (Serial.mk true
          [list_byte_of_string ("MEASure:SCALar:ALL?" ++ CRLF)]
          [x37; x31; x2c; x32; x0d; x0a]
          (replies [x31; x2c; x32; x0d; x0a])))
       5 1).
Proof.
  split; [reflexivity|].
  apply (query_returns_oldest_pending_line "MEASure:SCALar:ALL?"
           (mkPSW (Some (Serial.mk true [] [x4f; x4b; x0d; x0a; x37]
              (replies [x31; x2c; x32; x0d; x0a]))) 5 1)
           (Serial.mk true [] [x4f; x4b; x0d; x0a; x37] (replies [x31; x2c; x32; x0d; x0a]))
           [x4f; x4b; x0d] [x37]);
    try reflexivity.
  intros [K|[K|[K|K]]]; try discriminate K; exact K.
Defined.

(** X7.  When the instrument stays silent and nothing is pending, the
    read times out with no byte and the queries split in two groups:
    [get_idn] returns the empty string and [measure_all] returns
    [(None, None, "")], whereas [get_ovp], [get_ocp] and
    [get_protection_status] raise [ValueError], the empty reply being
    neither a float nor an integer. *)
Theorem silent_instrument_outcomes (c : PSWController) (p : Serial.t) :
  ser c = Some p ->
  Serial.is_open p = true ->
  Serial.rx p = [] ->
  (forall sent, Serial.device p sent = []) ->
  fst (get_idn c) = Ok EmptyString /\
  fst (measure_all c) = Ok (None, None, EmptyString) /\
  fst (get_ovp c) = Raise ValueError /\
  fst (get_ocp c) = Raise ValueError /\
  fst (get_protection_status c) = Raise ValueError.
Proof.
  intros Hs Ho Hrx Hd.
  assert (forall cmd line, Py.encode_ascii (cmd ++ CRLF) = Some line ->
            exists c', query cmd c = (Ok EmptyString, c')) as Q.
  { intros cmd line He. eexists.
    rewrite (query_open cmd line c p Hs Ho He).
    unfold sent_on. cbn [Serial.rx]. rewrite Hrx, Hd. reflexivity. }
  repeat split.
  - unfold get_idn. destruct (Q "*IDN?" _ eq_refl) as (c' & E). rewrite E. reflexivity.
  - unfold measure_all, bind at 1.
    destruct (Q "MEASure:SCALar:ALL?" _ eq_refl) as (c' & E). rewrite E. reflexivity.
  - unfold get_ovp, bind.
    destruct (Q "SOURce:VOLTage:PROTection:LEVel?" _ eq_refl) as (c' & E).
    rewrite E. reflexivity.
  - unfold get_ocp, bind.
    destruct (Q "SOURce:CURRent:PROTection:LEVel?" _ eq_refl) as (c' & E).
    rewrite E. reflexivity.
  - unfold get_protection_status, bind.
    destruct (Q "STATus:QUEStionable:CONDition?" _ eq_refl) as (c' & E).
    rewrite E. reflexivity.
Qed.

Lemma silent_instrument_outcomes_witness :
  ser (connected silent 5 1) = Some (Serial.mk true [] [] silent) /\
  fst (get_idn (connected silent 5 1)) = Ok EmptyString /\
  fst (measure_all (connected silent 5 1)) = Ok (None, None, EmptyString) /\
  fst (get_ovp (connected silent 5 1)) = Raise ValueError /\
  fst (get_ocp (connected silent 5 1)) = Raise ValueError /\
  fst (get_protection_status (connected silent 5 1)) = Raise ValueError.
Proof.
  split; [reflexivity|].
  apply (silent_instrument_outcomes (connected silent 5 1) (Serial.mk true [] [] silent));
    reflexivity.
Defined.

(** *** What [_write] frames, [_readline] unframes *)

Lemma byte_code (a : ascii) : Byte.to_N (byte_of_ascii a) = N_of_ascii a.
Proof. destruct a as [[] [] [] [] [] [] [] []]; reflexivity. Qed.

Lemma list_byte_of_string_cons (a : ascii) (s : string) :
  list_byte_of_string (String a s) = byte_of_ascii a :: list_byte_of_string s.
Proof. reflexivity. Qed.

Lemma list_byte_of_string_app (s t : string) :
  list_byte_of_string (s ++ t) = (list_byte_of_string s ++ list_byte_of_string t)%list.
Proof.
  induction s as [|a s IH]; [reflexivity|].
  cbn [append]. rewrite !list_byte_of_string_cons, IH. reflexivity.
Qed.

(** Decoding what was encoded gives the text back. *)
Lemma decode_encode (s : string) :
  Py.all_chars Py.is_ascii s = true ->
  Py.decode_ascii_ignore (list_byte_of_string s) = s.
Proof.
  unfold Py.decode_ascii_ignore.
  induction s as [|a s IH]; cbn [Py.all_chars]; intros H; [reflexivity|].
  apply andb_true_iff in H. destruct H as [Ha Hs].
  rewrite list_byte_of_string_cons. cbn [filter].
  rewrite byte_code.
  assert ((N_of_ascii a <? 128)%N = true) as Hlt.
  { unfold Py.is_ascii, Py.ord in Ha. apply Z.ltb_lt in Ha. apply N.ltb_lt. lia. }
  rewrite Hlt.
  change (string_of_list_byte (byte_of_ascii a :: ?l))
    with (String (ascii_of_byte (byte_of_ascii a)) (string_of_list_byte l)).
  rewrite ascii_of_byte_of_ascii, (IH Hs). reflexivity.
Qed.

Lemma no_lf_bytes (s : string) :
  has_char "010" s = false -> ~ In x0a (list_byte_of_string s).
Proof.
  induction s as [|a s IH]; cbn [has_char]; intros H K.
  - exact K.
  - apply orb_false_iff in H. destruct H as [Ha Hs].
    rewrite list_byte_of_string_cons in K. destruct K as [K|K].
    + apply (f_equal ascii_of_byte) in K. rewrite ascii_of_byte_of_ascii in K.
      subst a. discriminate Ha.
    + exact (IH Hs K).
Qed.

Lemma rstrip_all_space (sp : ascii -> bool) (t : string) :
  Py.all_chars sp t = true -> Py.rstrip_with sp t = EmptyString.
Proof.
  induction t as [|a t IH]; cbn [Py.all_chars Py.rstrip_with]; intros H; [reflexivity|].
  apply andb_true_iff in H. destruct H as [Ha Ht]. rewrite (IH Ht), Ha. reflexivity.
Qed.

Lemma rstrip_app_space (sp : ascii -> bool) (s t : string) :
  Py.all_chars sp t = true ->
  Py.rstrip_with sp (s ++ t) = Py.rstrip_with sp s.
Proof.
  intros Ht. induction s as [|a s IH]; cbn [append Py.rstrip_with].
  - apply rstrip_all_space, Ht.
  - rewrite IH. reflexivity.
Qed.

Lemma lstrip_app (sp : ascii -> bool) (s t : string) :
  Py.lstrip_with sp (s ++ t) =
    match Py.lstrip_with sp s with
    | EmptyString => Py.lstrip_with sp t
    | r => (r ++ t)%string
    end.
Proof.
  induction s as [|a s IH]; cbn [append Py.lstrip_with]; [reflexivity|].
  destruct (sp a); [exact IH | reflexivity].
Qed.

(** White space added at the end does not show after [strip]. *)
Lemma strip_app_space (s t : string) :
  Py.all_chars Py.str_isspace t = true -> Py.strip (s ++ t) = Py.strip s.
Proof.
  intros Ht. unfold Py.strip, Py.lstrip, Py.rstrip. rewrite lstrip_app.
  destruct (Py.lstrip_with Py.str_isspace s) as [|a r] eqn:E.
  - assert (forall u, Py.all_chars Py.str_isspace u = true ->
                      Py.lstrip_with Py.str_isspace u = EmptyString) as L.
    { induction u as [|b u IH]; cbn [Py.all_chars Py.lstrip_with]; intros H; [reflexivity|].
      apply andb_true_iff in H. destruct H as [Hb Hu]. rewrite Hb. exact (IH Hu). }
    rewrite (L t Ht). reflexivity.
  - change (String a r ++ t)%string with (String a (r ++ t)).
    change (String a (r ++ t)) with (String a r ++ t)%string.
    apply rstrip_app_space, Ht.
Qed.

(** X8.  Round trip of the framing.  Against an instrument that sends
    every line straight back, [query(cmd)] returns [cmd] itself, for
    every ASCII command without line feed and without white space at
    either end: the CR LF that [_write] appends is what [_readline]
    strips, and encoding then decoding loses nothing. *)
Theorem query_loopback_round_trip (cmd : string) (c : PSWController) (p : Serial.t) :
  ser c = Some p ->
  Serial.is_open p = true ->
  Serial.rx p = [] ->
  Serial.device p = loopback ->
  Py.all_chars Py.is_ascii cmd = true ->
  has_char "010" cmd = false ->
  Py.strip cmd = cmd ->
  fst (query cmd c) = Ok cmd.
Proof.
  intros Hs Ho Hrx Hd Ha Hlf Hst.
  assert (Py.all_chars Py.is_ascii (cmd ++ CRLF) = true) as Ha'
    by (rewrite all_chars_app, Ha; reflexivity).
  rewrite (query_open cmd _ c p Hs Ho (encode_ascii_ok _ Ha')).
  unfold sent_on. cbn [fst Serial.rx]. rewrite Hrx, Hd. cbn [loopback app].
  assert (list_byte_of_string (cmd ++ CRLF) =
          ((list_byte_of_string cmd ++ [x0d]) ++ x0a :: [])%list) as Eb.
  { rewrite list_byte_of_string_app, <- app_assoc. reflexivity. }
  rewrite app_nil_l, Eb, take_line_app.
  - cbn [fst]. rewrite <- Eb. rewrite (decode_encode _ Ha').
    rewrite strip_app_space by reflexivity. rewrite Hst. reflexivity.
  - intros K. apply in_app_or in K. destruct K as [K|[K|[]]].
    + exact (no_lf_bytes cmd Hlf K).
    + discriminate K.
Qed.

Lemma query_loopback_round_trip_witness :
  ser (connected loopback 5 1) = Some (Serial.mk true [] [] loopback) /\
  fst (query "*IDN?" (connected loopback 5 1)) = Ok "*IDN?".
Proof.
  split; [reflexivity|].
  apply (query_loopback_round_trip "*IDN?" (connected loopback 5 1)
           (Serial.mk true [] [] loopback)); reflexivity.
Defined.

(** ** Reading back what the [.4f] format printed *)

Lemma fixed_char_not_underscore (c : ascii) :
  fixed_char c = true -> negb (Ascii.eqb c "_") = true.
Proof.
  destruct c as [[] [] [] [] [] [] [] []]; vm_compute; intros H;
    first [reflexivity | discriminate H].
Qed.

Lemma fixed_char_not_space (c : ascii) :
  fixed_char c = true -> negb (Py.c_isspace c) = true.
Proof.
  destruct c as [[] [] [] [] [] [] [] []]; vm_compute; intros H;
    first [reflexivity | discriminate H].
Qed.

Lemma fixed_char_not_str_space (c : ascii) :
  fixed_char c = true -> negb (Py.str_isspace c) = true.
Proof.
  destruct c as [[] [] [] [] [] [] [] []]; vm_compute; intros H;
    first [reflexivity | discriminate H].
Qed.

Lemma is_digit_fixed_char (c : ascii) : Py.is_digit c = true -> fixed_char c = true.
Proof. intros H. unfold fixed_char. rewrite H. reflexivity. Qed.

Lemma fixed4_chars (n : Z) : Py.all_chars fixed_char (Py.fixed4 n) = true.
Proof.
  unfold Py.fixed4. rewrite all_chars_app.
  rewrite (all_chars_weaken _ _ _ is_digit_fixed_char (str_of_nat_digits _)).
  cbn [append Py.all_chars andb].
  rewrite !(is_digit_fixed_char _ (decimal_digit n _)).
  rewrite (is_digit_fixed_char _ (last_digit n)).
  reflexivity.
Qed.

Lemma format_4f_chars (x : float) :
  Py.isfinite x = true -> Py.all_chars fixed_char (Py.format_4f x) = true.
Proof.
  unfold Py.isfinite, Py.format_4f.
  destruct (Prim2SF x) as [s|s| |s m e]; intros H; try discriminate H;
    cbn [Py.format_4f_sf]; rewrite all_chars_app, fixed4_chars;
    destruct s; reflexivity.
Qed.

Lemma underscores_ok_without (s : string) (prev : option ascii) :
  prev <> Some "_"%char ->
  Py.all_chars (fun c => negb (Ascii.eqb c "_")) s = true ->
  Py.underscores_ok prev s = true.
Proof.
  revert prev. induction s as [|c s IH]; intros prev Hp H;
    cbn [Py.underscores_ok Py.all_chars] in *.
  - destruct prev as [q|]; [|reflexivity].
    destruct (Ascii.eqb q "_") eqn:E; [|reflexivity].
    apply Ascii.eqb_eq in E. subst q. exfalso. apply Hp. reflexivity.
  - apply andb_true_iff in H. destruct H as [Hc Hs].
    apply negb_true_iff in Hc. rewrite Hc.
    rewrite IH; [| intros [= K]; subst c; discriminate Hc | exact Hs].
    destruct prev as [q|]; [|reflexivity].
    destruct (Ascii.eqb q "_") eqn:E; [|reflexivity].
    apply Ascii.eqb_eq in E. subst q. exfalso. apply Hp. reflexivity.
Qed.

Lemma remove_underscores_without (s : string) :
  Py.all_chars (fun c => negb (Ascii.eqb c "_")) s = true ->
  Py.remove_underscores s = s.
Proof.
  induction s as [|c s IH]; cbn [Py.remove_underscores Py.all_chars]; intros H.
  - reflexivity.
  - apply andb_true_iff in H. destruct H as [Hc Hs].
    apply negb_true_iff in Hc. rewrite Hc, (IH Hs). reflexivity.
Qed.

Lemma strip_with_fixed (sp : ascii -> bool) (s : string) :
  (forall c, fixed_char c = true -> negb (sp c) = true) ->
  Py.all_chars fixed_char s = true ->
  Py.rstrip_with sp (Py.lstrip_with sp s) = s.
Proof.
  intros Hsp H.
  assert (Py.lstrip_with sp s = s) as L.
  { destruct s as [|c s]; [reflexivity|].
    cbn [Py.all_chars] in H. apply andb_true_iff in H. destruct H as [Hc _].
    apply lstrip_head. apply negb_true_iff. apply Hsp, Hc. }
  rewrite L. apply rstrip_no_space.
  exact (all_chars_weaken _ _ _ Hsp H).
Qed.

Lemma digit_value_char (d : Z) : 0 <= d < 10 -> Py.digit_value (Py.digit_char d) = d.
Proof.
  intros H.
  assert (d = 0 \/ d = 1 \/ d = 2 \/ d = 3 \/ d = 4 \/ d = 5 \/ d = 6 \/
          d = 7 \/ d = 8 \/ d = 9) as E by lia.
  repeat (destruct E as [E|E]; [subst d; reflexivity|]).
  subst d; reflexivity.
Qed.

(** [take_digits] runs through a numeral and stops where it ends. *)
Lemma take_digits_uint (d : uint) (acc n : Z) (rest : string) :
  match rest with
  | String c _ => Py.is_digit c = false
  | EmptyString => True
  end ->
  exists n', n <= n' /\
    Py.take_digits acc n (NilEmpty.string_of_uint d ++ rest) = (uint_value acc d, n', rest).
Proof.
  intros Hr. revert acc n.
  induction d as [|d IH|d IH|d IH|d IH|d IH|d IH|d IH|d IH|d IH|d IH];
    intros acc n; cbn [NilEmpty.string_of_uint append uint_value].
  - exists n. split; [lia|].
    destruct rest as [|c r]; [reflexivity|]. cbn [Py.take_digits]. rewrite Hr. reflexivity.
  - destruct (IH (10 * acc) (n + 1)) as (n' & Hn & E). exists n'. split; [lia|].
    cbn [Py.take_digits]. change (Py.is_digit "0") with true. cbv iota.
    change (Py.digit_value "0") with 0. rewrite Z.add_0_r. exact E.
  - destruct (IH (10 * acc + 1) (n + 1)) as (n' & Hn & E). exists n'. split; [lia|]. exact E.
  - destruct (IH (10 * acc + 2) (n + 1)) as (n' & Hn & E). exists n'. split; [lia|]. exact E.
  - destruct (IH (10 * acc + 3) (n + 1)) as (n' & Hn & E). exists n'. split; [lia|]. exact E.
  - destruct (IH (10 * acc + 4) (n + 1)) as (n' & Hn & E). exists n'. split; [lia|]. exact E.
  - destruct (IH (10 * acc + 5) (n + 1)) as (n' & Hn & E). exists n'. split; [lia|]. exact E.
  - destruct (IH (10 * acc + 6) (n + 1)) as (n' & Hn & E). exists n'. split; [lia|]. exact E.
  - destruct (IH (10 * acc + 7) (n + 1)) as (n' & Hn & E). exists n'. split; [lia|]. exact E.
  - destruct (IH (10 * acc + 8) (n + 1)) as (n' & Hn & E). exists n'. split; [lia|]. exact E.
  - destruct (IH (10 * acc + 9) (n + 1)) as (n' & Hn & E). exists n'. split; [lia|]. exact E.
Qed.

Lemma take_digits_one (d acc n : Z) (s : string) :
  0 <= d < 10 ->
  Py.take_digits acc n (String (Py.digit_char d) s) =
  Py.take_digits (10 * acc + d) (n + 1) s.
Proof.
  intros H. cbn [Py.take_digits].
  rewrite (digit_char_is_digit d H), (digit_value_char d H). reflexivity.
Qed.

(** The text of [n] ten-thousandths is read as [n] times [10^-4]. *)
Lemma parse_decimal_fixed4 (n : Z) :
  0 <= n -> Py.parse_decimal (Py.fixed4 n) = Some (n, -4).
Proof.
  intros Hn. unfold Py.parse_decimal, Py.fixed4, Py.str_of_nat.
  destruct (take_digits_uint (N.to_uint (Z.to_N (n / 10000))) 0 0
              ("." ++ String (Py.digit_char (n / 1000 mod 10))
                 (String (Py.digit_char (n / 100 mod 10))
                    (String (Py.digit_char (n / 10 mod 10))
                       (String (Py.digit_char (n mod 10)) EmptyString)))) eq_refl)
    as (ni & Hni & E).
  rewrite E. cbn [append].
  rewrite !take_digits_one by (apply Z.mod_pos_bound; lia).
  cbn [Py.take_digits Py.parse_exponent option_map].
  replace (0 <? ni + (0 + 1 + 1 + 1 + 1)) with true by (symmetry; apply Z.ltb_lt; lia).
  f_equal. f_equal.
  rewrite uint_value_0.
  change (Pos.of_uint (N.to_uint (Z.to_N (n / 10000))))
    with (N.of_uint (N.to_uint (Z.to_N (n / 10000)))).
  rewrite DecimalN.Unsigned.of_to.
  rewrite Z2N.id by (apply Z.div_pos; lia).
  pose proof (Z.div_mod n 10 ltac:(lia)) as D1.
  pose proof (Z.div_mod (n / 10) 10 ltac:(lia)) as D2.
  pose proof (Z.div_mod (n / 100) 10 ltac:(lia)) as D3.
  pose proof (Z.div_mod (n / 1000) 10 ltac:(lia)) as D4.
  pose proof (Z.div_div n 10 10 ltac:(lia) ltac:(lia)) as Q2.
  pose proof (Z.div_div n 100 10 ltac:(lia) ltac:(lia)) as Q3.
  pose proof (Z.div_div n 1000 10 ltac:(lia) ltac:(lia)) as Q4.
  change (10 * 10) with 100 in Q2. change (100 * 10) with 1000 in Q3.
  change (1000 * 10) with 10000 in Q4.
  rewrite Q2 in D2. rewrite Q3 in D3. rewrite Q4 in D4.
  lia.
Qed.

Lemma round_half_even_nonneg (num den : Z) :
  0 <= num -> 0 < den -> 0 <= Py.round_half_even num den.
Proof.
  intros Hn Hd. unfold Py.round_half_even.
  assert (0 <= num / den) as Hq by (apply Z.div_pos; lia).
  destruct (2 * (num mod den) ?= den); [destruct (Z.even (num / den))| |]; lia.
Qed.

Lemma scaled4_nonneg (m : positive) (e : Z) : 0 <= Py.scaled4 m e.
Proof.
  unfold Py.scaled4. destruct (0 <=? e) eqn:He.
  - apply Z.leb_le in He.
    assert (0 < 2 ^ e) by (apply Z.pow_pos_nonneg; lia). nia.
  - apply Z.leb_gt in He. apply round_half_even_nonneg; [lia|].
    apply Z.pow_pos_nonneg; lia.
Qed.

Lemma fixed4_head (n : Z) :
  exists a r, Py.fixed4 n = String a r /\ Py.is_digit a = true.
Proof.
  unfold Py.fixed4.
  pose proof (str_of_nat_nonempty (n / 10000)) as Hne.
  pose proof (str_of_nat_digits (n / 10000)) as Hd.
  destruct (Py.str_of_nat (n / 10000)) as [|a r]; [exfalso; apply Hne; reflexivity|].
  cbn [Py.all_chars] in Hd. apply andb_true_iff in Hd.
  eexists. eexists. split; [reflexivity | apply Hd].
Qed.

Lemma unsigned_head (a : ascii) (r : string) :
  Py.is_digit a = true ->
  match String a r with
  | String "-" r' => (true, r')
  | String "+" r' => (false, r')
  | _ => (false, String a r)
  end = (false, String a r).
Proof.
  intros H. destruct a as [[] [] [] [] [] [] [] []]; try reflexivity; discriminate H.
Qed.

Lemma not_a_keyword (a : ascii) (r : string) :
  Py.is_digit a = true ->
  String.eqb (Py.lower_str (String a r)) "inf" = false /\
  String.eqb (Py.lower_str (String a r)) "infinity" = false /\
  String.eqb (Py.lower_str (String a r)) "nan" = false.
Proof.
  intros H. destruct a as [[] [] [] [] [] [] [] []];
    first [discriminate H | repeat split; reflexivity].
Qed.

(** [float] reads the text of [n] ten-thousandths, signed or not, as the
    binary64 number nearest to [n / 10000]. *)
Lemma py_float_fixed4 (neg : bool) (n : Z) :
  0 <= n ->
  Py.py_float (Py.sign_str neg ++ Py.fixed4 n) = Some (Py.round_decimal neg n (-4)).
Proof.
  intros Hn.
  assert (Py.all_chars fixed_char (Py.sign_str neg ++ Py.fixed4 n) = true) as Hc.
  { rewrite all_chars_app, fixed4_chars. destruct neg; reflexivity. }
  unfold Py.py_float.
  rewrite underscores_ok_without;
    [| discriminate | exact (all_chars_weaken _ _ _ fixed_char_not_underscore Hc)].
  rewrite remove_underscores_without
    by exact (all_chars_weaken _ _ _ fixed_char_not_underscore Hc).
  rewrite (strip_with_fixed _ _ fixed_char_not_space Hc).
  destruct (fixed4_head n) as (a & r & E & Ha).
  destruct (not_a_keyword a r Ha) as (K1 & K2 & K3).
  pose proof (unsigned_head a r Ha) as M.
  rewrite <- E in K1, K2, K3, M.
  destruct neg; cbn [Py.sign_str append].
  - rewrite K1, K2, K3. cbn [orb].
    rewrite (parse_decimal_fixed4 n Hn). reflexivity.
  - rewrite M, K1, K2, K3. cbn [orb].
    rewrite (parse_decimal_fixed4 n Hn). reflexivity.
Qed.

(** Whatever finite float was printed with [.4f], [float] reads the text
    back. *)
Lemma py_float_format_4f (x : float) :
  Py.isfinite x = true -> exists y, Py.py_float (Py.format_4f x) = Some y.
Proof.
  unfold Py.isfinite, Py.format_4f.
  destruct (Prim2SF x) as [s|s| |s m e]; intros H; try discriminate H;
    cbn [Py.format_4f_sf]; eexists; apply py_float_fixed4.
  - lia.
  - apply scaled4_nonneg.
Qed.

(** ** Replies in the instrument's own number format *)

(** A query whose answer is one clean line returns the text of that
    line. *)
Lemma query_reply (cmd text : string) (c : PSWController) (p : Serial.t) :
  ser c = Some p ->
  Serial.is_open p = true ->
  Serial.rx p = [] ->
  Py.all_chars Py.is_ascii cmd = true ->
  Serial.device p (list_byte_of_string (cmd ++ CRLF) :: Serial.tx p) =
    list_byte_of_string (text ++ CRLF) ->
  Py.all_chars Py.is_ascii text = true ->
  has_char "010" text = false ->
  Py.strip text = text ->
  fst (query cmd c) = Ok text.
Proof.
  intros Hs Ho Hrx Ha Hd Hat Hlf Hst.
  assert (Py.all_chars Py.is_ascii (cmd ++ CRLF) = true) as Ha'
    by (rewrite all_chars_app, Ha; reflexivity).
  assert (Py.all_chars Py.is_ascii (text ++ CRLF) = true) as Hat'
    by (rewrite all_chars_app, Hat; reflexivity).
  rewrite (query_open cmd _ c p Hs Ho (encode_ascii_ok _ Ha')).
  unfold sent_on. cbn [fst Serial.rx]. rewrite Hrx, Hd, app_nil_l.
  assert (list_byte_of_string (text ++ CRLF) =
          ((list_byte_of_string text ++ [x0d]) ++ x0a :: [])%list) as Eb.
  { rewrite list_byte_of_string_app, <- app_assoc. reflexivity. }
  rewrite Eb, take_line_app.
  - cbn [fst]. rewrite <- Eb. rewrite (decode_encode _ Hat').
    rewrite strip_app_space by reflexivity. rewrite Hst. reflexivity.
  - intros K. apply in_app_or in K. destruct K as [K|[K|[]]].
    + exact (no_lf_bytes text Hlf K).
    + discriminate K.
Qed.

Lemma fixed_char_no (x : ascii) (s : string) :
  fixed_char x = false -> Py.all_chars fixed_char s = true -> has_char x s = false.
Proof.
  intros Hx. induction s as [|c s IH]; cbn [Py.all_chars has_char]; intros H.
  - reflexivity.
  - apply andb_true_iff in H. destruct H as [Hc Hs]. rewrite (IH Hs).
    destruct (Ascii.eqb c x) eqn:E; [|reflexivity].
    apply Ascii.eqb_eq in E. subst c. congruence.
Qed.

Lemma fixed_text_is_ascii (s : string) :
  Py.all_chars fixed_char s = true -> Py.all_chars Py.is_ascii s = true.
Proof.
  apply all_chars_weaken. intros c.
  destruct c as [[] [] [] [] [] [] [] []]; vm_compute; intros H;
    first [reflexivity | discriminate H].
Qed.

Lemma fixed_text_strip (s : string) :
  Py.all_chars fixed_char s = true -> Py.strip s = s.
Proof. intros H. exact (strip_with_fixed _ s fixed_char_not_str_space H). Qed.

Lemma strip_prefix_app (pre rest : list byte) :
  strip_prefix pre (pre ++ rest) = Some rest.
Proof.
  induction pre as [|b pre IH]; [reflexivity|].
  change (strip_prefix (b :: pre) ((b :: pre) ++ rest))
    with (if Byte.eqb b b then strip_prefix pre (pre ++ rest) else None).
  replace (Byte.eqb b b) with true by (symmetry; apply Byte.byte_dec_lb; reflexivity).
  exact IH.
Qed.

(** X9.  Round trip of the OVP level for every finite float [v]:
    against the instrument that echoes the level last set,
    [set_ovp(v)] followed by [get_ovp()] does not fail and returns what
    [float] reads in the four-decimal text of [v]. *)
Theorem ovp_round_trip_finite (v : float) (c : PSWController) (p : Serial.t) :
  ser c = Some p ->
  Serial.is_open p = true ->
  Serial.rx p = [] ->
  Serial.device p = echo_ovp ->
  Py.isfinite v = true ->
  exists y,
    Py.py_float (Py.format_4f v) = Some y /\
    fst ((set_ovp v ;; get_ovp) c) = Ok y.
Proof.
  intros Hs Ho Hrx Hd Hv.
  destruct (py_float_format_4f v Hv) as (y & Hy). exists y. split; [exact Hy|].
  pose proof (format_4f_chars v Hv) as Hc.
  assert (Py.all_chars Py.is_ascii
            (("SOURce:VOLTage:PROTection:LEVel " ++ Py.format_4f v) ++ CRLF) = true) as Ha.
  { rewrite !all_chars_app, format_4f_ascii. reflexivity. }
  unfold set_ovp. unfold bind at 1.
  rewrite (write_open _ _ c p Hs Ho (encode_ascii_ok _ Ha)).
  set (setline := list_byte_of_string
         (("SOURce:VOLTage:PROTection:LEVel " ++ Py.format_4f v) ++ CRLF)).
  assert (setline =
          (list_byte_of_string "SOURce:VOLTage:PROTection:LEVel " ++
           list_byte_of_string (Py.format_4f v ++ CRLF))%list) as Es.
  { unfold setline. rewrite !list_byte_of_string_app, <- app_assoc. reflexivity. }
  assert (echo_ovp (setline :: Serial.tx p) = []) as E1.
  { unfold echo_ovp, list_byte_eqb.
    destruct (list_eq_dec Byte.byte_eq_dec setline _) as [K|_]; [|reflexivity].
    exfalso. rewrite Es in K.
    apply (f_equal (fun l => nth 31 l x00)) in K.
    rewrite app_nth1 in K by (vm_compute; lia).
    vm_compute in K. discriminate K. }
  assert (echo_ovp
            (list_byte_of_string ("SOURce:VOLTage:PROTection:LEVel?" ++ CRLF)
             :: setline :: Serial.tx p) =
          list_byte_of_string (Py.format_4f v ++ CRLF)) as E2.
  { unfold echo_ovp, list_byte_eqb.
    destruct (list_eq_dec Byte.byte_eq_dec _ _) as [_|K]; [|exfalso; apply K; reflexivity].
    cbn [last_ovp_level]. rewrite Es, strip_prefix_app. reflexivity. }
  unfold get_ovp, bind.
  pose proof (query_reply "SOURce:VOLTage:PROTection:LEVel?" (Py.format_4f v)
                (set_ser (Some (sent_on setline p)) c) (sent_on setline p)) as Q.
  cbn [sent_on Serial.rx Serial.tx Serial.device Serial.is_open] in Q.
  rewrite Hrx, Hd, E1 in Q.
  specialize (Q eq_refl eq_refl eq_refl eq_refl E2 (fixed_text_is_ascii _ Hc)
                (fixed_char_no "010" _ eq_refl Hc) (fixed_text_strip _ Hc)).
  destruct (query "SOURce:VOLTage:PROTection:LEVel?" _) as [[reply|e] c'];
    cbn [fst] in Q; [|discriminate Q].
  injection Q as ->. unfold float_of. rewrite Hy. reflexivity.
Qed.

Lemma ovp_round_trip_finite_witness :
  ser (connected echo_ovp 5 1) = Some (Serial.mk true [] [] echo_ovp) /\
  Py.isfinite 12.345678 = true /\
  exists y,
    Py.py_float (Py.format_4f 12.345678) = Some y /\
    fst ((set_ovp 12.345678 ;; get_ovp) (connected echo_ovp 5 1)) = Ok y.
Proof.
  split; [reflexivity | split; [reflexivity |]].
  apply (ovp_round_trip_finite 12.345678 (connected echo_ovp 5 1)
           (Serial.mk true [] [] echo_ovp)); reflexivity.
Defined.

Lemma strip_clean (s : string) :
  Py.all_chars (fun c => negb (Py.str_isspace c)) s = true -> Py.strip s = s.
Proof.
  intros H. unfold Py.strip, Py.lstrip, Py.rstrip.
  assert (Py.lstrip_with Py.str_isspace s = s) as L.
  { destruct s as [|c s]; [reflexivity|].
    cbn [Py.all_chars] in H. apply andb_true_iff in H. destruct H as [Hc _].
    apply lstrip_head. apply negb_true_iff, Hc. }
  rewrite L. apply rstrip_no_space, H.
Qed.

Lemma has_char_app (x : ascii) (s t : string) :
  has_char x (s ++ t) = has_char x s || has_char x t.
Proof.
  induction s as [|d s IH]; [reflexivity|].
  cbn [append has_char]. rewrite IH. apply orb_assoc.
Qed.

(** X10.  A measurement reply made of two finite numbers in the
    four-decimal format, joined by a comma, is always understood:
    [measure_all()] returns both values, each as [float] reads its text,
    and the raw reply. *)
Theorem measure_all_reads_fixed_notation
    (a b : float) (c : PSWController) (p : Serial.t) :
  ser c = Some p ->
  Serial.is_open p = true ->
  Serial.rx p = [] ->
  Serial.device p (list_byte_of_string ("MEASure:SCALar:ALL?" ++ CRLF) :: Serial.tx p) =
    list_byte_of_string ((Py.format_4f a ++ "," ++ Py.format_4f b) ++ CRLF) ->
  Py.isfinite a = true ->
  Py.isfinite b = true ->
  exists x y,
    Py.py_float (Py.format_4f a) = Some x /\
    Py.py_float (Py.format_4f b) = Some y /\
    fst (measure_all c) =
      Ok (Some x, Some y, (Py.format_4f a ++ "," ++ Py.format_4f b)%string).
Proof.
  intros Hs Ho Hrx Hd Ha Hb.
  destruct (py_float_format_4f a Ha) as (x & Hx).
  destruct (py_float_format_4f b Hb) as (y & Hy).
  exists x, y. split; [exact Hx | split; [exact Hy|]].
  pose proof (format_4f_chars a Ha) as Ca.
  pose proof (format_4f_chars b Hb) as Cb.
  assert (fst (query "MEASure:SCALar:ALL?" c) =
          Ok (Py.format_4f a ++ "," ++ Py.format_4f b)%string) as Q.
  { apply (query_reply "MEASure:SCALar:ALL?" _ c p Hs Ho Hrx eq_refl Hd).
    - rewrite !all_chars_app, !format_4f_ascii. reflexivity.
    - rewrite !has_char_app, (fixed_char_no "010" _ eq_refl Ca),
        (fixed_char_no "010" _ eq_refl Cb).
      reflexivity.
    - apply strip_clean. rewrite !all_chars_app.
      rewrite (all_chars_weaken _ _ _ fixed_char_not_str_space Ca).
      rewrite (all_chars_weaken _ _ _ fixed_char_not_str_space Cb).
      reflexivity. }
  unfold measure_all, bind at 1.
  destruct (query "MEASure:SCALar:ALL?" c) as [[reply|e] c'];
    cbn [fst] in Q; [|discriminate Q].
  injection Q as ->.
  unfold try_except, bind.
  change (Py.format_4f a ++ "," ++ Py.format_4f b)%string
    with (Py.format_4f a ++ String "," (Py.format_4f b))%string.
  rewrite split_at_sep by exact (fixed_char_no "," _ eq_refl Ca).
  rewrite split_without_sep by exact (fixed_char_no "," _ eq_refl Cb).
  cbn [unpack2 ret]. unfold float_of. rewrite Hx, Hy. reflexivity.
Qed.

Lemma measure_all_reads_fixed_notation_witness :
  ser (connected (replies (list_byte_of_string ("-0.0500,3.1416" ++ CRLF))) 5 1) =
    Some (Serial.mk true [] [] (replies (list_byte_of_string ("-0.0500,3.1416" ++ CRLF)))) /\
  Py.isfinite (-0.05) = true /\
  Py.isfinite 3.14159 = true /\
  exists x y,
    Py.py_float (Py.format_4f (-0.05)) = Some x /\
    Py.py_float (Py.format_4f 3.14159) = Some y /\
    fst (measure_all
           (connected (replies (list_byte_of_string ("-0.0500,3.1416" ++ CRLF))) 5 1)) =
      Ok (Some x, Some y, (Py.format_4f (-0.05) ++ "," ++ Py.format_4f 3.14159)%string).
Proof.
  split; [reflexivity | split; [reflexivity | split; [reflexivity |]]].
  apply (measure_all_reads_fixed_notation (-0.05) 3.14159
           (connected (replies (list_byte_of_string ("-0.0500,3.1416" ++ CRLF))) 5 1)
           (Serial.mk true [] [] (replies (list_byte_of_string ("-0.0500,3.1416" ++ CRLF)))));
    reflexivity.
Defined.

(** ** Levels and setpoints on an open connection *)

(** X11.  On an open connection [set_ovp(x)] and [set_ocp(x)] transmit
    the voltage and the current protection-level command with [x] in the
    [.4f] format, which for a finite [x] is fixed notation with exactly
    four digits after the point; they change nothing but the port. *)
Theorem protection_level_commands (x : float) (c : PSWController) :
  is_open c = true ->
  Py.isfinite x = true ->
  exists p,
    ser c = Some p /\
    set_ovp x c =
      (Ok tt,
       mkPSW (Some (sent_on
                (list_byte_of_string
                   (("SOURce:VOLTage:PROTection:LEVel " ++ Py.format_4f x) ++ CRLF)) p))
         (target_v c) (target_i c)) /\
    set_ocp x c =
      (Ok tt,
       mkPSW (Some (sent_on
                (list_byte_of_string
                   (("SOURce:CURRent:PROTection:LEVel " ++ Py.format_4f x) ++ CRLF)) p))
         (target_v c) (target_i c)) /\
    has_4_decimals (Py.format_4f x) = true.
Proof.
  intros Ho Hx. destruct (is_open_inv c Ho) as (p & Hs & Hp).
  exists p. split; [exact Hs|]. unfold set_ovp, set_ocp.
  rewrite (write_open ("SOURce:VOLTage:PROTection:LEVel " ++ Py.format_4f x) _ c p Hs Hp)
    by (apply encode_ascii_ok; rewrite !all_chars_app, format_4f_ascii; reflexivity).
  rewrite (write_open ("SOURce:CURRent:PROTection:LEVel " ++ Py.format_4f x) _ c p Hs Hp)
    by (apply encode_ascii_ok; rewrite !all_chars_app, format_4f_ascii; reflexivity).
  split; [reflexivity | split; [reflexivity | exact (format_4f_finite x Hx)]].
Qed.

Lemma protection_level_commands_witness :
  is_open (connected silent 5 1) = true /\
  Py.isfinite 2 = true /\
  exists p,
    ser (connected silent 5 1) = Some p /\
    set_ovp 2 (connected silent 5 1) =
      (Ok tt,
       mkPSW (Some (sent_on
                (list_byte_of_string
                   (("SOURce:VOLTage:PROTection:LEVel " ++ Py.format_4f 2) ++ CRLF)) p))
         (target_v (connected silent 5 1)) (target_i (connected silent 5 1))) /\
    set_ocp 2 (connected silent 5 1) =
      (Ok tt,
       mkPSW (Some (sent_on
                (list_byte_of_string
                   (("SOURce:CURRent:PROTection:LEVel " ++ Py.format_4f 2) ++ CRLF)) p))
         (target_v (connected silent 5 1)) (target_i (connected silent 5 1))) /\
    has_4_decimals (Py.format_4f 2) = true.
Proof.
  split; [reflexivity | split; [reflexivity |]].
  apply (protection_level_commands 2 (connected silent 5 1)); reflexivity.
Defined.

(** X12.  The controller validates no value: on an open connection
    [set_voltage], [set_current], [set_ovp] and [set_ocp] succeed for
    every float, negative numbers, infinities and NaN included, and a
    setpoint is stored as given. *)
Theorem setters_accept_every_float (x : float) (c : PSWController) :
  is_open c = true ->
  fst (set_voltage x c) = Ok tt /\ target_v (snd (set_voltage x c)) = x /\
  fst (set_current x c) = Ok tt /\ target_i (snd (set_current x c)) = x /\
  fst (set_ovp x c) = Ok tt /\
  fst (set_ocp x c) = Ok tt.
Proof.
  intros Ho. destruct (is_open_inv c Ho) as (p & Hs & Hp).
  unfold set_voltage, set_current, set_ovp, set_ocp, bind, modify.
  rewrite (apply_vi_open (set_target_v x c) p Hs Hp).
  rewrite (apply_vi_open (set_target_i x c) p Hs Hp).
  rewrite (write_open ("SOURce:VOLTage:PROTection:LEVel " ++ Py.format_4f x) _ c p Hs Hp)
    by (apply encode_ascii_ok; rewrite !all_chars_app, format_4f_ascii; reflexivity).
  rewrite (write_open ("SOURce:CURRent:PROTection:LEVel " ++ Py.format_4f x) _ c p Hs Hp)
    by (apply encode_ascii_ok; rewrite !all_chars_app, format_4f_ascii; reflexivity).
  repeat split.
Qed.

Lemma setters_accept_every_float_witness :
  is_open (connected silent 5 1) = true /\
  fst (set_voltage nan (connected silent 5 1)) = Ok tt /\
  target_v (snd (set_voltage nan (connected silent 5 1))) = nan /\
  fst (set_current nan (connected silent 5 1)) = Ok tt /\
  target_i (snd (set_current nan (connected silent 5 1))) = nan /\
  fst (set_ovp nan (connected silent 5 1)) = Ok tt /\
  fst (set_ocp nan (connected silent 5 1)) = Ok tt.
Proof.
  split; [reflexivity|].
  apply (setters_accept_every_float nan (connected silent 5 1)). reflexivity.
Defined.

(** What a NaN or a negative setpoint looks like on the wire. *)
Example apply_nan_and_negative :
  option_map Serial.tx
    (ser (snd ((set_voltage nan ;; set_current (-1.5)) (connected silent 5 1)))) =
  Some [list_byte_of_string ("APPLy nan,-1.5000" ++ CRLF);
        list_byte_of_string ("APPLy nan,1.0000" ++ CRLF)].
Proof. vm_compute. reflexivity. Qed.

(** * The slots of the main window *)

(** ** A slot on a closed connection *)

Lemma run_closed_keeps_controller (s : Gui.slot) (w : Gui.MainWindow) :
  is_open (Gui.psw w) = false -> Gui.psw (Gui.run s w) = Gui.psw w.
Proof.
  intros H.
  destruct w as [combo bc bo br ev ea eo ec co cc lw out c r].
  cbn [Gui.psw] in H.
  destruct s as [| | | | | | | | |b|b|]; cbn [Gui.run];
    unfold Gui.handle_test_clicked, Gui.handle_on_clicked, Gui.handle_off_clicked,
      Gui.handle_set_v_clicked, Gui.handle_set_a_clicked, Gui.handle_read_clicked,
      Gui.handle_remote_clicked, Gui.handle_set_ovp_clicked, Gui.handle_set_ocp_clicked,
      Gui.handle_ovp_enable_toggled, Gui.handle_ocp_enable_toggled,
      Gui.handle_prot_status_clicked;
    cbn [Gui.psw]; rewrite H; cbn [negb];
    unfold Gui.log, Gui.update_remote_button;
    destruct lw as [lines|], br as [b0|], co as [b1|], cc as [b2|], r;
    reflexivity.
Qed.

(** X13.  Every slot that sends a command first checks the connection:
    while the controller is not open, the slot leaves the controller and
    the remote flag untouched and logs the one line that asks to connect
    first.  No setpoint is assigned and nothing is written; the argument
    of [set_voltage] or [set_current] is not even parsed. *)
Theorem slots_guard_closed_connection (s : Gui.slot) (w : Gui.MainWindow) :
  is_open (Gui.psw w) = false ->
  Gui.psw (Gui.run s w) = Gui.psw w /\
  Gui.is_remote (Gui.run s w) = Gui.is_remote w /\
  Gui.logged (Gui.run s w) = Gui.not_connected :: Gui.logged w.
Proof.
  intros H.
  destruct w as [combo bc bo br ev ea eo ec co cc lw out c r].
  cbn [Gui.psw] in H.
  destruct s as [| | | | | | | | |b|b|]; cbn [Gui.run];
    unfold Gui.handle_test_clicked, Gui.handle_on_clicked, Gui.handle_off_clicked,
      Gui.handle_set_v_clicked, Gui.handle_set_a_clicked, Gui.handle_read_clicked,
      Gui.handle_remote_clicked, Gui.handle_set_ovp_clicked, Gui.handle_set_ocp_clicked,
      Gui.handle_ovp_enable_toggled, Gui.handle_ocp_enable_toggled,
      Gui.handle_prot_status_clicked;
    cbn [Gui.psw]; rewrite H; cbn [negb];
    unfold Gui.log, Gui.logged, Gui.update_remote_button;
    destruct lw as [lines|], br as [b0|], co as [b1|], cc as [b2|], r;
    repeat split; reflexivity.
Qed.

Lemma slots_guard_closed_connection_witness :
  is_open (Gui.psw (Gui.window init "12.5" "1.0" "15.0" "2.0" false)) = false /\
  Gui.psw (Gui.run Gui.SetV (Gui.window init "12.5" "1.0" "15.0" "2.0" false)) =
    Gui.psw (Gui.window init "12.5" "1.0" "15.0" "2.0" false) /\
  Gui.is_remote (Gui.run Gui.SetV (Gui.window init "12.5" "1.0" "15.0" "2.0" false)) =
    Gui.is_remote (Gui.window init "12.5" "1.0" "15.0" "2.0" false) /\
  Gui.logged (Gui.run Gui.SetV (Gui.window init "12.5" "1.0" "15.0" "2.0" false)) =
    Gui.not_connected :: Gui.logged (Gui.window init "12.5" "1.0" "15.0" "2.0" false).
Proof.
  split; [reflexivity|].
  apply (slots_guard_closed_connection Gui.SetV
           (Gui.window init "12.5" "1.0" "15.0" "2.0" false)).
  reflexivity.
Defined.

(** ** Numbers typed by the user *)

Lemma set_voltage_open (v : float) (c : PSWController) (p : Serial.t) :
  ser c = Some p -> Serial.is_open p = true ->
  set_voltage v c =
    (Ok tt,
     mkPSW (Some (sent_on
              (list_byte_of_string
                 (("APPLy " ++ Py.format_4f v ++ "," ++ Py.format_4f (target_i c)) ++ CRLF))
              p)) v (target_i c)).
Proof.
  intros Hs Hp. unfold set_voltage, bind, modify.
  rewrite (apply_vi_open (set_target_v v c) p Hs Hp). reflexivity.
Qed.

Lemma set_current_open (i : float) (c : PSWController) (p : Serial.t) :
  ser c = Some p -> Serial.is_open p = true ->
  set_current i c =
    (Ok tt,
     mkPSW (Some (sent_on
              (list_byte_of_string
                 (("APPLy " ++ Py.format_4f (target_v c) ++ "," ++ Py.format_4f i) ++ CRLF))
              p)) (target_v c) i).
Proof.
  intros Hs Hp. unfold set_current, bind, modify.
  rewrite (apply_vi_open (set_target_i i c) p Hs Hp). reflexivity.
Qed.

Lemma is_open_of_port (c : PSWController) (p : Serial.t) :
  ser c = Some p -> Serial.is_open p = true -> is_open c = true.
Proof. intros Hs Hp. unfold is_open. rewrite Hs. exact Hp. Qed.

(** X14.  An ASCII text that [float] rejects stops a slot before the
    controller is touched.  On an open connection the slots that read a
    number ([set_v], [set_a], [set OVP], [set OCP] and the two enable
    check boxes when checked) then leave the controller as it was,
    nothing being transmitted, and log that the value is invalid; the
    enable check boxes keep their state. *)
Theorem bad_number_sends_nothing (w : Gui.MainWindow) (txt : string) :
  is_open (Gui.psw w) = true ->
  Py.all_chars Py.is_ascii txt = true ->
  Py.py_float txt = None ->
  (Gui.edit_volt w = Some txt ->
   Gui.psw (Gui.handle_set_v_clicked w) = Gui.psw w /\
   Gui.logged (Gui.handle_set_v_clicked w) =
     Gui.Line "Giá trị volt không hợp lệ." :: Gui.logged w) /\
  (Gui.edit_ampe w = Some txt ->
   Gui.psw (Gui.handle_set_a_clicked w) = Gui.psw w /\
   Gui.logged (Gui.handle_set_a_clicked w) =
     Gui.Line "Giá trị ampe không hợp lệ." :: Gui.logged w) /\
  (Gui.edit_ovp w = Some txt ->
   Gui.psw (Gui.handle_set_ovp_clicked w) = Gui.psw w /\
   Gui.logged (Gui.handle_set_ovp_clicked w) =
     Gui.Line "Giá trị OVP không hợp lệ." :: Gui.logged w /\
   Gui.psw (Gui.handle_ovp_enable_toggled true w) = Gui.psw w /\
   Gui.chk_ovp_en (Gui.handle_ovp_enable_toggled true w) = Gui.chk_ovp_en w /\
   Gui.logged (Gui.handle_ovp_enable_toggled true w) =
     Gui.Line "Giá trị OVP không hợp lệ." :: Gui.logged w) /\
  (Gui.edit_ocp w = Some txt ->
   Gui.psw (Gui.handle_set_ocp_clicked w) = Gui.psw w /\
   Gui.logged (Gui.handle_set_ocp_clicked w) =
     Gui.Line "Giá trị OCP không hợp lệ." :: Gui.logged w /\
   Gui.psw (Gui.handle_ocp_enable_toggled true w) = Gui.psw w /\
   Gui.chk_ocp_en (Gui.handle_ocp_enable_toggled true w) = Gui.chk_ocp_en w /\
   Gui.logged (Gui.handle_ocp_enable_toggled true w) =
     Gui.Line "Giá trị OCP không hợp lệ." :: Gui.logged w).
Proof.
  intros Ho _ Hf.
  destruct w as [combo bc bo br ev ea eo ec co cc lw out c r].
  cbn [Gui.psw Gui.edit_volt Gui.edit_ampe Gui.edit_ovp Gui.edit_ocp] in *.
  unfold Gui.handle_set_v_clicked, Gui.handle_set_a_clicked, Gui.handle_set_ovp_clicked,
    Gui.handle_set_ocp_clicked, Gui.handle_ovp_enable_toggled,
    Gui.handle_ocp_enable_toggled.
  cbn [Gui.psw Gui.edit_volt Gui.edit_ampe Gui.edit_ovp Gui.edit_ocp].
  rewrite Ho. cbn [negb].
  split; [|split; [|split]]; intros ->; rewrite Hf; unfold Gui.log, Gui.logged;
    destruct lw as [lines|]; repeat split; reflexivity.
Qed.

Lemma bad_number_sends_nothing_witness :
  is_open (Gui.psw (Gui.window (connected silent 5 1) "12,5" "12,5" "12,5" "12,5" false)) = true /\
  Py.all_chars Py.is_ascii "12,5" = true /\
  Py.py_float "12,5" = None /\
  Gui.psw (Gui.handle_set_v_clicked
             (Gui.window (connected silent 5 1) "12,5" "12,5" "12,5" "12,5" false)) =
    connected silent 5 1.
Proof.
  split; [reflexivity | split; [reflexivity | split; [reflexivity |]]].
  apply (bad_number_sends_nothing
           (Gui.window (connected silent 5 1) "12,5" "12,5" "12,5" "12,5" false) "12,5");
    reflexivity.
Defined.

(** X15.  On an open connection, with a text that [float] reads as [v],
    the [set_v] slot assigns [v] to the voltage setpoint and transmits
    one [APPLy] line with [v] and the current setpoint the controller
    holds, then logs that very pair; the [set_a] slot does the same for
    the current, with the voltage setpoint the controller holds. *)
Theorem setpoint_slots_transmit
    (w : Gui.MainWindow) (p : Serial.t) (txt : string) (x : float) :
  ser (Gui.psw w) = Some p ->
  Serial.is_open p = true ->
  Py.py_float txt = Some x ->
  (Gui.edit_volt w = Some txt ->
   Gui.psw (Gui.handle_set_v_clicked w) =
     mkPSW (Some (sent_on
              (list_byte_of_string
                 (("APPLy " ++ Py.format_4f x ++ "," ++
                   Py.format_4f (target_i (Gui.psw w))) ++ CRLF)) p))
       x (target_i (Gui.psw w)) /\
   Gui.logged (Gui.handle_set_v_clicked w) =
     Gui.Line ("Đã set V = " ++ Py.format_4f x ++ " V (APPLy " ++ Py.format_4f x ++ "," ++
               Py.format_4f (target_i (Gui.psw w)) ++ ")") :: Gui.logged w) /\
  (Gui.edit_ampe w = Some txt ->
   Gui.psw (Gui.handle_set_a_clicked w) =
     mkPSW (Some (sent_on
              (list_byte_of_string
                 (("APPLy " ++ Py.format_4f (target_v (Gui.psw w)) ++ "," ++
                   Py.format_4f x) ++ CRLF)) p))
       (target_v (Gui.psw w)) x /\
   Gui.logged (Gui.handle_set_a_clicked w) =
     Gui.Line ("Đã set I = " ++ Py.format_4f x ++ " A (APPLy " ++
               Py.format_4f (target_v (Gui.psw w)) ++ "," ++ Py.format_4f x ++ ")")
     :: Gui.logged w).
Proof.
  intros Hs Hp Hf.
  pose proof (is_open_of_port _ _ Hs Hp) as Ho.
  destruct w as [combo bc bo br ev ea eo ec co cc lw out c r].
  cbn [Gui.psw Gui.edit_volt Gui.edit_ampe] in *.
  unfold Gui.handle_set_v_clicked, Gui.handle_set_a_clicked, Gui.try_psw.
  cbn [Gui.psw Gui.edit_volt Gui.edit_ampe].
  rewrite Ho. cbn [negb].
  split; intros ->; rewrite Hf.
  - rewrite (set_voltage_open x c p Hs Hp).
    unfold Gui.log, Gui.logged, Gui.set_psw. destruct lw as [lines|]; split; reflexivity.
  - rewrite (set_current_open x c p Hs Hp).
    unfold Gui.log, Gui.logged, Gui.set_psw. destruct lw as [lines|]; split; reflexivity.
Qed.

Lemma setpoint_slots_transmit_witness :
  ser (Gui.psw (Gui.window (connected silent 5 1) "12.5" "0.25" "15.0" "2.0" false)) =
    Some (Serial.mk true [] [] silent) /\
  Py.py_float "12.5" = Some 12.5%float /\
  Gui.psw (Gui.handle_set_v_clicked
             (Gui.window (connected silent 5 1) "12.5" "0.25" "15.0" "2.0" false)) =
    mkPSW (Some (Serial.mk true [list_byte_of_string ("APPLy 12.5000,1.0000" ++ CRLF)] []
                   silent)) 12.5 1.
Proof.
  split; [reflexivity | split; [reflexivity |]].
  apply (setpoint_slots_transmit
           (Gui.window (connected silent 5 1) "12.5" "0.25" "15.0" "2.0" false)
           (Serial.mk true [] [] silent) "12.5" 12.5); reflexivity.
Defined.

(** ** Remote and local *)

Lemma remote_slot_step (w : Gui.MainWindow) (p : Serial.t) :
  ser (Gui.psw w) = Some p ->
  Serial.is_open p = true ->
  Gui.is_remote (Gui.handle_remote_clicked w) = negb (Gui.is_remote w) /\
  Gui.psw (Gui.handle_remote_clicked w) =
    mkPSW (Some (sent_on
             (list_byte_of_string
                ((if Gui.is_remote w then "SYSTem:LOCal" else "SYSTem:REMote") ++ CRLF)) p))
      (target_v (Gui.psw w)) (target_i (Gui.psw w)) /\
  Gui.logged (Gui.handle_remote_clicked w) =
    Gui.Line (if Gui.is_remote w then "SYSTem:LOCAL mode" else "SYSTem:REMOTE mode")
    :: Gui.logged w.
Proof.
  intros Hs Hp.
  pose proof (is_open_of_port _ _ Hs Hp) as Ho.
  destruct w as [combo bc bo br ev ea eo ec co cc lw out c r].
  cbn [Gui.psw Gui.is_remote] in *.
  unfold Gui.handle_remote_clicked. cbn [Gui.psw Gui.is_remote].
  rewrite Ho. cbn [negb]. unfold set_remote.
  destruct r; cbn [negb].
  - rewrite (write_open "SYSTem:LOCal" _ c p Hs Hp eq_refl).
    unfold Gui.log, Gui.logged, Gui.update_remote_button.
    destruct br, lw; repeat split; reflexivity.
  - rewrite (write_open "SYSTem:REMote" _ c p Hs Hp eq_refl).
    unfold Gui.log, Gui.logged, Gui.update_remote_button.
    destruct br, lw; repeat split; reflexivity.
Qed.

(** X16.  On an open connection the remote slot toggles: it sends
    [SYSTem:REMote] when the flag was off and [SYSTem:LOCal] when it was
    on, flips the flag, and logs the new mode; the setpoints are not
    touched.  Two clicks in a row bring the flag back. *)
Theorem remote_slot_toggles (w : Gui.MainWindow) (p : Serial.t) :
  ser (Gui.psw w) = Some p ->
  Serial.is_open p = true ->
  Gui.is_remote (Gui.handle_remote_clicked w) = negb (Gui.is_remote w) /\
  Gui.psw (Gui.handle_remote_clicked w) =
    mkPSW (Some (sent_on
             (list_byte_of_string
                ((if Gui.is_remote w then "SYSTem:LOCal" else "SYSTem:REMote") ++ CRLF)) p))
      (target_v (Gui.psw w)) (target_i (Gui.psw w)) /\
  Gui.logged (Gui.handle_remote_clicked w) =
    Gui.Line (if Gui.is_remote w then "SYSTem:LOCAL mode" else "SYSTem:REMOTE mode")
    :: Gui.logged w /\
  Gui.is_remote (Gui.handle_remote_clicked (Gui.handle_remote_clicked w)) =
    Gui.is_remote w.
Proof.
  intros Hs Hp.
  destruct (remote_slot_step w p Hs Hp) as (R1 & P1 & L1).
  split; [exact R1 | split; [exact P1 | split; [exact L1|]]].
  assert (ser (Gui.psw (Gui.handle_remote_clicked w)) =
          Some (sent_on
             (list_byte_of_string
                ((if Gui.is_remote w then "SYSTem:LOCal" else "SYSTem:REMote") ++ CRLF)) p))
    as Hs' by (rewrite P1; reflexivity).
  destruct (remote_slot_step (Gui.handle_remote_clicked w) _ Hs' eq_refl) as (R2 & _).
  rewrite R2, R1. apply negb_involutive.
Qed.

Lemma remote_slot_toggles_witness :
  ser (Gui.psw (Gui.window (connected silent 5 1) "5.0" "1.0" "15.0" "2.0" false)) =
    Some (Serial.mk true [] [] silent) /\
  Gui.is_remote (Gui.handle_remote_clicked
     (Gui.window (connected silent 5 1) "5.0" "1.0" "15.0" "2.0" false)) = true /\
  Gui.psw (Gui.handle_remote_clicked
     (Gui.window (connected silent 5 1) "5.0" "1.0" "15.0" "2.0" false)) =
    mkPSW (Some (Serial.mk true [list_byte_of_string ("SYSTem:REMote" ++ CRLF)] [] silent))
      5 1.
Proof.
  split; [reflexivity|].
  pose proof (remote_slot_toggles
                (Gui.window (connected silent 5 1) "5.0" "1.0" "15.0" "2.0" false)
                (Serial.mk true [] [] silent) eq_refl eq_refl) as (H1 & H2 & _).
  split; [exact H1 | exact H2].
Defined.

(** X17.  Whatever happened in the remote slot (closed connection,
    success or failure of the transmission), the remote button, when the
    form has one, shows the remote flag afterwards: checked with the text
    [REMOTE] when the flag is on, unchecked with [LOCAL] when it is
    off. *)
Theorem remote_button_shows_flag (w : Gui.MainWindow) :
  match Gui.btn_remote (Gui.handle_remote_clicked w) with
  | Some b =>
      Gui.checked b = Gui.is_remote (Gui.handle_remote_clicked w) /\
      Gui.text b = if Gui.is_remote (Gui.handle_remote_clicked w) then "REMOTE" else "LOCAL"
  | None => Gui.btn_remote w = None
  end.
Proof.
  destruct w as [combo bc bo br ev ea eo ec co cc lw out c r].
  unfold Gui.handle_remote_clicked. cbn [Gui.psw Gui.is_remote].
  destruct (is_open c); cbn [negb].
  - destruct (set_remote (negb r) c) as [[u|e] c'];
      unfold Gui.log, Gui.update_remote_button;
      destruct br as [b|], r, lw as [lines|]; cbn; repeat split; reflexivity.
  - unfold Gui.log, Gui.update_remote_button;
      destruct br as [b|], r, lw as [lines|]; cbn; repeat split; reflexivity.
Qed.

(** ** Connecting and disconnecting *)

(** X18.  On an open connection the connect button disconnects: the
    controller drops its port and keeps both setpoints, the remote flag
    goes back to local, the ON button loses its colour, the log tells it,
    and from then on every command slot stops at the connection check.
    No port is opened. *)
Theorem disconnect_resets_window
    (ports : string -> result Serial.t) (w : Gui.MainWindow) :
  is_open (Gui.psw w) = true ->
  Gui.psw (Gui.handle_connect_clicked ports w) =
    mkPSW None (target_v (Gui.psw w)) (target_i (Gui.psw w)) /\
  Gui.is_remote (Gui.handle_connect_clicked ports w) = false /\
  Gui.logged (Gui.handle_connect_clicked ports w) =
    Gui.Line "Đã ngắt kết nối." :: Gui.logged w /\
  option_map Gui.styleSheet (Gui.btn_on (Gui.handle_connect_clicked ports w)) =
    option_map (fun _ => EmptyString) (Gui.btn_on w) /\
  option_map Gui.text (Gui.btn_connect (Gui.handle_connect_clicked ports w)) =
    option_map (fun _ => "connect") (Gui.btn_connect w) /\
  (forall s,
     Gui.psw (Gui.run s (Gui.handle_connect_clicked ports w)) =
     mkPSW None (target_v (Gui.psw w)) (target_i (Gui.psw w))).
Proof.
  intros Ho.
  assert (Gui.psw (Gui.handle_connect_clicked ports w) =
          mkPSW None (target_v (Gui.psw w)) (target_i (Gui.psw w))) as P.
  { destruct w as [combo bc bo br ev ea eo ec co cc lw out c r].
    cbn [Gui.psw] in *. unfold Gui.handle_connect_clicked. cbn [Gui.psw].
    rewrite Ho. destruct (is_open_inv c Ho) as (p & Hs & Hp).
    unfold close, modify. rewrite Hs, Hp.
    unfold Gui.log, Gui.update_remote_button, Gui.set_on_button_color.
    destruct bc, bo, br, lw; reflexivity. }
  split; [exact P|].
  split; [|split; [|split; [|split]]].
  - destruct w as [combo bc bo br ev ea eo ec co cc lw out c r].
    cbn [Gui.psw] in *. unfold Gui.handle_connect_clicked. cbn [Gui.psw]. rewrite Ho.
    unfold Gui.log, Gui.update_remote_button, Gui.set_on_button_color.
    destruct bc, bo, br, lw; reflexivity.
  - destruct w as [combo bc bo br ev ea eo ec co cc lw out c r].
    cbn [Gui.psw] in *. unfold Gui.handle_connect_clicked. cbn [Gui.psw]. rewrite Ho.
    unfold Gui.log, Gui.logged, Gui.update_remote_button, Gui.set_on_button_color.
    destruct bc, bo, br, lw; reflexivity.
  - destruct w as [combo bc bo br ev ea eo ec co cc lw out c r].
    cbn [Gui.psw] in *. unfold Gui.handle_connect_clicked. cbn [Gui.psw]. rewrite Ho.
    unfold Gui.log, Gui.update_remote_button, Gui.set_on_button_color.
    destruct bc, bo, br, lw; reflexivity.
  - destruct w as [combo bc bo br ev ea eo ec co cc lw out c r].
    cbn [Gui.psw] in *. unfold Gui.handle_connect_clicked. cbn [Gui.psw]. rewrite Ho.
    unfold Gui.log, Gui.update_remote_button, Gui.set_on_button_color.
    destruct bc, bo, br, lw; reflexivity.
  - intros s.
    assert (is_open (Gui.psw (Gui.handle_connect_clicked ports w)) = false) as Hc
      by (rewrite P; reflexivity).
    rewrite (run_closed_keeps_controller s _ Hc). exact P.
Qed.

Lemma disconnect_resets_window_witness :
  is_open (Gui.psw (Gui.window (connected silent 5 1) "5.0" "1.0" "15.0" "2.0" true)) = true /\
  Gui.psw (Gui.handle_connect_clicked (fun _ => Raise SerialException)
             (Gui.window (connected silent 5 1) "5.0" "1.0" "15.0" "2.0" true)) =
    mkPSW None 5 1 /\
  Gui.is_remote (Gui.handle_connect_clicked (fun _ => Raise SerialException)
             (Gui.window (connected silent 5 1) "5.0" "1.0" "15.0" "2.0" true)) = false.
Proof.
  split; [reflexivity|].
  pose proof (disconnect_resets_window (fun _ => Raise SerialException)
                (Gui.window (connected silent 5 1) "5.0" "1.0" "15.0" "2.0" true)
                eq_refl) as (H1 & H2 & _).
  split; [exact H1 | exact H2].
Defined.

(** X19.  On a closed controller the connect button opens the port
    selected in the combo box.  When [serial.Serial] succeeds the
    controller holds the new port, with the setpoints it had, and the
    button reads [disconnect]; when it raises, the exception is logged,
    the controller keeps its state and stays closed, and the button keeps
    its text.  With nothing selected the slot only logs that no port is
    chosen. *)
Theorem connect_opens_selected_port
    (ports : string -> result Serial.t) (w : Gui.MainWindow) :
  is_open (Gui.psw w) = false ->
  (forall port, Gui.get_selected_port w = Some port -> port <> EmptyString ->
     match ports port with
     | Ok p =>
         Gui.psw (Gui.handle_connect_clicked ports w) =
           mkPSW (Some p) (target_v (Gui.psw w)) (target_i (Gui.psw w)) /\
         Gui.logged (Gui.handle_connect_clicked ports w) =
           Gui.Line ("Đã kết nối " ++ port ++ ".") :: Gui.logged w /\
         option_map Gui.text (Gui.btn_connect (Gui.handle_connect_clicked ports w)) =
           option_map (fun _ => "disconnect") (Gui.btn_connect w)
     | Raise e =>
         Gui.psw (Gui.handle_connect_clicked ports w) = Gui.psw w /\
         Gui.logged (Gui.handle_connect_clicked ports w) =
           Gui.LineExc ("Lỗi mở " ++ port ++ ": ") (Gui.Controller e) :: Gui.logged w /\
         Gui.btn_connect (Gui.handle_connect_clicked ports w) = Gui.btn_connect w
     end) /\
  (Gui.get_selected_port w = None \/ Gui.get_selected_port w = Some EmptyString ->
   Gui.psw (Gui.handle_connect_clicked ports w) = Gui.psw w /\
   Gui.logged (Gui.handle_connect_clicked ports w) =
     Gui.Line "Chưa chọn cổng COM." :: Gui.logged w).
Proof.
  intros Ho. split.
  - intros port Hsel Hne.
    unfold Gui.handle_connect_clicked. rewrite Ho, Hsel.
    destruct port as [|a port']; [exfalso; apply Hne; reflexivity|].
    unfold Gui.try_psw, open.
    destruct w as [combo bc bo br ev ea eo ec co cc lw out c r].
    destruct (ports (String a port')) as [p|e]; cbn [Gui.psw modify raise];
      unfold Gui.log, Gui.logged; destruct lw, bc; cbn; destruct c;
      repeat split; reflexivity.
  - intros Hsel. unfold Gui.handle_connect_clicked. rewrite Ho.
    destruct w as [combo bc bo br ev ea eo ec co cc lw out c r].
    destruct Hsel as [-> | ->]; unfold Gui.log, Gui.logged; destruct lw;
      split; reflexivity.
Qed.

Lemma connect_opens_selected_port_witness :
  is_open (Gui.psw (Gui.window (stale 5 1) "5.0" "1.0" "15.0" "2.0" false)) = false /\
  Gui.get_selected_port (Gui.window (stale 5 1) "5.0" "1.0" "15.0" "2.0" false) =
    Some "COM3" /\
  Gui.psw (Gui.handle_connect_clicked (fun _ => Ok (Serial.mk true [] [] silent))
             (Gui.window (stale 5 1) "5.0" "1.0" "15.0" "2.0" false)) =
    connected silent 5 1.
Proof.
  split; [reflexivity | split; [reflexivity |]].
  pose proof (connect_opens_selected_port (fun _ => Ok (Serial.mk true [] [] silent))
                (Gui.window (stale 5 1) "5.0" "1.0" "15.0" "2.0" false) eq_refl) as (H & _).
  specialize (H "COM3" eq_refl ltac:(discriminate)). cbv beta iota in H.
  exact (proj1 H).
Defined.

(** ** Enabling and disabling a protection *)

(** X20.  The OVP check box.  Unchecking it on an open connection sends
    the level [MAX], whatever the OVP edit holds; checking it with a text
    that [float] reads as [v] sends the level [v] in the [.4f] format,
    like the [set OVP] button.  On a closed controller the check box,
    when the form has one, is put back to the state it had before the
    click.  The OCP check box behaves the same with the current
    commands. *)
Theorem protection_check_boxes (w : Gui.MainWindow) :
  (forall p, ser (Gui.psw w) = Some p -> Serial.is_open p = true ->
     Gui.psw (Gui.handle_ovp_enable_toggled false w) =
       mkPSW (Some (sent_on
                (list_byte_of_string ("SOURce:VOLTage:PROTection:LEVel MAX" ++ CRLF)) p))
         (target_v (Gui.psw w)) (target_i (Gui.psw w)) /\
     Gui.psw (Gui.handle_ocp_enable_toggled false w) =
       mkPSW (Some (sent_on
                (list_byte_of_string ("SOURce:CURRent:PROTection:LEVel MAX" ++ CRLF)) p))
         (target_v (Gui.psw w)) (target_i (Gui.psw w))) /\
  (forall p txt v, ser (Gui.psw w) = Some p -> Serial.is_open p = true ->
     Py.py_float txt = Some v ->
     (Gui.edit_ovp w = Some txt ->
      Gui.psw (Gui.handle_ovp_enable_toggled true w) =
        mkPSW (Some (sent_on
                 (list_byte_of_string
                    (("SOURce:VOLTage:PROTection:LEVel " ++ Py.format_4f v) ++ CRLF)) p))
          (target_v (Gui.psw w)) (target_i (Gui.psw w)) /\
      Gui.psw (Gui.handle_set_ovp_clicked w) =
        Gui.psw (Gui.handle_ovp_enable_toggled true w)) /\
     (Gui.edit_ocp w = Some txt ->
      Gui.psw (Gui.handle_ocp_enable_toggled true w) =
        mkPSW (Some (sent_on
                 (list_byte_of_string
                    (("SOURce:CURRent:PROTection:LEVel " ++ Py.format_4f v) ++ CRLF)) p))
          (target_v (Gui.psw w)) (target_i (Gui.psw w)) /\
      Gui.psw (Gui.handle_set_ocp_clicked w) =
        Gui.psw (Gui.handle_ocp_enable_toggled true w))) /\
  (forall b, is_open (Gui.psw w) = false ->
     Gui.chk_ovp_en (Gui.handle_ovp_enable_toggled b w) =
       option_map (fun _ => negb b) (Gui.chk_ovp_en w) /\
     Gui.chk_ocp_en (Gui.handle_ocp_enable_toggled b w) =
       option_map (fun _ => negb b) (Gui.chk_ocp_en w)).
Proof.
  destruct w as [combo bc bo br ev ea eo ec co cc lw out c r].
  cbn [Gui.psw Gui.edit_ovp Gui.edit_ocp Gui.chk_ovp_en Gui.chk_ocp_en].
  unfold Gui.handle_ovp_enable_toggled, Gui.handle_ocp_enable_toggled,
    Gui.handle_set_ovp_clicked, Gui.handle_set_ocp_clicked, Gui.try_psw.
  cbn [Gui.psw Gui.edit_ovp Gui.edit_ocp].
  split; [|split].
  - intros p Hs Hp. rewrite (is_open_of_port _ _ Hs Hp). cbn [negb].
    unfold disable_ovp, disable_ocp.
    rewrite (write_open "SOURce:VOLTage:PROTection:LEVel MAX" _ c p Hs Hp eq_refl).
    rewrite (write_open "SOURce:CURRent:PROTection:LEVel MAX" _ c p Hs Hp eq_refl).
    unfold Gui.log. destruct lw; split; reflexivity.
  - intros p txt v Hs Hp Hf. rewrite (is_open_of_port _ _ Hs Hp). cbn [negb].
    unfold set_ovp, set_ocp.
    split; intros ->; rewrite Hf.
    + rewrite (write_open ("SOURce:VOLTage:PROTection:LEVel " ++ Py.format_4f v) _ c p Hs Hp)
        by (apply encode_ascii_ok; rewrite !all_chars_app, format_4f_ascii; reflexivity).
      unfold Gui.log. destruct lw; split; reflexivity.
    + rewrite (write_open ("SOURce:CURRent:PROTection:LEVel " ++ Py.format_4f v) _ c p Hs Hp)
        by (apply encode_ascii_ok; rewrite !all_chars_app, format_4f_ascii; reflexivity).
      unfold Gui.log. destruct lw; split; reflexivity.
  - intros b Ho. rewrite Ho. cbn [negb].
    unfold Gui.log. destruct lw, co, cc; split; reflexivity.
Qed.

(** A threshold typed but not applied does not change what unchecking
    sends. *)
Example uncheck_ovp_sends_max :
  option_map Serial.tx
    (ser (Gui.psw (Gui.handle_ovp_enable_toggled false
                     (Gui.window (connected silent 5 1) "5.0" "1.0" "15.0" "2.0" false)))) =
  Some [list_byte_of_string ("SOURce:VOLTage:PROTection:LEVel MAX" ++ CRLF)].
Proof. vm_compute. reflexivity. Qed.

Lemma protection_check_boxes_witness :
  ser (Gui.psw (Gui.window (connected silent 5 1) "5.0" "1.0" "15.0" "2.0" false)) =
    Some (Serial.mk true [] [] silent) /\
  Py.py_float "15.0" = Some 15%float /\
  Gui.psw (Gui.handle_ovp_enable_toggled true
             (Gui.window (connected silent 5 1) "5.0" "1.0" "15.0" "2.0" false)) =
    mkPSW (Some (Serial.mk true
             [list_byte_of_string ("SOURce:VOLTage:PROTection:LEVel 15.0000" ++ CRLF)] []
             silent)) 5 1.
Proof.
  split; [reflexivity | split; [reflexivity |]].
  pose proof (protection_check_boxes
                (Gui.window (connected silent 5 1) "5.0" "1.0" "15.0" "2.0" false))
    as (_ & H & _).
  destruct (H (Serial.mk true [] [] silent) "15.0" 15%float eq_refl eq_refl eq_refl)
    as (Hv & _).
  exact (proj1 (Hv eq_refl)).
Defined.

(** ** Reading back *)

Lemma measure_all_after_query (c c' : PSWController) (reply : string) :
  query "MEASure:SCALar:ALL?" c = (Ok reply, c') ->
  measure_all c =
    match Py.split "," reply with
    | [a; b] =>
        match Py.py_float a, Py.py_float b with
        | Some x, Some y => (Ok (Some x, Some y, reply), c')
        | _, _ => (Ok (None, None, reply), c')
        end
    | _ => (Ok (None, None, reply), c')
    end.
Proof.
  intros Hq. unfold measure_all, bind at 1. rewrite Hq.
  unfold try_except, bind, unpack2, float_of.
  destruct (Py.split "," reply) as [|a [|b [|z fs]]]; cbn [ret raise of_option];
    try reflexivity.
  destruct (Py.py_float a) as [x|]; cbn [ret raise of_option]; [|reflexivity].
  destruct (Py.py_float b) as [y|]; reflexivity.
Qed.

(** X21.  On an open connection the read slot never reports an error.
    The measurement query returns a reply, and the slot appends exactly
    one entry to the log, a text and never a caught exception: when the
    reply has the shape ["<float>,<float>"], the two values in the [.4f]
    format followed by the raw reply; when it has not, the raw reply
    after the name of the command.  One of the two is the case for every
    reply, so the [TypeError] of formatting a missing current cannot
    occur.  The controller is left where the query left it. *)
Theorem read_slot_logs_no_error (w : Gui.MainWindow) :
  is_open (Gui.psw w) = true ->
  exists (reply : string) (c' : PSWController),
    query "MEASure:SCALar:ALL?" (Gui.psw w) = (Ok reply, c') /\
    Gui.psw (Gui.handle_read_clicked w) = c' /\
    ((exists x y, two_floats reply x y) \/ (forall x y, ~ two_floats reply x y)) /\
    (forall x y, two_floats reply x y ->
       Gui.logged (Gui.handle_read_clicked w) =
         Gui.Line ("MEASure:SCALar:ALL? → V=" ++ Py.format_4f x ++ " V, I=" ++
                   Py.format_4f y ++ " A (raw: " ++ reply ++ ")") :: Gui.logged w) /\
    ((forall x y, ~ two_floats reply x y) ->
       Gui.logged (Gui.handle_read_clicked w) =
         Gui.Line ("MEASure:SCALar:ALL? → " ++ reply) :: Gui.logged w).
Proof.
  intros Ho.
  destruct w as [combo bc bo br ev ea eo ec co cc lw out c r].
  cbn [Gui.psw] in Ho.
  destruct (query_open_total "MEASure:SCALar:ALL?" c Ho eq_refl) as (reply & c' & Hq).
  exists reply, c'. cbn [Gui.psw]. split; [exact Hq|].
  unfold Gui.handle_read_clicked, Gui.try_psw. cbn [Gui.psw]. rewrite Ho. cbn [negb].
  rewrite (measure_all_after_query c c' reply Hq).
  assert (forall a b x y, Py.split "," reply = [a; b] ->
            two_floats reply x y -> Py.py_float a = Some x /\ Py.py_float b = Some y)
    as Hsame.
  { intros a b x y Es T. apply two_floats_split in T.
    destruct T as (a0 & b0 & E & Ha0 & Hb0).
    rewrite Es in E. injection E as <- <-. split; assumption. }
  assert (forall x y, two_floats reply x y ->
            exists a b, Py.split "," reply = [a; b]) as Htwo.
  { intros x y T. apply two_floats_split in T.
    destruct T as (a0 & b0 & E & _). exists a0, b0. exact E. }
  destruct (Py.split "," reply) as [|a [|b [|z fs]]] eqn:Es.
  - split; [unfold Gui.log; destruct lw; reflexivity|].
    split; [right; intros x y T; destruct (Htwo x y T) as (a0 & b0 & E); discriminate E|].
    split; [intros x y T; destruct (Htwo x y T) as (a0 & b0 & E); discriminate E|].
    intros _. unfold Gui.log, Gui.logged; destruct lw; reflexivity.
  - split; [unfold Gui.log; destruct lw; reflexivity|].
    split; [right; intros x y T; destruct (Htwo x y T) as (a0 & b0 & E); discriminate E|].
    split; [intros x y T; destruct (Htwo x y T) as (a0 & b0 & E); discriminate E|].
    intros _. unfold Gui.log, Gui.logged; destruct lw; reflexivity.
  - destruct (Py.py_float a) as [x'|] eqn:Ea;
      [destruct (Py.py_float b) as [y'|] eqn:Eb|].
    + split; [unfold Gui.log; destruct lw; reflexivity|].
      assert (two_floats reply x' y') as T'.
      { apply two_floats_split. exists a, b. rewrite Es. split; [reflexivity|].
        split; assumption. }
      split; [left; exists x', y'; exact T'|].
      split.
      * intros x y T. destruct (Hsame a b x y eq_refl T) as (Hx & Hy).
        rewrite Ea in Hx. rewrite Eb in Hy.
        injection Hx as <-. injection Hy as <-.
        unfold Gui.log, Gui.logged; destruct lw; reflexivity.
      * intros N. exfalso. exact (N x' y' T').
    + split; [unfold Gui.log; destruct lw; reflexivity|].
      assert (forall x y, ~ two_floats reply x y) as N.
      { intros x y T. destruct (Hsame a b x y eq_refl T) as (_ & Hy).
        rewrite Eb in Hy. discriminate Hy. }
      split; [right; exact N|].
      split; [intros x y T; exfalso; exact (N x y T)|].
      intros _. unfold Gui.log, Gui.logged; destruct lw; reflexivity.
    + split; [unfold Gui.log; destruct lw; reflexivity|].
      assert (forall x y, ~ two_floats reply x y) as N.
      { intros x y T. destruct (Hsame a b x y eq_refl T) as (Hx & _).
        rewrite Ea in Hx. discriminate Hx. }
      split; [right; exact N|].
      split; [intros x y T; exfalso; exact (N x y T)|].
      intros _. unfold Gui.log, Gui.logged; destruct lw; reflexivity.
  - split; [unfold Gui.log; destruct lw; reflexivity|].
    split; [right; intros x y T; destruct (Htwo x y T) as (a0 & b0 & E); discriminate E|].
    split; [intros x y T; destruct (Htwo x y T) as (a0 & b0 & E); discriminate E|].
    intros _. unfold Gui.log, Gui.logged; destruct lw; reflexivity.
Qed.

Lemma read_slot_logs_no_error_witness :
  is_open (Gui.psw (Gui.window (connected (replies (list_byte_of_string ("ERR" ++ CRLF))) 5 1)
                      "5.0" "1.0" "15.0" "2.0" false)) = true /\
  exists (reply : string) (c' : PSWController),
    query "MEASure:SCALar:ALL?"
      (Gui.psw (Gui.window (connected (replies (list_byte_of_string ("ERR" ++ CRLF))) 5 1)
                  "5.0" "1.0" "15.0" "2.0" false)) = (Ok reply, c') /\
    Gui.psw (Gui.handle_read_clicked
       (Gui.window (connected (replies (list_byte_of_string ("ERR" ++ CRLF))) 5 1)
          "5.0" "1.0" "15.0" "2.0" false)) = c' /\
    ((exists x y, two_floats reply x y) \/ (forall x y, ~ two_floats reply x y)) /\
    (forall x y, two_floats reply x y ->
       Gui.logged (Gui.handle_read_clicked
          (Gui.window (connected (replies (list_byte_of_string ("ERR" ++ CRLF))) 5 1)
             "5.0" "1.0" "15.0" "2.0" false)) =
         Gui.Line ("MEASure:SCALar:ALL? → V=" ++ Py.format_4f x ++ " V, I=" ++
                   Py.format_4f y ++ " A (raw: " ++ reply ++ ")") ::
         Gui.logged (Gui.window (connected (replies (list_byte_of_string ("ERR" ++ CRLF))) 5 1)
                       "5.0" "1.0" "15.0" "2.0" false)) /\
    ((forall x y, ~ two_floats reply x y) ->
       Gui.logged (Gui.handle_read_clicked
          (Gui.window (connected (replies (list_byte_of_string ("ERR" ++ CRLF))) 5 1)
             "5.0" "1.0" "15.0" "2.0" false)) =
         Gui.Line ("MEASure:SCALar:ALL? → " ++ reply) ::
         Gui.logged (Gui.window (connected (replies (list_byte_of_string ("ERR" ++ CRLF))) 5 1)
                       "5.0" "1.0" "15.0" "2.0" false)).
Proof.
  split; [reflexivity|].
  apply (read_slot_logs_no_error
           (Gui.window (connected (replies (list_byte_of_string ("ERR" ++ CRLF))) 5 1)
              "5.0" "1.0" "15.0" "2.0" false)).
  reflexivity.
Defined.

(** The lines logged for a reply of two values, for one that is no
    number, and for one whose second field is none. *)
Example read_slot_lines :
  Gui.logged (Gui.handle_read_clicked
     (Gui.window (connected (replies (list_byte_of_string ("12.3400,0.5000" ++ CRLF))) 5 1)
        "5.0" "1.0" "15.0" "2.0" false)) =
    [Gui.Line "MEASure:SCALar:ALL? → V=12.3400 V, I=0.5000 A (raw: 12.3400,0.5000)"] /\
  Gui.logged (Gui.handle_read_clicked
     (Gui.window (connected (replies (list_byte_of_string ("ERR" ++ CRLF))) 5 1)
        "5.0" "1.0" "15.0" "2.0" false)) =
    [Gui.Line "MEASure:SCALar:ALL? → ERR"] /\
  Gui.logged (Gui.handle_read_clicked
     (Gui.window (connected (replies (list_byte_of_string ("12.34,A" ++ CRLF))) 5 1)
        "5.0" "1.0" "15.0" "2.0" false)) =
    [Gui.Line "MEASure:SCALar:ALL? → 12.34,A"].
Proof. split; [|split]; vm_compute; reflexivity. Qed.

(** X22.  The protection-status slot.  When [int] reads the reply to the
    status query as the integer [n], the slot logs [n] and the trips
    that bits 0 and 1 of [n] tell; when [int] rejects the reply (no
    integer literal, or one of more than 4300 digits), it logs the
    [ValueError].  Either way the slot ends normally and the controller
    is where the query left it. *)
Theorem prot_status_slot_logs
    (w : Gui.MainWindow) (reply : string) (c' : PSWController) :
  is_open (Gui.psw w) = true ->
  query "STATus:QUEStionable:CONDition?" (Gui.psw w) = (Ok reply, c') ->
  Gui.psw (Gui.handle_prot_status_clicked w) = c' /\
  Gui.logged (Gui.handle_prot_status_clicked w) =
    match Py.py_int reply with
    | Some n =>
        Gui.Line ("STAT:QUES:COND? → " ++ Gui.str_of_int n ++ "  → " ++
                  Gui.trip_message (Z.testbit n 0) (Z.testbit n 1))
    | None => Gui.LineExc "Lỗi đọc trạng thái PROT: " (Gui.Controller ValueError)
    end :: Gui.logged w.
Proof.
  intros Ho Hq.
  destruct w as [combo bc bo br ev ea eo ec co cc lw out c r].
  cbn [Gui.psw] in *.
  unfold Gui.handle_prot_status_clicked, Gui.try_psw. cbn [Gui.psw]. rewrite Ho. cbn [negb].
  rewrite (get_protection_status_after_query c c' reply Hq).
  destruct (Py.py_int reply) as [n|]; unfold Gui.log, Gui.logged; destruct lw;
    split; reflexivity.
Qed.

Lemma prot_status_slot_logs_witness :
  is_open (Gui.psw (Gui.window (connected (replies (list_byte_of_string ("3" ++ CRLF))) 5 1)
                      "5.0" "1.0" "15.0" "2.0" false)) = true /\
  Gui.logged (Gui.handle_prot_status_clicked
     (Gui.window (connected (replies (list_byte_of_string ("3" ++ CRLF))) 5 1)
        "5.0" "1.0" "15.0" "2.0" false)) =
  [Gui.Line "STAT:QUES:COND? → 3  → OVP TRIPPED, OCP TRIPPED"].
Proof.
  split; [reflexivity|].
  pose proof (prot_status_slot_logs
     (Gui.window (connected (replies (list_byte_of_string ("3" ++ CRLF))) 5 1)
        "5.0" "1.0" "15.0" "2.0" false) "3" _ eq_refl eq_refl) as (_ & H).
  exact H.
Defined.

(** A register of 4301 digits is logged as the [ValueError] that [int]
    raises on it. *)
Example prot_status_slot_long_register :
  Gui.logged (Gui.handle_prot_status_clicked
     (Gui.window (connected (replies (list_byte_of_string (long_register ++ CRLF))) 5 1)
        "5.0" "1.0" "15.0" "2.0" false)) =
  [Gui.LineExc "Lỗi đọc trạng thái PROT: " (Gui.Controller ValueError)].
Proof. vm_compute. reflexivity. Qed.

(** The four messages. *)
Example trip_messages :
  Gui.trip_message false false = "Không có OVP/OCP trip." /\
  Gui.trip_message true false = "OVP TRIPPED" /\
  Gui.trip_message false true = "OCP TRIPPED" /\
  Gui.trip_message true true = "OVP TRIPPED, OCP TRIPPED".
Proof. repeat split; reflexivity. Qed.

(** ** Start-up *)

(** X23.  What [__init__] leaves: a controller that was never opened,
    hence nothing transmitted, the remote flag off, and the setpoints
    5.0 V and 1.0 A assigned directly, each only when the form has the
    corresponding line edit (otherwise the setpoint stays 0.0); the last
    line logged is the start-up message. *)
Theorem start_up_state (comports : list (string * string)) (form : Gui.MainWindow) :
  ser (Gui.psw (Gui.init_window comports form)) = None /\
  Gui.is_remote (Gui.init_window comports form) = false /\
  target_v (Gui.psw (Gui.init_window comports form)) =
    match Gui.edit_volt form with Some _ => 5%float | None => 0%float end /\
  target_i (Gui.psw (Gui.init_window comports form)) =
    match Gui.edit_ampe form with Some _ => 1%float | None => 0%float end /\
  Gui.edit_volt (Gui.init_window comports form) =
    option_map (fun _ => "5.0") (Gui.edit_volt form) /\
  Gui.edit_ampe (Gui.init_window comports form) =
    option_map (fun _ => "1.0") (Gui.edit_ampe form) /\
  hd_error (Gui.logged (Gui.init_window comports form)) =
    Some (Gui.Line "App started. Chọn cổng COM rồi nhấn 'connect'.").
Proof.
  destruct form as [combo bc bo br ev ea eo ec co cc lw out c r].
  destruct combo, comports, bo, br, ev, ea, eo, ec, lw; repeat split; reflexivity.
Qed.

Lemma init_window_ready
    (comports : list (string * string)) (form : Gui.MainWindow)
    (device description : string) (others : list (string * string)) :
  Gui.combo_ports form <> None ->
  Gui.edit_volt form <> None ->
  Gui.edit_ampe form <> None ->
  comports = (device, description) :: others ->
  Gui.psw (Gui.init_window comports form) = mkPSW None 5 1 /\
  Gui.get_selected_port (Gui.init_window comports form) = Some device /\
  Gui.edit_volt (Gui.init_window comports form) = Some "5.0".
Proof.
  intros Hc Hv Ha ->.
  destruct form as [combo bc bo br ev ea eo ec co cc lw out c r].
  cbn [Gui.combo_ports Gui.edit_volt Gui.edit_ampe] in *.
  destruct combo; [|exfalso; apply Hc; reflexivity].
  destruct ev; [|exfalso; apply Hv; reflexivity].
  destruct ea; [|exfalso; apply Ha; reflexivity].
  destruct bo, br, eo, ec, lw; repeat split; reflexivity.
Qed.

(** X24.  From start-up to the first command.  With a form that has the
    combo box and the two line edits, and a first serial port that opens,
    starting the window, clicking [connect] and then [set_v] without
    typing anything transmits [APPLy 5.0000,1.0000] as the first line on
    the new port: the voltage of the edit and the 1.0 A that [__init__]
    assigned without transmitting it. *)
Theorem first_set_v_after_start_up
    (ports : string -> result Serial.t) (form : Gui.MainWindow)
    (device description : string) (others : list (string * string)) (p : Serial.t) :
  Gui.combo_ports form <> None ->
  Gui.edit_volt form <> None ->
  Gui.edit_ampe form <> None ->
  device <> EmptyString ->
  ports device = Ok p ->
  Serial.is_open p = true ->
  Gui.psw
    (Gui.handle_set_v_clicked
       (Gui.handle_connect_clicked ports
          (Gui.init_window ((device, description) :: others) form))) =
  mkPSW (Some (sent_on (list_byte_of_string ("APPLy 5.0000,1.0000" ++ CRLF)) p)) 5 1.
Proof.
  intros Hc Hv Ha Hd Hp Ho.
  destruct (init_window_ready _ form device description others Hc Hv Ha eq_refl)
    as (P0 & S0 & V0).
  set (w0 := Gui.init_window ((device, description) :: others) form) in *.
  assert (Gui.psw (Gui.handle_connect_clicked ports w0) = mkPSW (Some p) 5 1 /\
          Gui.edit_volt (Gui.handle_connect_clicked ports w0) = Some "5.0") as (P1 & V1).
  { unfold Gui.handle_connect_clicked. rewrite P0, S0. cbn [is_open ser].
    destruct device as [|a d]; [exfalso; apply Hd; reflexivity|].
    unfold Gui.try_psw. rewrite P0, Hp. cbn [open modify].
    clearbody w0. destruct w0 as [combo bc bo br ev ea eo ec co cc lw out c r].
    cbn [Gui.edit_volt] in V0. subst ev.
    unfold Gui.log. destruct lw, bc; split; reflexivity. }
  set (w1 := Gui.handle_connect_clicked ports w0) in *.
  unfold Gui.handle_set_v_clicked. rewrite P1, V1.
  replace (is_open (mkPSW (Some p) 5 1)) with true by (symmetry; exact Ho).
  cbn [negb].
  replace (Py.py_float "5.0") with (Some 5%float) by reflexivity.
  unfold Gui.try_psw. rewrite P1.
  rewrite (set_voltage_open 5 (mkPSW (Some p) 5 1) p eq_refl Ho).
  clearbody w1. destruct w1 as [combo bc bo br ev ea eo ec co cc lw out c r].
  unfold Gui.log. destruct lw; reflexivity.
Qed.

Lemma first_set_v_after_start_up_witness :
  Gui.combo_ports (Gui.window init "" "" "" "" false) <> None /\
  Gui.psw
    (Gui.handle_set_v_clicked
       (Gui.handle_connect_clicked (fun _ => Ok (Serial.mk true [] [] silent))
          (Gui.init_window [("COM3", "PSW")] (Gui.window init "" "" "" "" false)))) =
  mkPSW (Some (Serial.mk true [list_byte_of_string ("APPLy 5.0000,1.0000" ++ CRLF)] []
                 silent)) 5 1.
Proof.
  split; [discriminate|].
  apply (first_set_v_after_start_up (fun _ => Ok (Serial.mk true [] [] silent))
           (Gui.window init "" "" "" "" false) "COM3" "PSW" []
           (Serial.mk true [] [] silent));
    first [discriminate | reflexivity].
Defined.

(** ** Output on and off *)

(** X25.  On an open connection the ON slot transmits
    [OUTPut:STATe ON] and paints the ON button red, the OFF slot
    transmits [OUTPut:STATe OFF] and clears that colour; both leave the
    setpoints and the remote flag alone. *)
Theorem output_slots (w : Gui.MainWindow) (p : Serial.t) :
  ser (Gui.psw w) = Some p ->
  Serial.is_open p = true ->
  Gui.psw (Gui.handle_on_clicked w) =
    mkPSW (Some (sent_on (list_byte_of_string ("OUTPut:STATe ON" ++ CRLF)) p))
      (target_v (Gui.psw w)) (target_i (Gui.psw w)) /\
  option_map Gui.styleSheet (Gui.btn_on (Gui.handle_on_clicked w)) =
    option_map (fun _ => "background-color: red; color: white;") (Gui.btn_on w) /\
  Gui.psw (Gui.handle_off_clicked w) =
    mkPSW (Some (sent_on (list_byte_of_string ("OUTPut:STATe OFF" ++ CRLF)) p))
      (target_v (Gui.psw w)) (target_i (Gui.psw w)) /\
  option_map Gui.styleSheet (Gui.btn_on (Gui.handle_off_clicked w)) =
    option_map (fun _ => EmptyString) (Gui.btn_on w) /\
  Gui.is_remote (Gui.handle_on_clicked w) = Gui.is_remote w /\
  Gui.is_remote (Gui.handle_off_clicked w) = Gui.is_remote w.
Proof.
  intros Hs Hp.
  pose proof (is_open_of_port _ _ Hs Hp) as Ho.
  destruct w as [combo bc bo br ev ea eo ec co cc lw out c r].
  cbn [Gui.psw Gui.btn_on Gui.is_remote] in *.
  unfold Gui.handle_on_clicked, Gui.handle_off_clicked, Gui.try_psw.
  cbn [Gui.psw]. rewrite Ho. cbn [negb]. unfold output_on, output_off.
  rewrite (write_open "OUTPut:STATe ON" _ c p Hs Hp eq_refl).
  rewrite (write_open "OUTPut:STATe OFF" _ c p Hs Hp eq_refl).
  unfold Gui.log, Gui.set_on_button_color.
  destruct lw, bo; repeat split; reflexivity.
Qed.

Lemma output_slots_witness :
  ser (Gui.psw (Gui.window (connected silent 5 1) "5.0" "1.0" "15.0" "2.0" false)) =
    Some (Serial.mk true [] [] silent) /\
  Gui.psw (Gui.handle_on_clicked
             (Gui.window (connected silent 5 1) "5.0" "1.0" "15.0" "2.0" false)) =
    mkPSW (Some (Serial.mk true [list_byte_of_string ("OUTPut:STATe ON" ++ CRLF)] [] silent))
      5 1.
Proof.
  split; [reflexivity|].
  exact (proj1 (output_slots
                  (Gui.window (connected silent 5 1) "5.0" "1.0" "15.0" "2.0" false)
                  (Serial.mk true [] [] silent) eq_refl eq_refl)).
Defined.
